(** * Cineby Stremio addon: the upstream session client and its projections

    A shallow embedding of the JavaScript sources of the addon.  The
    repository holds several near-duplicate servers; each one is a module
    here, named after what sets it apart:

    - [Cached]      the client of [add on.js] and of its sibling with the
                    same [getBuildId] (build id cached for one hour);
    - [Production]  the rate-limited server with [makeRequest];
    - [Retry]       the server with [_withBuildIdRetry];
    - [Server]      [server.js].

    Upstream payloads are records whose scalar fields are JavaScript values
    ([Js.val]); numbers are integer valued, and objects used as lookup
    tables are finite maps over their own keys. *)

From Stdlib Require Import ZArith String Ascii DecimalString List Lia.
From stdpp Require Import gmap strings list sorting.

Open Scope string_scope.
Open Scope Z_scope.

(** ** JavaScript values and the operators the sources use on them *)

Module Js.

Inductive val :=
| Undefined
| Null
| Bool (b : bool)
| Num (n : Z)
| Str (s : string).

(** [ToBoolean]: the test behind [if (v)], [!v], [a || b], [a && b] and
    [filter(Boolean)]. *)
Definition truthy (v : val) : bool :=
  match v with
  | Undefined | Null => false
  | Bool b => b
  | Num n => negb (n =? 0)
  | Str s => negb (String.eqb s "")
  end.

(** [a || b] *)
Definition or (a b : val) : val := if truthy a then a else b.

(** Decimal rendering of an integer valued number, as [Number.prototype.toString]. *)
Definition num_str (n : Z) : string := NilZero.string_of_int (Z.to_int n).

(** [String(v)], the conversion done by a template literal. *)
Definition to_string (v : val) : string :=
  match v with
  | Undefined => "undefined"
  | Null => "null"
  | Bool true => "true"
  | Bool false => "false"
  | Num n => num_str n
  | Str s => s
  end.

(** [v === 'literal'] *)
Definition is_str (v : val) (s : string) : bool :=
  match v with
  | Str t => String.eqb t s
  | _ => false
  end.

(** What a [throw] carries: [err.response.status] when the failure is an
    HTTP response, [err.code] and [err.message]. *)
Record error := Error {
  err_status : option Z;
  err_code : string;
  err_message : string
}.

Definition TypeError (msg : string) : error := Error None "" msg.

Inductive result (A : Type) :=
| Ok (a : A)
| Throw (e : error).
Arguments Ok {A} a.
Arguments Throw {A} e.

Definition rbind {A B} (r : result A) (k : A → result B) : result B :=
  match r with
  | Ok a => k a
  | Throw e => Throw e
  end.

(** [v.toString()]: a property read on [undefined] or [null] throws. *)
Definition toString (v : val) : result string :=
  match v with
  | Undefined => Throw (TypeError "Cannot read properties of undefined (reading 'toString')")
  | Null => Throw (TypeError "Cannot read properties of null (reading 'toString')")
  | _ => Ok (to_string v)
  end.

Fixpoint repeat_char (n : nat) (c : ascii) : string :=
  match n with
  | O => ""
  | S k => String c (repeat_char k c)
  end.

(** [s.padStart(width, c)] for a one character filler. *)
Definition padStart (width : nat) (c : ascii) (s : string) : string :=
  repeat_char (width - String.length s) c +:+ s.

(** [arr.slice(start, end)] with JavaScript's relative (negative) indices. *)
Definition clamp_index (len i : Z) : Z :=
  if i <? 0 then Z.max (len + i) 0 else Z.min i len.

Definition slice {A} (start stop : Z) (l : list A) : list A :=
  let len := Z.of_nat (length l) in
  let k := clamp_index len start in
  let final := clamp_index len stop in
  take (Z.to_nat (final - k)) (drop (Z.to_nat k) l).

(** [arr.sort(compare)]: the sort is stable, and [b] moves ahead of [a]
    only when [compare(a, b) > 0]. *)
Fixpoint sort_insert {A} (compare : A → A → Z) (x : A) (l : list A) : list A :=
  match l with
  | [] => [x]
  | y :: l' => if 0 <? compare x y then y :: sort_insert compare x l' else x :: l
  end.

Fixpoint sort {A} (compare : A → A → Z) (l : list A) : list A :=
  match l with
  | [] => []
  | x :: l' => sort_insert compare x (sort compare l')
  end.

(** [strip_prefix p s] is what follows [p] when [s] starts with [p]. *)
Fixpoint strip_prefix (p s : string) : option string :=
  match p, s with
  | EmptyString, _ => Some s
  | String a p', String b s' => if Ascii.eqb a b then strip_prefix p' s' else None
  | String _ _, EmptyString => None
  end.

(** [s.startsWith(p)] *)
Definition startsWith (p s : string) : bool :=
  match strip_prefix p s with
  | Some _ => true
  | None => false
  end.

(** [s.replace(pat, rep)] for a non-empty string pattern: the first
    occurrence only. *)
Fixpoint replace (pat rep s : string) : string :=
  match strip_prefix pat s with
  | Some rest => rep +:+ rest
  | None =>
      match s with
      | EmptyString => EmptyString
      | String c s' => String c (replace pat rep s')
      end
  end.

(** [s.split(sep)[0]] for a non-empty separator: the text before its first
    occurrence, or all of [s]. *)
Fixpoint split_head (sep s : string) : string :=
  match strip_prefix sep s with
  | Some _ => EmptyString
  | None =>
      match s with
      | EmptyString => EmptyString
      | String c s' => String c (split_head sep s')
      end
  end.

(** [s.split(c)] for a one character separator. *)
Fixpoint split (c : ascii) (s : string) : list string :=
  match s with
  | EmptyString => [EmptyString]
  | String a s' =>
      if Ascii.eqb a c then EmptyString :: split c s'
      else match split c s' with
           | piece :: pieces => String a piece :: pieces
           | [] => [String a EmptyString]
           end
  end.

(** [arr.filter(Boolean)] on an array of objects and [null]s. *)
Fixpoint filter_Boolean {A} (l : list (option A)) : list A :=
  match l with
  | [] => []
  | Some x :: l' => x :: filter_Boolean l'
  | None :: l' => filter_Boolean l'
  end.

(** [pieces[i]] *)
Definition at_index (pieces : list string) (i : nat) : val :=
  match pieces !! i with
  | Some piece => Str piece
  | None => Undefined
  end.

(** The functions of the runtime that read numbers and query strings out
    of text.  They are inputs of the model: whatever they compute, the
    routes below use them as the sources do.

    - [parseInt v]: [None] is [NaN];
    - [toNumber s]: [Number(s)] cut to an integer, [None] is [NaN];
    - [searchParam extra key]: [new URLSearchParams(extra).get(key)];
    - [trim s]: [s.trim()]. *)
Class Runtime := {
  parseInt : val → option Z;
  toNumber : string → option Z;
  searchParam : string → string → val;
  trim : string → string
}.

End Js.

Export Js(val, Undefined, Null, Bool, Num, Str, result, Ok, Throw, Runtime).

(** ** The genre table ([mapGenreIds], the same in every variant that has it) *)

Module Genres.

Definition genreMap : gmap Z string :=
  list_to_map
    [ (28, "Action"); (35, "Comedy"); (18, "Drama"); (27, "Horror");
      (878, "Science Fiction"); (53, "Thriller"); (12, "Adventure");
      (16, "Animation"); (80, "Crime"); (99, "Documentary");
      (10751, "Family"); (14, "Fantasy"); (36, "History");
      (10402, "Music"); (9648, "Mystery"); (10749, "Romance");
      (10770, "TV Movie"); (37, "Western"); (10752, "War");
      (10759, "Action & Adventure"); (10762, "Kids");
      (10763, "News"); (10764, "Reality"); (10765, "Sci-Fi & Fantasy");
      (10766, "Soap"); (10767, "Talk"); (10768, "War & Politics") ].

(** [genreMap[id]] *)
Definition genre_get (id : Z) : val :=
  match genreMap !! id with
  | Some label => Str label
  | None => Undefined
  end.

(** [genreIds.map(id => genreMap[id]).filter(Boolean)] *)
Definition mapGenreIds (genreIds : list Z) : list val :=
  List.filter Js.truthy (List.map genre_get genreIds).

End Genres.

(** ** Finding the build id in the homepage

    The sources search the page with two regular expressions.  Both start
    with the same literal text: the key buildId in double quotes, a colon,
    and the double quote that opens the value.  They differ in the group
    that follows.  A match is the leftmost one, and the value kept is the
    text of the group. *)

Module Pattern.

Definition quote : ascii := "034"%char.

(** The literal prefix of both expressions. *)
Definition buildId_key : string :=
  String quote ("buildId" +:+ String quote (":" +:+ String quote "")).

(** A dot does not match a line terminator: LF, CR, and U+2028, U+2029
    (recognised here by their UTF-8 bytes). *)
Definition line_terminator_ahead (s : string) : bool :=
  match s with
  | String "010" _ | String "013" _ => true
  | String "226" (String "128" (String "168" _)) => true
  | String "226" (String "128" (String "169" _)) => true
  | _ => false
  end.

(** The lazy group [(.*?)] then a quote: the shortest run of characters up
    to the next quote, which a line terminator interrupts. *)
Fixpoint lazy_group (s : string) : option string :=
  match s with
  | EmptyString => None
  | String c rest =>
      if Ascii.eqb c quote then Some EmptyString
      else if line_terminator_ahead s then None
      else String c <$> lazy_group rest
  end.

(** The group [([^quote]+)] then a quote: the whole run of characters that
    are not quotes, which must not be empty. *)
Fixpoint run_to_quote (s : string) : option string :=
  match s with
  | EmptyString => None
  | String c rest =>
      if Ascii.eqb c quote then Some EmptyString
      else String c <$> run_to_quote rest
  end.

Definition nonempty_group (s : string) : option string :=
  match run_to_quote s with
  | Some EmptyString => None
  | r => r
  end.

(** Leftmost match of [key] followed by [group]; the result is [match[1]]. *)
Fixpoint search (group : string → option string) (s : string) : option string :=
  match Js.strip_prefix buildId_key s ≫= group with
  | Some captured => Some captured
  | None =>
      match s with
      | EmptyString => None
      | String _ rest => search group rest
      end
  end.

(** [page.match(/.../)] for the expression with the lazy group. *)
Definition match_lazy : string → option string := search lazy_group.

(** [page.match(/.../)] for the expression with the non-empty group. *)
Definition match_nonempty : string → option string := search nonempty_group.

End Pattern.

(** ** Upstream payloads *)

Module Upstream.

(** A catalogue item, and the scalar fields of a detail page. *)
Record Item := {
  item_id : val;
  mediaType : val;
  title : val;
  name : val;
  poster : val;
  poster_path : val;
  image : val;
  backdrop_path : val;
  description : val;
  overview : val;
  release_date : val;
  first_air_date : val;
  rating : val;
  genre_ids : option (list Z);
  original_language : val;
  runtime : val
}.

(** [{...item, mediaType: m}] *)
Definition with_mediaType (m : val) (i : Item) : Item :=
  {| item_id := item_id i; mediaType := m; title := title i; name := name i;
     poster := poster i; poster_path := poster_path i; image := image i;
     backdrop_path := backdrop_path i; description := description i;
     overview := overview i; release_date := release_date i;
     first_air_date := first_air_date i; rating := rating i;
     genre_ids := genre_ids i; original_language := original_language i;
     runtime := runtime i |}.

Record Episode := {
  episode_number : val;
  episode_name : val;
  episode_overview : val;
  still_path : val;
  air_date : val
}.

Record Season := {
  season_number : val;
  episodes : option (list Episode)
}.

(** A source object of the stream endpoint.  Its fields hold JSON
    primitives, as the fields of the other records do: a field that is
    missing reads as [undefined], and printing a field never throws. *)
Record Source := {
  source_url : val;
  quality : val;
  source_type : val
}.

(** [pageProps]: the listings of the catalogue pages, and for a detail page
    the item itself with its seasons. *)
Record PageProps := {
  trending : option (list Item);
  results : option (list Item);
  movies : option (list Item);
  shows : option (list Item);
  detail : Item;
  seasons : option (list Season)
}.

(** A [sources] field that is truthy: an array, whose entries are [null]
    or source objects (an entry that is a number or a text reads as an
    object without fields), or something that is not an array. *)
Inductive sources_value :=
| NotArray
| Array (entries : list (option Source)).

(** A parsed body; [sources] is [None] when the field is missing or falsy. *)
Record JsonBody := {
  pageProps : option PageProps;
  sources : option sources_value
}.

(** [response.data]: text (the homepage), a parsed JSON object, or [null]. *)
Inductive payload :=
| Text (s : string)
| Json (j : JsonBody)
| NoData.

Definition payload_truthy (d : payload) : bool :=
  match d with
  | Text s => negb (String.eqb s "")
  | Json _ => true
  | NoData => false
  end.

(** [data?.pageProps] *)
Definition pageProps_of (d : payload) : option PageProps :=
  match d with
  | Json j => pageProps j
  | _ => None
  end.

(** [data.sources] of a truthy [data], when it is truthy *)
Definition sources_of (d : payload) : option sources_value :=
  match d with
  | Json j => sources j
  | _ => None
  end.

End Upstream.

Export Upstream.

(** ** The network, as the client sees it through [axios.get]

    The upstream site is an oracle: its answer to the k-th request may
    depend on k and on the request.  Every request is recorded in [sent],
    and an answer takes [elapsed] milliseconds of the clock that
    [Date.now()] reads. *)

Module Net.

Record request := Request {
  url : string;
  params : list (string * val)
}.

Definition GET (u : string) : request := Request u [].

Inductive outcome :=
| NoResponse (code : string)
| Response (status : Z) (data : payload).

Record reply := Reply {
  elapsed : Z;
  answer : outcome
}.

Record net := {
  clock : Z;
  upstream : nat → request → reply;
  sent : list request
}.

(** The part of an axios configuration that decides the result. *)
Record config := {
  timeout : option Z;
  validateStatus : Z → bool
}.

(** axios' defaults: no timeout, and only 2xx resolves. *)
Definition default_config : config :=
  {| timeout := None; validateStatus := λ status, (200 <=? status) && (status <? 300) |}.

Definition timed_out (cfg : config) (r : reply) : bool :=
  match timeout cfg with
  | Some t => t <? elapsed r
  | None => false
  end.

Definition after (n : net) (rq : request) (ms : Z) : net :=
  {| clock := clock n + ms; upstream := upstream n; sent := sent n ++ [rq] |}.

(** The code of the error for a status that [validateStatus] rejects:
    one for 4xx, one for 5xx, none otherwise. *)
Definition status_code (status : Z) : string :=
  match status / 100 - 4 with
  | 0 => "ERR_BAD_REQUEST"
  | 1 => "ERR_BAD_RESPONSE"
  | _ => EmptyString
  end.

(** [await axios.get(url, config)]: resolves to status and data, or rejects
    with an error that has a [response] exactly when the server answered. *)
Definition axios_get (cfg : config) (rq : request) (n : net) : result (Z * payload) * net :=
  let r := upstream n (length (sent n)) rq in
  if timed_out cfg r then
    (Throw (Js.Error None "ECONNABORTED" "timeout exceeded"),
     after n rq (default 0 (timeout cfg)))
  else
    match answer r with
    | NoResponse code => (Throw (Js.Error None code "Network Error"), after n rq (elapsed r))
    | Response status data =>
        if validateStatus cfg status then (Ok (status, data), after n rq (elapsed r))
        else (Throw (Js.Error (Some status) (status_code status)
                       ("Request failed with status code " +:+ Js.num_str status)),
              after n rq (elapsed r))
    end.

(** [response.data.match(...)]: only text has a [match] method. *)
Definition data_match (re : string → option string) (d : payload) : result (option string) :=
  match d with
  | Text page => Ok (re page)
  | Json _ => Throw (Js.TypeError "response.data.match is not a function")
  | NoData => Throw (Js.TypeError "Cannot read properties of null (reading 'match')")
  end.

End Net.

Export Net.

(** ** Asynchronous code: state passing with exceptions

    A computation runs on a state [S] (the client object and the network)
    and either returns or throws; the state it leaves is kept in both
    cases, as a [catch] block sees the assignments made before the throw. *)

Definition M (S A : Type) : Type := S → result A * S.

Definition ret {S A} (a : A) : M S A := λ s, (Ok a, s).

Definition throw {S A} (e : Js.error) : M S A := λ s, (Throw e, s).

Definition bind {S A B} (m : M S A) (k : A → M S B) : M S B :=
  λ s, match m s with
       | (Ok a, s') => k a s'
       | (Throw e, s') => (Throw e, s')
       end.

(** [try { body } catch (err) { handler }] *)
Definition try_catch {S A} (body : M S A) (handler : Js.error → M S A) : M S A :=
  λ s, match body s with
       | (Ok a, s') => (Ok a, s')
       | (Throw e, s') => handler e s'
       end.

Definition gets {S A} (f : S → A) : M S A := λ s, (Ok (f s), s).

Definition modify {S} (f : S → S) : M S unit := λ s, (Ok tt, f s).

(** A pure step that may throw. *)
Definition lift {S A} (r : result A) : M S A := λ s, (r, s).

Notation "'await' x := m 'in' k" := (bind m (λ x, k))
  (at level 10, x name, m at level 100, k at level 200, only parsing).
Notation "'await' ' p := m 'in' k" := (bind m (λ x, match x with p => k end))
  (at level 10, p pattern, m at level 100, k at level 200, only parsing).
Notation "m ';;' k" := (bind m (λ _, k))
  (at level 100, k at level 200, right associativity, only parsing).

(** States that hold a network. *)
Class Networked (S : Type) := {
  get_net : S → net;
  set_net : net → S → S
}.

Definition on_net {S} `{Networked S} {A} (f : net → result A * net) : M S A :=
  λ s, let '(r, n) := f (get_net s) in (r, set_net n s).

(** [Date.now()] *)
Definition Date_now {S} `{Networked S} : M S Z := gets (λ s, clock (get_net s)).

(** ** The client with the one-hour cache ([add on.js] and its sibling) *)

Module Cached.

Record CinebyClient := {
  buildId : val;
  buildIdFetchedAt : Z
}.

Record state := {
  this : CinebyClient;
  network : net
}.

#[export] Instance state_networked : Networked state :=
  {| get_net := network; set_net := λ n s, {| this := this s; network := n |} |}.

Definition baseURL : string := "https://www.cineby.app".

(** [new CinebyClient()] *)
Definition constructor : CinebyClient :=
  {| buildId := Null; buildIdFetchedAt := 0 |}.

Definition set_this (c : CinebyClient) : M state unit :=
  modify (λ s, {| this := c; network := network s |}).

(** [getBuildId(forceRefresh = false)].  The [try] block yields [Some v]
    when it executed [return v], and [None] when control falls out of it. *)
Definition getBuildId (forceRefresh : bool) : M state val :=
  await now := Date_now in
  await c := gets this in
  if negb forceRefresh && Js.truthy (buildId c) && (now - buildIdFetchedAt c <? 3600 * 1000)
  then ret (buildId c)
  else
    await returned :=
      try_catch
        (await '(_, data) := on_net (axios_get default_config (GET baseURL)) in
         await found := lift (data_match Pattern.match_lazy data) in
         match found with
         | Some id =>
             set_this {| buildId := Str id; buildIdFetchedAt := now |} ;;
             ret (Some (Str id))
         | None => ret None
         end)
        (λ err, ret None) in
    match returned with
    | Some v => ret v
    | None => gets (λ s, buildId (this s))
    end.

End Cached.

(** ** What the routes answer *)

Module Stremio.

Record Meta := {
  meta_id : string;
  meta_type : string;
  meta_name : val;
  meta_poster : val;
  background : val;
  meta_description : val;
  releaseInfo : val;
  imdbRating : val;
  genres : list val;
  language : val
}.

(** [released]: a [Date] built from the upstream field, or the field as it is. *)
Inductive released :=
| DateOf (v : val)
| Plain (v : val).

Record Video := {
  video_id : string;
  video_title : string;
  video_season : val;
  video_episode : val;
  video_overview : val;
  thumbnail : val;
  video_released : released
}.

Record MetaDetail := {
  summary : Meta;
  meta_runtime : val;
  videos : option (list Video)
}.

Record Stream := {
  stream_url : val;
  stream_title : string;
  notWebReady : bool
}.

Inductive body :=
| Metas (metas : list Meta)
| MetaOf (meta : MetaDetail)
| EmptyMeta
| Streams (streams : list Stream)
| ErrorBody (error : string).

Record response := Respond {
  status : Z;
  content : body
}.

(** [res.json(b)] and [res.status(code).json(b)] *)
Definition json (b : body) : response := Respond 200 b.
Definition status_json (code : Z) (b : body) : response := Respond code b.

(** [item.rating ? item.rating.toString() : null] *)
Definition rating_text (rating : val) : val :=
  if Js.truthy rating then Str (Js.to_string rating) else Null.

(** [type === 'series' ? 'tv' : 'movie'] *)
Definition mediaType_of (type : string) : string :=
  if String.eqb type "series" then "tv" else "movie".

(** The quality table of the stream routes. *)
Definition qualityOrder : gmap string Z :=
  list_to_map [ ("1080p", 4); ("720p", 3); ("480p", 2); ("Auto", 1) ].

(** The names that every object literal inherits: looking one of them up
    in the table finds a function or an object, which is truthy and is not
    a number. *)
Definition inherited : list string :=
  [ "constructor"; "hasOwnProperty"; "isPrototypeOf"; "propertyIsEnumerable";
    "toLocaleString"; "toString"; "valueOf"; "__defineGetter__"; "__defineSetter__";
    "__lookupGetter__"; "__lookupSetter__"; "__proto__" ].

(** [qualityOrder[q] || 0] as a number: [None] when it is not one. *)
Definition quality_rank (q : string) : option Z :=
  match qualityOrder !! q with
  | Some rank => Some rank
  | None => if bool_decide (q ∈ inherited) then None else Some 0
  end.

(** [title.split(' - ')[0]] *)
Definition title_quality (s : Stream) : string := Js.split_head " - " (stream_title s).

(** The comparator handed to [streams.sort].  A difference with something
    that is not a number is [NaN], which [sort] reads as 0. *)
Definition by_quality (a b : Stream) : Z :=
  match quality_rank (title_quality b), quality_rank (title_quality a) with
  | Some rank_b, Some rank_a => rank_b - rank_a
  | _, _ => 0
  end.

(** [(source, index) => ({ url, title, behaviorHints })] *)
Definition stream_of (index : nat) (source : Source) : Stream :=
  {| stream_url := source_url source;
     stream_title := Js.to_string (Js.or (quality source) (Str "Auto"))
                       +:+ " - Server " +:+ Js.num_str (Z.of_nat index + 1);
     notWebReady := negb (Js.is_str (source_type source) "mp4") |}.

(** [sources.map((source, index) => ...)], counting from [index]: calling
    [map] on what is not an array throws, and so does reading a field of a
    [null] entry. *)
Fixpoint map_from {B} (f : nat → Source → B) (index : nat) (entries : list (option Source))
    : result (list B) :=
  match entries with
  | [] => Ok []
  | None :: _ => Throw (Js.TypeError "Cannot read properties of null (reading 'url')")
  | Some source :: rest =>
      Js.rbind (map_from f (S index) rest) (λ mapped, Ok (f index source :: mapped))
  end.

Definition map_sources {B} (f : nat → Source → B) (v : sources_value) : result (list B) :=
  match v with
  | NotArray => Throw (Js.TypeError "sources.map is not a function")
  | Array entries => map_from f 0 entries
  end.

(** The title of an episode entry:
    [S${season.toString().padStart(2, '0')}E${episode.toString().padStart(2, '0')} - ${name}] *)
Definition episode_title (season_number episode_number name : val) : result string :=
  Js.rbind (Js.toString season_number) (λ s,
  Js.rbind (Js.toString episode_number) (λ e,
  Ok ("S" +:+ Js.padStart 2 "0" s +:+ "E" +:+ Js.padStart 2 "0" e +:+ " - " +:+ Js.to_string name))).

(** [${id}:${season.season_number}:${episode.episode_number}] *)
Definition episode_id (id : string) (season_number episode_number : val) : string :=
  id +:+ ":" +:+ Js.to_string season_number +:+ ":" +:+ Js.to_string episode_number.

(** A loop whose body may throw, pushing entries on a list. *)
Fixpoint for_of {A B} (body : A → result (list B)) (l : list A) : result (list B) :=
  match l with
  | [] => Ok []
  | x :: l' =>
      Js.rbind (body x) (λ pushed,
      Js.rbind (for_of body l') (λ more, Ok (pushed ++ more)%list))
  end.

End Stremio.

Export Stremio.

(** ** [server.js] *)

Module Server.

Record CinebyClient := {
  buildId : val
}.

Record state := {
  this : CinebyClient;
  network : net
}.

#[export] Instance state_networked : Networked state :=
  {| get_net := network; set_net := λ n s, {| this := this s; network := n |} |}.

Definition baseURL : string := "https://www.cineby.app".

(** [new CinebyClient()]: the build id starts as a fixed default. *)
Definition constructor : CinebyClient :=
  {| buildId := Str "7xu4PEyycasyUF-xW91f5" |}.

Definition set_this (c : CinebyClient) : M state unit :=
  modify (λ s, {| this := c; network := network s |}).

(** [`${this.baseURL}/_next/data/${this.buildId}${path}`] *)
Definition data_url (path : string) : M state string :=
  gets (λ s, baseURL +:+ "/_next/data/" +:+ Js.to_string (buildId (this s)) +:+ path).

(** [axios.get(url, { headers, params })] *)
Definition get (u : string) (ps : list (string * val)) : M state (Z * payload) :=
  on_net (axios_get default_config (Request u ps)).

(** [getBuildId()]: no [return], so the call resolves to [undefined]. *)
Definition getBuildId : M state val :=
  try_catch
    (await '(_, data) := get (baseURL +:+ "/") [] in
     await buildIdMatch := lift (data_match Pattern.match_nonempty data) in
     match buildIdMatch with
     | Some id => set_this {| buildId := Str id |}
     | None => ret tt
     end)
    (λ error, ret tt) ;;
  ret Undefined.

(** The shape shared by the four listing methods. *)
Definition listing (path : string) (ps : list (string * val))
    (field : PageProps → option (list Item)) : M state (list Item) :=
  try_catch
    (await u := data_url path in
     await '(_, data) := get u ps in
     match pageProps_of data ≫= field with
     | Some items => ret items
     | None => ret []
     end)
    (λ error, ret []).

Definition getTrending : M state (list Item) :=
  listing "/en.json" [] trending.

Definition search (query : val) (page : Z) : M state (list Item) :=
  listing "/en/search.json" [("q", query); ("page", Num page)] results.

Definition page_params (page : Z) (genre : val) : list (string * val) :=
  ("page", Num page) :: (if Js.truthy genre then [("genre", genre)] else []).

Definition getMovies (page : Z) (genre : val) : M state (list Item) :=
  listing "/en/movie.json" (page_params page genre) movies.

Definition getTVShows (page : Z) (genre : val) : M state (list Item) :=
  listing "/en/tv.json" (page_params page genre) shows.

Definition getContentDetails (id mediaType : string) : M state (option PageProps) :=
  try_catch
    (await endpoint :=
       (if String.eqb mediaType "movie"
        then data_url ("/en/movie/" +:+ id +:+ ".json")
        else data_url ("/en/tv/" +:+ id +:+ ".json")) in
     await '(_, data) := get endpoint [] in
     ret (pageProps_of data))
    (λ error, ret None).

Definition stream_endpoint (id : val) (mediaType : string) (season episode : val) : string :=
  if String.eqb mediaType "movie"
  then baseURL +:+ "/api/v2/movie/" +:+ Js.to_string id
  else baseURL +:+ "/api/v2/tv/" +:+ Js.to_string id +:+
       (if Js.truthy season && Js.truthy episode
        then "/" +:+ Js.to_string season +:+ "/" +:+ Js.to_string episode
        else EmptyString).

(** [getStreamSources]: [response.data], or [null] after a failure. *)
Definition getStreamSources (id : val) (mediaType : string) (season episode : val)
    : M state payload :=
  try_catch
    (await '(_, data) := get (stream_endpoint id mediaType season episode) [] in
     ret data)
    (λ error, ret NoData).

Definition transformToStremioMeta (item : Item) : Meta :=
  let isMovie := Js.is_str (mediaType item) "movie" in
  {| meta_id := "cineby:" +:+ Js.to_string (item_id item);
     meta_type := if isMovie then "movie" else "series";
     meta_name := title item;
     meta_poster := poster item;
     background := image item;
     meta_description := description item;
     releaseInfo := release_date item;
     imdbRating := rating_text (rating item);
     genres := Genres.mapGenreIds (default [] (genre_ids item));
     language := original_language item |}.

(** The body of the inner loop of the meta route. *)
Definition video_entry (id : string) (s : Season) (e : Episode) : result (list Video) :=
  Js.rbind (episode_title (season_number s) (episode_number e) (episode_name e)) (λ t,
  Ok [ {| video_id := episode_id id (season_number s) (episode_number e);
          video_title := t;
          video_season := season_number s;
          video_episode := episode_number e;
          video_overview := episode_overview e;
          thumbnail := still_path e;
          video_released := DateOf (air_date e) |} ]).

Definition season_videos (id : string) (s : Season) : result (list Video) :=
  match episodes s with
  | Some es => for_of (video_entry id s) es
  | None => Ok []
  end.

Section Routes.
Context `{Runtime}.

(** The extra parameters of a catalog request: [search], [skip] and
    [genre], read only when the [extra] segment is there. *)
Definition parse_extra (extra : option string) : val * Z * val :=
  match extra with
  | Some e =>
      if String.eqb e EmptyString then (Undefined, 0, Undefined)
      else (Js.searchParam e "search",
            default 0 (Js.parseInt (Js.searchParam e "skip")),
            Js.searchParam e "genre")
  | None => (Undefined, 0, Undefined)
  end.

(** [app.get('/catalog/:type/:id/:extra?')] *)
Definition catalog (type id : string) (extra : option string) : M state response :=
  try_catch
    (let '(search_, skip, genre) := parse_extra extra in
     let page := skip / 20 + 1 in
     let wanted item := Js.is_str (mediaType item) (mediaType_of type) in
     await results :=
       (if Js.truthy search_ then
          await searchResults := search search_ page in
          ret (List.map transformToStremioMeta (List.filter wanted searchResults))
        else if String.eqb id "cineby-trending-movies" || String.eqb id "cineby-trending-series" then
          await trending := getTrending in
          ret (List.map transformToStremioMeta
                 (Js.slice skip (skip + 20) (List.filter wanted trending)))
        else if String.eqb id "cineby-movies" then
          await movies := getMovies page genre in
          ret (List.map (λ item, transformToStremioMeta (with_mediaType (Str "movie") item)) movies)
        else if String.eqb id "cineby-series" then
          await tvShows := getTVShows page genre in
          ret (List.map (λ item, transformToStremioMeta (with_mediaType (Str "tv") item)) tvShows)
        else if String.eqb id "cineby-anime" then
          throw (Js.TypeError "client.getAnime is not a function")
        else ret []) in
     ret (json (Metas results)))
    (λ error, ret (status_json 500 (ErrorBody "Failed to fetch catalog"))).

(** [app.get('/meta/:type/:id')] *)
Definition meta (type id : string) : M state response :=
  try_catch
    (let cinebyId := Js.replace "cineby:" EmptyString id in
     let mediaType := mediaType_of type in
     await details := getContentDetails cinebyId mediaType in
     match details with
     | None => ret (status_json 404 (ErrorBody "Content not found"))
     | Some props =>
         let d := detail props in
         let meta :=
           {| meta_id := id;
              meta_type := type;
              meta_name := Js.or (title d) (name d);
              meta_poster := poster d;
              background := image d;
              meta_description := description d;
              releaseInfo := Js.or (release_date d) (first_air_date d);
              imdbRating := rating_text (rating d);
              genres := Genres.mapGenreIds (default [] (genre_ids d));
              language := original_language d |} in
         await vs :=
           (match String.eqb type "series", seasons props with
            | true, Some ss => await l := lift (for_of (season_videos id) ss) in ret (Some l)
            | _, _ => ret None
            end) in
         ret (json (MetaOf {| summary := meta; meta_runtime := runtime d; videos := vs |}))
     end)
    (λ error, ret (status_json 500 (ErrorBody "Failed to fetch metadata"))).

(** [app.get('/stream/:type/:id')] *)
Definition stream (type id : string) : M state response :=
  try_catch
    (let parts := Js.split ":" id in
     let cinebyId := Js.at_index parts 1 in
     let season := Js.at_index parts 2 in
     let episode := Js.at_index parts 3 in
     let mediaType := mediaType_of type in
     await streamData := getStreamSources cinebyId mediaType season episode in
     match (if payload_truthy streamData then sources_of streamData else None) with
     | None => ret (json (Streams []))
     | Some srcs =>
         await streams := lift (map_sources stream_of srcs) in
         ret (json (Streams (Js.sort by_quality streams)))
     end)
    (λ error, ret (status_json 500 (ErrorBody "Failed to fetch streams"))).

End Routes.

End Server.

(** ** The rate-limited server: [makeRequest] and validated routes *)

Module Production.

Record CinebyClient := {
  buildId : val;
  buildIdCache : val;
  buildIdCacheTime : option Z
}.

Record state := {
  this : CinebyClient;
  network : net
}.

#[export] Instance state_networked : Networked state :=
  {| get_net := network; set_net := λ n s, {| this := this s; network := n |} |}.

Definition baseURL : string := "https://www.cineby.app".

Definition constructor : CinebyClient :=
  {| buildId := Str "7xu4PEyycasyUF-xW91f5"; buildIdCache := Null; buildIdCacheTime := None |}.

(** [this.axiosConfig]: ten seconds, and [status < 500] does not throw. *)
Definition axiosConfig : config :=
  {| timeout := Some 10000; validateStatus := λ status, status <? 500 |}.

Definition set_this (c : CinebyClient) : M state unit :=
  modify (λ s, {| this := c; network := network s |}).

Definition data_url (path : string) : M state string :=
  gets (λ s, baseURL +:+ "/_next/data/" +:+ Js.to_string (buildId (this s)) +:+ path).

(** [this.buildIdCache && this.buildIdCacheTime && (now - this.buildIdCacheTime < 3600000)] *)
Definition cache_fresh (c : CinebyClient) (now : Z) : bool :=
  Js.truthy (buildIdCache c) &&
  match buildIdCacheTime c with
  | Some t => negb (t =? 0) && (now - t <? 3600000)
  | None => false
  end.

Definition getBuildId : M state val :=
  try_catch
    (await now := Date_now in
     await c := gets this in
     if cache_fresh c now then
       set_this {| buildId := buildIdCache c; buildIdCache := buildIdCache c;
                   buildIdCacheTime := buildIdCacheTime c |}
     else
       await '(status, data) := on_net (axios_get axiosConfig (GET (baseURL +:+ "/"))) in
       if status =? 200 then
         await buildIdMatch := lift (data_match Pattern.match_nonempty data) in
         match buildIdMatch with
         | Some id =>
             set_this {| buildId := Str id; buildIdCache := Str id; buildIdCacheTime := Some now |}
         | None => ret tt
         end
       else ret tt)
    (λ error, ret tt) ;;
  ret Undefined.

(** [makeRequest(url, params = {})]: the body, or [null]. *)
Definition makeRequest (u : string) (ps : list (string * val)) : M state payload :=
  try_catch
    (await '(status, data) := on_net (axios_get axiosConfig (Request u ps)) in
     if status =? 200 then ret data else ret NoData)
    (λ error, ret NoData).

Definition listing (path : string) (ps : list (string * val))
    (field : PageProps → option (list Item)) : M state (list Item) :=
  getBuildId ;;
  await u := data_url path in
  await data := makeRequest u ps in
  match pageProps_of data ≫= field with
  | Some items => ret items
  | None => ret []
  end.

Definition getTrending : M state (list Item) :=
  listing "/en.json" [] trending.

Definition page_params (page : Z) (genre : val) : list (string * val) :=
  ("page", Num page) :: (if Js.truthy genre then [("genre", genre)] else []).

Definition getMovies (page : Z) (genre : val) : M state (list Item) :=
  listing "/en/movie.json" (page_params page genre) movies.

Definition getTVShows (page : Z) (genre : val) : M state (list Item) :=
  listing "/en/tv.json" (page_params page genre) shows.

Definition getContentDetails (id mediaType : string) : M state (option PageProps) :=
  getBuildId ;;
  await endpoint :=
    (if String.eqb mediaType "movie"
     then data_url ("/en/movie/" +:+ id +:+ ".json")
     else data_url ("/en/tv/" +:+ id +:+ ".json")) in
  await data := makeRequest endpoint [] in
  ret (pageProps_of data).

Definition stream_endpoint (id : val) (mediaType : string) (season episode : val) : string :=
  if String.eqb mediaType "movie"
  then baseURL +:+ "/api/v2/movie/" +:+ Js.to_string id
  else baseURL +:+ "/api/v2/tv/" +:+ Js.to_string id +:+
       (if Js.truthy season && Js.truthy episode
        then "/" +:+ Js.to_string season +:+ "/" +:+ Js.to_string episode
        else EmptyString).

Definition getStreamSources (id : val) (mediaType : string) (season episode : val)
    : M state payload :=
  makeRequest (stream_endpoint id mediaType season episode) [].

(** [transformToStremioMeta(item)]: [null] for a missing item or id. *)
Definition transformToStremioMeta (item : option Item) : option Meta :=
  match item with
  | None => None
  | Some item =>
      if negb (Js.truthy (item_id item)) then None
      else
        let isMovie := Js.is_str (mediaType item) "movie" in
        Some {| meta_id := "cineby:" +:+ Js.to_string (item_id item);
                meta_type := if isMovie then "movie" else "series";
                meta_name := Js.or (Js.or (title item) (name item)) (Str "Unknown Title");
                meta_poster := Js.or (poster item) (poster_path item);
                background := Js.or (image item) (backdrop_path item);
                meta_description := Js.or (Js.or (description item) (overview item)) (Str "");
                releaseInfo := Js.or (Js.or (release_date item) (first_air_date item)) (Str "");
                imdbRating := rating_text (rating item);
                genres := Genres.mapGenreIds (default [] (genre_ids item));
                language := Js.or (original_language item) (Str "en") |}
  end.

(** The guarded body of the inner loop of the meta route. *)
Definition video_entry (id : string) (s : Season) (e : Episode) : result (list Video) :=
  if Js.truthy (episode_number e) && Js.truthy (episode_name e) then
    Js.rbind (episode_title (season_number s) (episode_number e) (episode_name e)) (λ t,
    Ok [ {| video_id := episode_id id (season_number s) (episode_number e);
            video_title := t;
            video_season := season_number s;
            video_episode := episode_number e;
            video_overview := Js.or (episode_overview e) (Str "");
            thumbnail := still_path e;
            video_released :=
              if Js.truthy (air_date e) then DateOf (air_date e) else Plain Undefined |} ])
  else Ok [].

Definition season_videos (id : string) (s : Season) : result (list Video) :=
  match episodes s with
  | Some es => for_of (video_entry id s) es
  | None => Ok []
  end.

(** [source && source.url], the test of the filter of the stream route:
    the entry itself when it passes. *)
Definition with_url (entry : option Source) : option Source :=
  match entry with
  | Some source => if Js.truthy (source_url source) then Some source else None
  | None => None
  end.

(** [['movie', 'series'].includes(type)] *)
Definition valid_type (type : string) : bool :=
  String.eqb type "movie" || String.eqb type "series".

Section Routes.
Context `{Runtime}.

(** [search(query, page = 1)] *)
Definition search (query : val) (page : Z) : M state (list Item) :=
  if negb (Js.truthy query) then ret []
  else
    await trimmed :=
      lift (match query with
            | Str q => Ok (Js.trim q)
            | _ => Throw (Js.TypeError "query.trim is not a function")
            end) in
    if (String.length trimmed =? 0)%nat then ret []
    else listing "/en/search.json" [("q", Str trimmed); ("page", Num page)] results.

(** The extra parameters of a catalog request; [skip] is never negative. *)
Definition parse_extra (extra : option string) : val * Z * val :=
  match extra with
  | Some e =>
      if String.eqb e EmptyString then (Undefined, 0, Undefined)
      else (Js.searchParam e "search",
            Z.max 0 (default 0 (Js.parseInt (Js.searchParam e "skip"))),
            Js.searchParam e "genre")
  | None => (Undefined, 0, Undefined)
  end.

(** [app.get('/catalog/:type/:id/:extra?')] *)
Definition catalog (type id : string) (extra : option string) : M state response :=
  try_catch
    (if negb (valid_type type) then ret (status_json 400 (ErrorBody "Invalid type"))
     else
       let '(search_, skip, genre) := parse_extra extra in
       let page := skip / 20 + 1 in
       let wanted item := Js.is_str (mediaType item) (mediaType_of type) in
       let project items := Js.filter_Boolean (List.map (λ item, transformToStremioMeta (Some item)) items) in
       if Js.truthy search_ then
         await searchResults := search search_ page in
         ret (json (Metas (project (List.filter wanted searchResults))))
       else if String.eqb id "cineby-trending-movies" || String.eqb id "cineby-trending-series" then
         await trending := getTrending in
         ret (json (Metas (project (Js.slice skip (skip + 20) (List.filter wanted trending)))))
       else if String.eqb id "cineby-movies" then
         if String.eqb type "movie" then
           await movies := getMovies page genre in
           ret (json (Metas (project (List.map (with_mediaType (Str "movie")) movies))))
         else ret (json (Metas []))
       else if String.eqb id "cineby-series" then
         if String.eqb type "series" then
           await tvShows := getTVShows page genre in
           ret (json (Metas (project (List.map (with_mediaType (Str "tv")) tvShows))))
         else ret (json (Metas []))
       else ret (status_json 404 (ErrorBody "Catalog not found")))
    (λ error, ret (status_json 500 (ErrorBody "Internal server error"))).

(** [app.get('/meta/:type/:id')] *)
Definition meta (type id : string) : M state response :=
  try_catch
    (if negb (valid_type type) then ret (status_json 400 (ErrorBody "Invalid type"))
     else if negb (Js.startsWith "cineby:" id) then ret (status_json 400 (ErrorBody "Invalid ID format"))
     else
       let cinebyId := Js.replace "cineby:" EmptyString id in
       let mediaType := mediaType_of type in
       await details := getContentDetails cinebyId mediaType in
       match details with
       | None => ret (status_json 404 (ErrorBody "Content not found"))
       | Some props =>
           let d := detail props in
           let meta :=
             {| meta_id := id;
                meta_type := type;
                meta_name := Js.or (Js.or (title d) (name d)) (Str "Unknown Title");
                meta_poster := Js.or (poster d) (poster_path d);
                background := Js.or (image d) (backdrop_path d);
                meta_description := Js.or (Js.or (description d) (overview d)) (Str "");
                releaseInfo := Js.or (Js.or (release_date d) (first_air_date d)) (Str "");
                imdbRating := rating_text (rating d);
                genres := Genres.mapGenreIds (default [] (genre_ids d));
                language := Js.or (original_language d) (Str "en") |} in
           await vs :=
             (match String.eqb type "series", seasons props with
              | true, Some ss => await l := lift (for_of (season_videos id) ss) in ret (Some l)
              | _, _ => ret None
              end) in
           ret (json (MetaOf {| summary := meta; meta_runtime := runtime d; videos := vs |}))
       end)
    (λ error, ret (status_json 500 (ErrorBody "Internal server error"))).

(** [app.get('/stream/:type/:id')].  What is not an array gives no
    streams, and the filter drops the [null] entries before any field is
    read; [makeRequest] has caught what the request may throw. *)
Definition stream (type id : string) : M state response :=
  try_catch
    (if negb (valid_type type) then ret (status_json 400 (ErrorBody "Invalid type"))
     else
       let idParts := Js.split ":" id in
       if (length idParts <? 2)%nat then ret (status_json 400 (ErrorBody "Invalid ID format"))
       else
         let cinebyId := Js.at_index idParts 1 in
         let season := Js.at_index idParts 2 in
         let episode := Js.at_index idParts 3 in
         let mediaType := mediaType_of type in
         if String.eqb type "series" && (negb (Js.truthy season) || negb (Js.truthy episode)) then
           ret (status_json 400 (ErrorBody "Season and episode required for series"))
         else
           await streamData := getStreamSources cinebyId mediaType season episode in
           match (if payload_truthy streamData then sources_of streamData else None) with
           | None => ret (json (Streams []))
           | Some NotArray => ret (json (Streams []))
           | Some (Array entries) =>
               let usable := omap with_url entries in
               ret (json (Streams (Js.sort by_quality (imap stream_of usable))))
           end)
    (λ error, ret (status_json 500 (ErrorBody "Internal server error"))).

End Routes.

End Production.

(** ** The server that retries once after refreshing the build id *)

Module Retry.

Record CinebyClient := {
  buildId : val;
  buildIdFetchedAt : Z
}.

(** What the client was asked to do, in order: a ghost record kept next to
    the client, which the wrapped operations cannot touch. *)
Inductive call :=
| GetBuildId (forceRefresh : bool)
| Operation.

Record state := {
  this : CinebyClient;
  network : net;
  calls : list call
}.

#[export] Instance state_networked : Networked state :=
  {| get_net := network;
     set_net := λ n s, {| this := this s; network := n; calls := calls s |} |}.

Definition baseURL : string := "https://www.cineby.app".

Definition constructor : CinebyClient :=
  {| buildId := Null; buildIdFetchedAt := 0 |}.

Definition set_this (c : CinebyClient) : M state unit :=
  modify (λ s, {| this := c; network := network s; calls := calls s |}).

Definition called (c : call) : M state unit :=
  modify (λ s, {| this := this s; network := network s; calls := (calls s ++ [c])%list |}).

(** [getBuildId(forceRefresh = false)] *)
Definition getBuildId (forceRefresh : bool) : M state val :=
  called (GetBuildId forceRefresh) ;;
  await now := Date_now in
  await c := gets this in
  if negb forceRefresh && Js.truthy (buildId c) && (now - buildIdFetchedAt c <? 3600 * 1000)
  then ret (buildId c)
  else
    try_catch
      (await '(_, data) := on_net (axios_get default_config (GET (baseURL +:+ "/"))) in
       await buildIdMatch := lift (data_match Pattern.match_nonempty data) in
       match buildIdMatch with
       | Some id => set_this {| buildId := Str id; buildIdFetchedAt := now |}
       | None => ret tt
       end)
      (λ error, ret tt) ;;
    gets (λ s, buildId (this s)).

(** A wrapped operation: a closure that reads the client and talks to the
    network, and returns or throws. *)
Definition operation (A : Type) : Type := CinebyClient → net → result A * net.

(** [await fn()] *)
Definition run {A} (fn : operation A) : M state A :=
  λ s, let '(r, n) := fn (this s) (network s) in
       (r, {| this := this s; network := n; calls := (calls s ++ [Operation])%list |}).

(** [err.response && (err.response.status === 404 || err.response.status === 500)] *)
Definition stale_status (err : Js.error) : bool :=
  match Js.err_status err with
  | Some status => (status =? 404) || (status =? 500)
  | None => false
  end.

(** [_withBuildIdRetry(fn)]: [None] is [null]. *)
Definition _withBuildIdRetry {A} (fn : operation A) : M state (option A) :=
  getBuildId false ;;
  try_catch
    (await v := run fn in ret (Some v))
    (λ err,
       if stale_status err then
         getBuildId true ;;
         try_catch
           (await v := run fn in ret (Some v))
           (λ err2, ret None)
       else ret None).

(** [axios.get(url, { headers, params })] then a projection of the body. *)
Definition fetch {A} (path : string) (ps : list (string * val)) (project : payload → A)
    : operation A :=
  λ c n,
    let u := baseURL +:+ "/_next/data/" +:+ Js.to_string (buildId c) +:+ path in
    match axios_get default_config (Request u ps) n with
    | (Ok (_, data), n') => (Ok (project data), n')
    | (Throw e, n') => (Throw e, n')
    end.

(** [response.data?.pageProps?.field || []] *)
Definition items_of (field : PageProps → option (list Item)) (data : payload) : list Item :=
  default [] (pageProps_of data ≫= field).

(** The listing methods resolve to what the wrapper resolves to: the
    [|| []] after the call applies to a promise and never replaces it. *)
Definition getTrending : M state (option (list Item)) :=
  _withBuildIdRetry (fetch "/en.json" [] (items_of trending)).

Definition search (query : val) (page : Z) : M state (option (list Item)) :=
  _withBuildIdRetry (fetch "/en/search.json" [("q", query); ("page", Num page)] (items_of results)).

Definition page_params (page : Z) (genre : val) : list (string * val) :=
  ("page", Num page) :: (if Js.truthy genre then [("genre", genre)] else []).

Definition getMovies (page : Z) (genre : val) : M state (option (list Item)) :=
  _withBuildIdRetry (fetch "/en/movie.json" (page_params page genre) (items_of movies)).

Definition getTVShows (page : Z) (genre : val) : M state (option (list Item)) :=
  _withBuildIdRetry (fetch "/en/tv.json" (page_params page genre) (items_of shows)).

Definition getContentDetails (id mediaType : string) : M state (option PageProps) :=
  await found :=
    _withBuildIdRetry
      (fetch (if String.eqb mediaType "movie"
              then "/en/movie/" +:+ id +:+ ".json"
              else "/en/tv/" +:+ id +:+ ".json") [] pageProps_of) in
  ret (mjoin found).

Definition stream_endpoint (id : val) (mediaType : string) (season episode : val) : string :=
  if String.eqb mediaType "movie"
  then baseURL +:+ "/api/v2/movie/" +:+ Js.to_string id
  else baseURL +:+ "/api/v2/tv/" +:+ Js.to_string id +:+
       (if Js.truthy season && Js.truthy episode
        then "/" +:+ Js.to_string season +:+ "/" +:+ Js.to_string episode
        else EmptyString).

Definition getStreamSources (id : val) (mediaType : string) (season episode : val)
    : M state payload :=
  try_catch
    (await '(_, data) :=
       on_net (axios_get default_config (GET (stream_endpoint id mediaType season episode))) in
     ret data)
    (λ error, ret NoData).

Definition transformToStremioMeta (item : Item) : Meta :=
  let isMovie := Js.is_str (mediaType item) "movie" in
  {| meta_id := "cineby:" +:+ Js.to_string (item_id item);
     meta_type := if isMovie then "movie" else "series";
     meta_name := title item;
     meta_poster := poster item;
     background := image item;
     meta_description := description item;
     releaseInfo := release_date item;
     imdbRating := rating_text (rating item);
     genres := Genres.mapGenreIds (default [] (genre_ids item));
     language := original_language item |}.

Definition video_entry (id : string) (s : Season) (e : Episode) : result (list Video) :=
  Js.rbind (episode_title (season_number s) (episode_number e) (episode_name e)) (λ t,
  Ok [ {| video_id := episode_id id (season_number s) (episode_number e);
          video_title := t;
          video_season := season_number s;
          video_episode := episode_number e;
          video_overview := episode_overview e;
          thumbnail := still_path e;
          video_released := Plain (air_date e) |} ]).

Definition season_videos (id : string) (s : Season) : result (list Video) :=
  match episodes s with
  | Some es => for_of (video_entry id s) es
  | None => Ok []
  end.

(** [req.query]: each parameter is a string or missing. *)
Record Query := {
  query_search : option string;
  query_skip : option string;
  query_genre : option string
}.

Definition query_val (q : option string) : val :=
  match q with
  | Some s => Str s
  | None => Undefined
  end.

(** A method called on what a listing resolved to: [null] has none. *)
Definition array_of {A} (resolved : option (list A)) (method : string) : M state (list A) :=
  match resolved with
  | Some l => ret l
  | None => throw (Js.TypeError ("Cannot read properties of null (reading '" +:+ method +:+ "')"))
  end.

Section Routes.
Context `{Runtime}.

(** The bounds of [.slice(skip, skip + 20)], where [skip] is the number 0
    by default and otherwise the text of the query parameter, so that
    [skip + 20] appends the digits 2 and 0 to it. *)
Definition slice_bounds (skip : option string) : Z * Z :=
  match skip with
  | None => (0, 20)
  | Some s => (default 0 (Js.toNumber s), default 0 (Js.toNumber (s +:+ "20")))
  end.

(** [parseInt(skip) || 0] *)
Definition skip_number (skip : option string) : Z :=
  match skip with
  | None => default 0 (Js.parseInt (Num 0))
  | Some s => default 0 (Js.parseInt (Str s))
  end.

(** [app.get('/catalog/:type/:id')] *)
Definition catalog (type id : string) (query : Query) : M state response :=
  try_catch
    (let search_ := query_val (query_search query) in
     let genre := query_val (query_genre query) in
     let page := skip_number (query_skip query) / 20 + 1 in
     let wanted item := Js.is_str (mediaType item) (mediaType_of type) in
     await results :=
       (if Js.truthy search_ then
          await resolved := search search_ page in
          await searchResults := array_of resolved "filter" in
          ret (List.map transformToStremioMeta (List.filter wanted searchResults))
        else if String.eqb id "cineby-trending-movies" || String.eqb id "cineby-trending-series" then
          await resolved := getTrending in
          await trending := array_of resolved "filter" in
          let '(from, to) := slice_bounds (query_skip query) in
          ret (List.map transformToStremioMeta (Js.slice from to (List.filter wanted trending)))
        else if String.eqb id "cineby-movies" then
          await resolved := getMovies page genre in
          await movies := array_of resolved "map" in
          ret (List.map (λ item, transformToStremioMeta (with_mediaType (Str "movie") item)) movies)
        else if String.eqb id "cineby-series" then
          await resolved := getTVShows page genre in
          await tvShows := array_of resolved "map" in
          ret (List.map (λ item, transformToStremioMeta (with_mediaType (Str "tv") item)) tvShows)
        else ret []) in
     ret (json (Metas results)))
    (λ error, ret (json (Metas []))).

(** [app.get('/meta/:type/:id')] *)
Definition meta (type id : string) : M state response :=
  try_catch
    (let cinebyId := Js.replace "cineby:" EmptyString id in
     let mediaType := mediaType_of type in
     await details := getContentDetails cinebyId mediaType in
     match details with
     | None => ret (json EmptyMeta)
     | Some props =>
         let d := detail props in
         let meta :=
           {| meta_id := id;
              meta_type := type;
              meta_name := Js.or (title d) (name d);
              meta_poster := poster d;
              background := image d;
              meta_description := description d;
              releaseInfo := Js.or (release_date d) (first_air_date d);
              imdbRating := rating_text (rating d);
              genres := Genres.mapGenreIds (default [] (genre_ids d));
              language := original_language d |} in
         await vs :=
           (match String.eqb type "series", seasons props with
            | true, Some ss => await l := lift (for_of (season_videos id) ss) in ret (Some l)
            | _, _ => ret None
            end) in
         ret (json (MetaOf {| summary := meta; meta_runtime := runtime d; videos := vs |}))
     end)
    (λ error, ret (json EmptyMeta)).

(** [app.get('/stream/:type/:id')] *)
Definition stream (type id : string) : M state response :=
  try_catch
    (let parts := Js.split ":" id in
     let cinebyId := Js.at_index parts 1 in
     let season := Js.at_index parts 2 in
     let episode := Js.at_index parts 3 in
     let mediaType := mediaType_of type in
     await streamData := getStreamSources cinebyId mediaType season episode in
     match (if payload_truthy streamData then sources_of streamData else None) with
     | None => ret (json (Streams []))
     | Some srcs =>
         await streams := lift (map_sources stream_of srcs) in
         ret (json (Streams (Js.sort by_quality streams)))
     end)
    (λ error, ret (json (Streams []))).

End Routes.

End Retry.

(** ** Vocabulary of the properties *)

Module Spec.

(** The build id that fetching the homepage at [u] finds: none when the
    request fails or the page does not match. *)
Definition homepage_id (re : string → option string) (cfg : config) (u : string) (n : net)
    : option string :=
  match axios_get cfg (GET u) n with
  | (Ok (_, data), _) =>
      match data_match re data with
      | Ok (Some id) => Some id
      | _ => None
      end
  | (Throw _, _) => None
  end.

(** An upstream whose every answer is a failure (no response, or a status
    outside 2xx) or lacks what the route looks for. *)
Definition fails_or (absent : payload → bool) (o : outcome) : bool :=
  match o with
  | NoResponse _ => true
  | Response status data => negb (validateStatus default_config status) || absent data
  end.

Definition lookups_fail (absent : payload → bool) (n : net) : Prop :=
  ∀ k rq, fails_or absent (answer (upstream n k rq)) = true.

Definition no_listing (d : payload) : bool :=
  match pageProps_of d with
  | Some p =>
      match trending p, results p, movies p, shows p with
      | None, None, None, None => true
      | _, _, _, _ => false
      end
  | None => true
  end.

Definition no_details (d : payload) : bool :=
  match pageProps_of d with
  | Some _ => false
  | None => true
  end.

Definition no_sources (d : payload) : bool :=
  match (if payload_truthy d then sources_of d else None) with
  | Some _ => false
  | None => true
  end.

(** A stream entry whose label the comparator reads as a number: any label
    but the names an object inherits. *)
Definition ranked (s : Stream) : bool :=
  match quality_rank (title_quality s) with
  | Some _ => true
  | None => false
  end.

(** The rank of a stream entry in the quality table. *)
Definition rank (s : Stream) : Z := default 0 (quality_rank (title_quality s)).

(** A list in descending order of [rank]. *)
Definition descending {A} (rank : A → Z) : list A → Prop :=
  StronglySorted (λ a b, rank b ≤ rank a).

(** Zero-padding to width 2. *)
Definition two_digits (t : string) : string :=
  match String.length t with
  | O => "00"
  | S O => "0" +:+ t
  | _ => t
  end.

(** The episode entries as the specification words them: the composite id,
    the title with both numbers padded, one entry per episode in [keep]. *)
Definition episode_video (date : val → released) (blank : val → val)
    (id : string) (s : Season) (e : Episode) : Video :=
  {| video_id := id +:+ ":" +:+ Js.to_string (season_number s) +:+ ":"
                    +:+ Js.to_string (episode_number e);
     video_title := "S" +:+ two_digits (Js.to_string (season_number s))
                        +:+ "E" +:+ two_digits (Js.to_string (episode_number e))
                        +:+ " - " +:+ Js.to_string (episode_name e);
     video_season := season_number s;
     video_episode := episode_number e;
     video_overview := blank (episode_overview e);
     thumbnail := still_path e;
     video_released := date (air_date e) |}.

(** How the validated server fills [released] and [overview]. *)
Definition date_if_given (v : val) : released :=
  if Js.truthy v then DateOf v else Plain Undefined.

Definition or_blank (v : val) : val := Js.or v (Str "").

Definition projectEpisodeVideos (keep : Episode → bool) (entry : Season → Episode → Video)
    (ss : list Season) : list Video :=
  flat_map (λ s, List.map (entry s) (List.filter keep (default [] (episodes s)))) ss.

(** An episode that has both a number and a name. *)
Definition numbered_and_named (e : Episode) : bool :=
  Js.truthy (episode_number e) && Js.truthy (episode_name e).

(** A value on which [toString()] can be called. *)
Definition present (v : val) : bool :=
  match v with
  | Undefined | Null => false
  | _ => true
  end.

(** Every episode in [keep] has a season number and an episode number on
    which [toString()] can be called. *)
Definition printable (keep : Episode → bool) (ss : list Season) : bool :=
  forallb (λ s, forallb (λ e, negb (keep e)
                              || (present (season_number s) && present (episode_number e)))
                  (default [] (episodes s))) ss.

(** The titles of the episode entries in an answer of the meta route. *)
Definition video_titles (r : result response) : list string :=
  match r with
  | Ok {| content := MetaOf m |} => List.map video_title (default [] (videos m))
  | _ => []
  end.

End Spec.

(** ** Sample inputs *)

Module Sample.

Definition digit_of (c : ascii) : option Z :=
  let n := Z.of_nat (nat_of_ascii c) in
  if (48 <=? n) && (n <=? 57) then Some (n - 48) else None.

(** The number written by the leading decimal digits of [s]. *)
Fixpoint leading_digits (acc : option Z) (s : string) : option Z :=
  match s with
  | String c rest =>
      match digit_of c with
      | Some d => leading_digits (Some (10 * default 0 acc + d)) rest
      | None => acc
      end
  | EmptyString => acc
  end.

Fixpoint all_digits (s : string) : bool :=
  match s with
  | String c rest => match digit_of c with Some _ => all_digits rest | None => false end
  | EmptyString => true
  end.

Fixpoint first_param (key : string) (pairs : list string) : val :=
  match pairs with
  | [] => Null
  | p :: rest =>
      match Js.strip_prefix (key +:+ "=") p with
      | Some v => Str v
      | None => first_param key rest
      end
  end.

Fixpoint drop_spaces (s : string) : string :=
  match s with
  | String " " rest => drop_spaces rest
  | _ => s
  end.

(** A runtime for plain decimal numbers and unescaped query strings. *)
Definition plain_runtime : Runtime :=
  {| Js.parseInt := λ v, match v with
                         | Num n => Some n
                         | Str s => leading_digits None s
                         | _ => None
                         end;
     Js.toNumber := λ s, if all_digits s then Some (default 0 (leading_digits None s)) else None;
     Js.searchParam := λ extra key, first_param key (Js.split "&" extra);
     Js.trim := λ s, drop_spaces (String.rev (drop_spaces (String.rev s))) |}.

Definition item (id : Z) (kind : val) (label : string) : Item :=
  {| item_id := Num id; mediaType := kind; title := Str label; name := Undefined;
     poster := Undefined; poster_path := Undefined; image := Undefined;
     backdrop_path := Undefined; description := Undefined; overview := Undefined;
     release_date := Undefined; first_air_date := Undefined; rating := Undefined;
     genre_ids := Some [28; 99999; 35]; original_language := Str "en";
     runtime := Undefined |}.

Definition episode (number name : val) : Episode :=
  {| episode_number := number; episode_name := name; episode_overview := Undefined;
     still_path := Undefined; air_date := Undefined |}.

(** Season 2 of a show: episode 5 is named, episode 6 has no name. *)
Definition season2 : Season :=
  {| season_number := Num 2;
     episodes := Some [ episode (Num 5) (Str "Homecoming"); episode (Num 6) Undefined ] |}.

Definition show_props : PageProps :=
  {| trending := None; results := None; movies := None; shows := None;
     detail := item 42 (Str "tv") "A show";
     seasons := Some [season2] |}.

Definition show_page : payload :=
  Json {| pageProps := Some show_props; sources := None |}.

Definition source (q : val) : Source :=
  {| source_url := Str "https://cdn.example/video.m3u8"; quality := q; source_type := Str "hls" |}.

(** Three sources, in the upstream order Auto, 1080p, 720p. *)
Definition three_sources : list Source :=
  [ source (Str "Auto"); source (Str "1080p"); source (Str "720p") ].

(** A page that embeds the build id [b] the way the site does. *)
Definition page_with (b : string) : string :=
  "<script>{" +:+ Pattern.buildId_key +:+ b +:+ String Pattern.quote "}</script>".

Definition homepage (b : string) : outcome := Response 200 (Text (page_with b)).

Definition is_homepage (rq : request) : bool :=
  String.eqb (url rq) "https://www.cineby.app" || String.eqb (url rq) "https://www.cineby.app/".

(** An upstream that cannot be reached. *)
Definition offline : nat → request → reply :=
  λ _ _, Reply 30 (NoResponse "ECONNREFUSED").

(** An upstream that answers every request with the same status and body. *)
Definition always (status : Z) (data : payload) : nat → request → reply :=
  λ _ _, Reply 30 (Response status data).

(** An upstream that serves its homepage with build id [b] and answers
    every other request with [other]. *)
Definition site (b : string) (other : outcome) : nat → request → reply :=
  λ _ rq, Reply 30 (if is_homepage rq then homepage b else other).

(** An upstream that was redeployed: the homepage shows the build id
    [fresh], and data paths answer 404 unless they carry it. *)
Definition redeployed (fresh : string) (data : payload) : nat → request → reply :=
  λ _ rq,
    Reply 30
      (if is_homepage rq then homepage fresh
       else if Js.startsWith ("https://www.cineby.app/_next/data/" +:+ fresh +:+ "/") (url rq)
            then Response 200 data
            else Response 404 NoData).

(** An upstream whose homepage answers once and is unreachable afterwards. *)
Definition once (b : string) : nat → request → reply :=
  λ k _, Reply 30 (match k with O => homepage b | _ => NoResponse "ECONNREFUSED" end).

Definition at_time (now : Z) (up : nat → request → reply) : net :=
  {| clock := now; upstream := up; sent := [] |}.

(** The cached client, new, in front of a site with build id [abc123];
    and the same client after its first [getBuildId]. *)
Definition cached_cold : Cached.state :=
  {| Cached.this := Cached.constructor;
     Cached.network := at_time 1000 (site "abc123" (NoResponse "ECONNREFUSED")) |}.

Definition cached_warm : Cached.state := snd (Cached.getBuildId false cached_cold).

(** The cached client holding [abc123] while the site is unreachable. *)
Definition cached_offline : Cached.state :=
  {| Cached.this := {| Cached.buildId := Str "abc123"; Cached.buildIdFetchedAt := 1000 |};
     Cached.network := at_time 9000000 offline |}.

(** [server.js] in front of a homepage that answers once: at start, and
    after its first [getBuildId]. *)
Definition server_boot : Server.state :=
  {| Server.this := Server.constructor; Server.network := at_time 1000 (once "abc123") |}.

Definition server_started : Server.state := snd (Server.getBuildId server_boot).

Definition trending_page : payload :=
  Json {| pageProps := Some {| trending := Some [ item 1 (Str "movie") "A film" ];
                               results := None; movies := None; shows := None;
                               detail := item 0 Undefined "Home"; seasons := None |};
          sources := None |}.

(** The retrying client holding the build id [old], fetched a second ago,
    after the site was redeployed with build id [new]. *)
Definition retry_stale : Retry.state :=
  {| Retry.this := {| Retry.buildId := Str "old"; Retry.buildIdFetchedAt := 1000 |};
     Retry.network := at_time 2000 (redeployed "new" trending_page);
     Retry.calls := [] |}.

(** The same client in front of a site that answers 403 to data requests. *)
Definition retry_forbidden : Retry.state :=
  {| Retry.this := {| Retry.buildId := Str "old"; Retry.buildIdFetchedAt := 1000 |};
     Retry.network := at_time 2000 (site "old" (Response 403 NoData));
     Retry.calls := [] |}.

(** An upstream that takes a minute to answer. *)
Definition stalled : nat → request → reply :=
  λ _ _, Reply 60000 (Response 200 show_page).

(** The validated server at start, in front of the given upstream. *)
Definition production_at (up : nat → request → reply) : Production.state :=
  {| Production.this := Production.constructor; Production.network := at_time 1000 up |}.

(** Forty-five films and a show, as a trending feed. *)
Definition trending_films : list Item :=
  List.map (λ k, item (Z.of_nat k) (Str "movie") "A film") (seq 1 45).

Definition trending_feed : payload :=
  Json {| pageProps := Some {| trending := Some (item 100 (Str "tv") "A show" :: trending_films);
                               results := None; movies := None; shows := None;
                               detail := item 0 Undefined "Home"; seasons := None |};
          sources := None |}.

(** [server.js] at start, in front of the given upstream. *)
Definition server_at (up : nat → request → reply) : Server.state :=
  {| Server.this := Server.constructor; Server.network := at_time 1000 up |}.

(** The retrying server, new, in front of the given upstream. *)
Definition retry_at (up : nat → request → reply) : Retry.state :=
  {| Retry.this := Retry.constructor; Retry.network := at_time 1000 up; Retry.calls := [] |}.

Definition no_query : Retry.Query :=
  {| Retry.query_search := None; Retry.query_skip := None; Retry.query_genre := None |}.

End Sample.

(** ** Vocabulary for text *)

Module Text.

(** The character [c] occurs in [s]. *)
Fixpoint occurs (c : ascii) (s : string) : bool :=
  match s with
  | EmptyString => false
  | String a rest => Ascii.eqb a c || occurs c rest
  end.

(** Text that one line of a page can hold between two quotes: no quote, no
    line feed, no carriage return, and no byte that starts the encoding of
    a Unicode line separator. *)
Definition plain (s : string) : bool :=
  negb (occurs Pattern.quote s) && negb (occurs "010" s) && negb (occurs "013" s)
  && negb (occurs "226" s).

End Text.

(** ** The sibling of [add on.js]: listings and streams of the cached client

    The listing methods do not catch: a failed request makes them throw.
    The stream route catches everything and answers with what it has. *)

Module Sibling.

(** [`${this.baseURL}/_next/data/${this.buildId}${path}`] *)
Definition data_url (path : string) : M Cached.state string :=
  gets (λ s, Cached.baseURL +:+ "/_next/data/"
               +:+ Js.to_string (Cached.buildId (Cached.this s)) +:+ path).

(** [axios.get(url)] *)
Definition get (u : string) : M Cached.state (Z * payload) :=
  @on_net _ Cached.state_networked _ (axios_get default_config (GET u)).

(** [response.data.pageProps]: reading a property of [null] throws; text
    has no such property. *)
Definition pageProps_read (d : payload) : result (option PageProps) :=
  match d with
  | NoData => Throw (Js.TypeError "Cannot read properties of null (reading 'pageProps')")
  | _ => Ok (pageProps_of d)
  end.

(** The shape shared by [getMovies] and [getTVShows]:
    [response.data.pageProps?.field || []]. *)
Definition listing (path : string) (field : PageProps → option (list Item))
    : M Cached.state (list Item) :=
  Cached.getBuildId false ;;
  await u := data_url path in
  await '(_, data) := get u in
  await props := lift (pageProps_read data) in
  ret (default [] (props ≫= field)).

(** A parameter with a default value: the default stands in for
    [undefined], and for nothing else. *)
Definition or_default (value default_value : val) : val :=
  match value with
  | Undefined => default_value
  | _ => value
  end.

(** [getMovies(page = 1)] *)
Definition getMovies (page : val) : M Cached.state (list Item) :=
  listing ("/en/movie.json?page=" +:+ Js.to_string (or_default page (Num 1))) movies.

(** [getTVShows(page = 1)] *)
Definition getTVShows (page : val) : M Cached.state (list Item) :=
  listing ("/en/tv.json?page=" +:+ Js.to_string (or_default page (Num 1))) shows.

Definition stream_endpoint (type : string) (id : val) : string :=
  if String.eqb type "movie"
  then Cached.baseURL +:+ "/api/v2/movie/" +:+ Js.to_string id
  else Cached.baseURL +:+ "/api/v2/tv/" +:+ Js.to_string id.

(** [getStreams(type, id)]: [response.data?.sources || []] *)
Definition getStreams (type : string) (id : val) : M Cached.state sources_value :=
  await '(_, data) := get (stream_endpoint type id) in
  ret (default (Array []) (sources_of data)).

(** An entry of the stream answer: the title is the quality as the upstream
    gave it, or a numbered name. *)
Record Entry := {
  entry_title : val;
  entry_url : val;
  entry_notWebReady : bool
}.

(** [(s, index) => ({ title, url, behaviorHints })] *)
Definition entry_of (index : nat) (s : Source) : Entry :=
  {| entry_title := Js.or (quality s) (Str ("Source " +:+ Js.num_str (Z.of_nat index + 1)));
     entry_url := source_url s;
     entry_notWebReady := false |}.

(** [app.get('/stream/:type/:id')]: the streams of the answer, which is
    always sent with [res.json]. *)
Definition stream (type id : string) : M Cached.state (list Entry) :=
  try_catch
    (let realId := Js.at_index (Js.split ":" id) 1 in
     await streams := getStreams (mediaType_of type) realId in
     lift (map_sources entry_of streams))
    (λ err, ret []).

End Sibling.

(** ** Invariants and what a computation keeps *)

Module Kept.

(** A build id that can stand in a path: a string that is not empty. *)
Definition named (v : val) : bool :=
  match v with
  | Str b => negb (String.eqb b "")
  | _ => false
  end.

(** The client of the validated server: its build id is named, and its
    cache is either empty or holds that same build id. *)
Definition production_client (c : Production.CinebyClient) : bool :=
  named (Production.buildId c) &&
  match Production.buildIdCache c with
  | Null => true
  | Str b => Js.is_str (Production.buildId c) b
  | _ => false
  end.

(** [m] keeps [P]: from a state in [P] it ends in a state in [P], whether
    it returns or throws. *)
Definition keeps {S A} (P : S → Prop) (m : M S A) : Prop :=
  ∀ s, P s → P (snd (m s)).

(** Whatever [m] returns is in [Q]. *)
Definition yields {S A} (Q : A → Prop) (m : M S A) : Prop :=
  ∀ s a, fst (m s) = Ok a → Q a.

(** The body a stream route holds after its one upstream request: [null]
    when the request failed. *)
Definition body_read (r : result (Z * payload)) : payload :=
  match r with
  | Ok (_, data) => data
  | Throw _ => NoData
  end.

(** [streamData && streamData.sources], when it is truthy. *)
Definition sources_read (body : payload) : option sources_value :=
  if payload_truthy body then sources_of body else None.

(** The id of an episode entry is the id of the request followed by the
    entry's own season and episode. *)
Definition episode_of (id : string) (v : Video) : Prop :=
  video_id v = episode_id id (video_season v) (video_episode v).

(** [m] is the catalog entry of [item] for a request of [type]: it has
    that type, its id is the prefix followed by the id of the item, and it
    has a name and a language. *)
Definition listed_as (type : string) (item : Item) (m : Meta) : Prop :=
  meta_type m = type
  ∧ meta_id m = "cineby:" +:+ Js.to_string (item_id item)
  ∧ Js.truthy (meta_name m) = true
  ∧ Js.truthy (language m) = true.

(** [metas] lists the items of [items] that have an id, each under its own
    entry and in the same order, and nothing else. *)
Definition lists (type : string) (items : list Item) (metas : list Meta) : Prop :=
  Forall2 (listed_as type) (List.filter (λ item, Js.truthy (item_id item)) items) metas.

(** What a meta answer owes to the request for [type] and [id]: it echoes
    both, it lists episodes only for a series, and every episode it lists
    is an episode of [id]. *)
Definition meta_for (type id : string) (r : response) : Prop :=
  ∀ m, content r = MetaOf m →
       meta_id (summary m) = id ∧ meta_type (summary m) = type
       ∧ (type ≠ "series" → videos m = None)
       ∧ Forall (episode_of id) (default [] (videos m)).

End Kept.

(** ** Further scenarios *)

Module Scenario.

(** The cached client holding an identifier fetched exactly one hour ago. *)
Definition cached_expired : Cached.state :=
  {| Cached.this := {| Cached.buildId := Str "abc123"; Cached.buildIdFetchedAt := 1000 |};
     Cached.network := Sample.at_time 3601000 (Sample.site "def456" (NoResponse "ECONNREFUSED")) |}.

(** The cached client, new, in front of a site whose homepage shows an
    empty build id; and the same client after its first [getBuildId]. *)
Definition cached_blank_cold : Cached.state :=
  {| Cached.this := Cached.constructor;
     Cached.network := Sample.at_time 1000 (Sample.site "" (NoResponse "ECONNREFUSED")) |}.

Definition cached_blank : Cached.state := snd (Cached.getBuildId false cached_blank_cold).

(** Three sources, in the upstream order 720p, constructor, 1080p, and a
    stream endpoint that answers with them. *)
Definition inherited_label_sources : list Source :=
  [ Sample.source (Str "720p"); Sample.source (Str "constructor");
    Sample.source (Str "1080p") ].

Definition inherited_label_page : payload :=
  Json {| pageProps := None; sources := Some (Array (Some <$> inherited_label_sources)) |}.

Definition inherited_label_site : nat → request → reply :=
  Sample.site "abc123" (Response 200 inherited_label_page).

Definition show_with (id : Z) (ss : list Season) : payload :=
  Json {| pageProps := Some {| trending := None; results := None; movies := None;
                               shows := None;
                               detail := Sample.item id (Str "tv") "A show";
                               seasons := Some ss |};
          sources := None |}.

(** A show whose season 1 has a numbered episode and one without number. *)
Definition mixed_season : Season :=
  {| season_number := Num 1;
     episodes := Some [ Sample.episode (Num 1) (Str "Pilot");
                        Sample.episode Undefined (Str "Lost") ] |}.

Definition mixed_page : payload := show_with 44 [mixed_season].

(** A show whose only season has no season number. *)
Definition unnumbered_season : Season :=
  {| season_number := Undefined;
     episodes := Some [ Sample.episode (Num 1) (Str "Pilot") ] |}.

Definition unnumbered_season_page : payload := show_with 45 [unnumbered_season].

(** An item of the given kind that has no id. *)
Definition unidentified (kind : val) : Item :=
  {| item_id := Undefined; mediaType := kind; title := Str "Untitled"; name := Undefined;
     poster := Undefined; poster_path := Undefined; image := Undefined;
     backdrop_path := Undefined; description := Undefined; overview := Undefined;
     release_date := Undefined; first_air_date := Undefined; rating := Undefined;
     genre_ids := None; original_language := Undefined; runtime := Undefined |}.

End Scenario.

(** * Properties *)

Arguments axios_get : simpl never.
Arguments data_match : simpl never.
Arguments Genres.genreMap : simpl never.
Arguments qualityOrder : simpl never.

(** Unfolding a computation down to its requests. *)
Create HintDb plumbing discriminated.
#[global] Hint Unfold bind try_catch on_net gets modify lift ret throw Date_now : plumbing.

Ltac plumb := autounfold with plumbing; cbn.

(** ** Genre projection *)

Lemma genre_labels_truthy (id : Z) (label : string) :
  Genres.genreMap !! id = Some label → Js.truthy (Str label) = true.
Proof.
  intros Hl.
  assert (Hall : map_Forall (λ _ l, Js.truthy (Str l) = true) Genres.genreMap).
  { unfold Genres.genreMap. apply map_Forall_to_list. vm_compute. repeat constructor. }
  exact (Hall _ _ Hl).
Qed.

Lemma mapGenreIds_cons (id : Z) (ids : list Z) :
  Genres.mapGenreIds (id :: ids) =
  match Genres.genreMap !! id with
  | Some label => Str label :: Genres.mapGenreIds ids
  | None => Genres.mapGenreIds ids
  end.
Proof.
  unfold Genres.mapGenreIds. cbn [List.map List.filter].
  assert (Hg : Genres.genre_get id = from_option Str Undefined (Genres.genreMap !! id))
    by reflexivity.
  rewrite Hg. destruct (Genres.genreMap !! id) as [label|] eqn:E; cbn [from_option]; [|reflexivity].
  by rewrite (genre_labels_truthy id label E).
Qed.

(** C6: [mapGenreIds] returns the labels of exactly the ids that the genre
    table maps, in the order of the input; an unmapped id contributes
    nothing, and no placeholder ([undefined]) is left in the result.  In
    particular [mapGenreIds([28, 99999, 35])] is [Action, Comedy]. *)
Theorem mapGenreIds_projection (ids : list Z) :
  Genres.mapGenreIds ids = Str <$> omap (λ id, Genres.genreMap !! id) ids
  ∧ (∀ label, Str label ∈ Genres.mapGenreIds ids
              ↔ ∃ id, id ∈ ids ∧ Genres.genreMap !! id = Some label)
  ∧ (Undefined ∉ Genres.mapGenreIds ids)
  ∧ Genres.mapGenreIds [28; 99999; 35] = [Str "Action"; Str "Comedy"].
Proof.
  assert (Heq : ∀ l, Genres.mapGenreIds l = Str <$> omap (λ id, Genres.genreMap !! id) l).
  { induction l as [|id l IH]; [reflexivity|].
    rewrite mapGenreIds_cons. cbn [omap list_omap].
    destruct (Genres.genreMap !! id); cbn [fmap list_fmap]; by rewrite IH. }
  split; [apply Heq|]. split; [|split].
  - intros label. rewrite Heq, list_elem_of_fmap. split.
    + intros (l & [= ->] & Hin). apply list_elem_of_omap in Hin. exact Hin.
    + intros Hex. exists label. split; [done|]. by apply list_elem_of_omap.
  - rewrite Heq, list_elem_of_fmap. by intros (l & ? & _).
  - reflexivity.
Qed.

(** ** The build id cache *)

(** C2, as amended: a call [getBuildId(false)] made while a cached
    identifier that is not empty exists ([this.buildId] is truthy) and less
    than one hour (3600000 ms) has passed since it was fetched returns that
    identifier and leaves the whole state as it was: the cache is unchanged
    and no request is sent. *)
Theorem getBuildId_served_from_cache (s : Cached.state) :
  Js.truthy (Cached.buildId (Cached.this s)) = true →
  clock (Cached.network s) - Cached.buildIdFetchedAt (Cached.this s) < 3600000 →
  Cached.getBuildId false s = (Ok (Cached.buildId (Cached.this s)), s).
Proof.
  intros Hid Hfresh.
  unfold Cached.getBuildId. plumb.
  rewrite Hid. cbn. change (3600 * 1000) with 3600000.
  destruct (Z.ltb_spec (clock (Cached.network s) - Cached.buildIdFetchedAt (Cached.this s))
              3600000); [|lia].
  reflexivity.
Qed.

Lemma getBuildId_served_from_cache_witness :
  Js.truthy (Cached.buildId (Cached.this Sample.cached_warm)) = true
  ∧ clock (Cached.network Sample.cached_warm)
      - Cached.buildIdFetchedAt (Cached.this Sample.cached_warm) < 3600000
  ∧ Cached.getBuildId false Sample.cached_warm = (Ok (Str "abc123"), Sample.cached_warm)
  ∧ sent (Cached.network Sample.cached_warm) = [GET "https://www.cineby.app"].
Proof.
  assert (H1 : Js.truthy (Cached.buildId (Cached.this Sample.cached_warm)) = true)
    by (vm_compute; reflexivity).
  assert (H2 : clock (Cached.network Sample.cached_warm)
               - Cached.buildIdFetchedAt (Cached.this Sample.cached_warm) < 3600000)
    by (vm_compute; reflexivity).
  split; [exact H1|]. split; [exact H2|]. split; [|vm_compute; reflexivity].
  exact (getBuildId_served_from_cache Sample.cached_warm H1 H2).
Defined.

(** The claim as first written fails for the empty identifier, which the
    client stores, with its time, when the homepage shows one: the next
    call, a moment later, sends a second request. *)
Lemma getBuildId_refetches_empty_identifier :
  Cached.this Scenario.cached_blank
  = {| Cached.buildId := Str ""; Cached.buildIdFetchedAt := 1000 |}
  ∧ clock (Cached.network Scenario.cached_blank)
      - Cached.buildIdFetchedAt (Cached.this Scenario.cached_blank) < 3600000
  ∧ sent (Cached.network Scenario.cached_blank) = [GET "https://www.cineby.app"]
  ∧ sent (Cached.network (snd (Cached.getBuildId false Scenario.cached_blank)))
    = [GET "https://www.cineby.app"; GET "https://www.cineby.app"]
  ∧ Cached.getBuildId false Scenario.cached_blank
    ≠ (Ok (Cached.buildId (Cached.this Scenario.cached_blank)), Scenario.cached_blank).
Proof.
  split; [vm_compute; reflexivity|]. split; [vm_compute; reflexivity|].
  split; [vm_compute; reflexivity|]. split; [vm_compute; reflexivity|].
  intros Hsame.
  apply (f_equal (λ r, length (sent (Cached.network (snd r))))) in Hsame.
  vm_compute in Hsame. discriminate.
Qed.

Lemma axios_get_sent (cfg : config) (rq : request) (n : net) :
  sent (snd (axios_get cfg rq n)) = (sent n ++ [rq])%list.
Proof.
  unfold axios_get. destruct (timed_out _ _); [reflexivity|].
  destruct (answer _); [reflexivity|]. by destruct (validateStatus _ _).
Qed.

(** A call that does not find a fresh identifier in the cache sends one
    request, for the homepage. *)
Lemma cached_getBuildId_fetches (forceRefresh : bool) (s : Cached.state) :
  negb forceRefresh && Js.truthy (Cached.buildId (Cached.this s))
    && (clock (Cached.network s) - Cached.buildIdFetchedAt (Cached.this s) <? 3600 * 1000)
  = false →
  sent (Cached.network (snd (Cached.getBuildId forceRefresh s)))
  = (sent (Cached.network s) ++ [GET Cached.baseURL])%list.
Proof.
  intros Hmiss. unfold Cached.getBuildId. plumb. rewrite Hmiss.
  pose proof (axios_get_sent default_config (GET Cached.baseURL) (Cached.network s)) as Hsent.
  destruct (axios_get default_config (GET Cached.baseURL) (Cached.network s))
    as [[[st data]|e] n]; cbn in *; [|exact Hsent].
  destruct (data_match Pattern.match_lazy data) as [[id|]|e]; cbn; exact Hsent.
Qed.

(** A forced refresh always fetches, whatever the age of the cache. *)
Lemma cached_getBuildId_forced_fetches (s : Cached.state) :
  sent (Cached.network (snd (Cached.getBuildId true s)))
  = (sent (Cached.network s) ++ [GET Cached.baseURL])%list.
Proof. by apply cached_getBuildId_fetches. Qed.

(** With the lazy group an empty identifier can be captured; it is falsy,
    so it is fetched again on the next call even within the hour. *)
Lemma getBuildId_empty_identifier_is_not_reused (s : Cached.state) :
  Cached.buildId (Cached.this s) = Str "" →
  sent (Cached.network (snd (Cached.getBuildId false s)))
  = (sent (Cached.network s) ++ [GET Cached.baseURL])%list.
Proof. intros Hid. apply cached_getBuildId_fetches. by rewrite Hid. Qed.

Lemma cached_getBuildId_failure (forceRefresh : bool) (s : Cached.state) :
  Spec.homepage_id Pattern.match_lazy default_config Cached.baseURL (Cached.network s) = None →
  ∃ n, Cached.getBuildId forceRefresh s
       = (Ok (Cached.buildId (Cached.this s)),
          {| Cached.this := Cached.this s; Cached.network := n |}).
Proof.
  intros Hfail. unfold Spec.homepage_id in Hfail.
  unfold Cached.getBuildId. plumb.
  destruct (negb forceRefresh && Js.truthy _ && _).
  { exists (Cached.network s). by destruct s. }
  destruct (axios_get default_config (GET Cached.baseURL) (Cached.network s))
    as [[[st data]|e] n]; cbn.
  - destruct (data_match Pattern.match_lazy data) as [[id|]|e]; [done| |]; by exists n.
  - by exists n.
Qed.

Lemma cached_getBuildId_never_throws (forceRefresh : bool) (s : Cached.state) :
  ∃ v s', Cached.getBuildId forceRefresh s = (Ok v, s').
Proof.
  unfold Cached.getBuildId. plumb.
  destruct (negb forceRefresh && Js.truthy _ && _); [by eauto|].
  destruct (axios_get default_config (GET Cached.baseURL) (Cached.network s))
    as [[[st data]|e] n]; cbn; [|by eauto].
  destruct (data_match Pattern.match_lazy data) as [[id|]|e]; cbn; eauto.
Qed.

Lemma server_getBuildId_failure (s : Server.state) :
  Spec.homepage_id Pattern.match_nonempty default_config (Server.baseURL +:+ "/")
    (Server.network s) = None →
  ∃ n, Server.getBuildId s
       = (Ok Undefined, {| Server.this := Server.this s; Server.network := n |}).
Proof.
  intros Hfail. unfold Spec.homepage_id in Hfail.
  unfold Server.getBuildId, Server.get. plumb.
  change (GET ?u) with (Request u []) in Hfail.
  destruct (axios_get default_config _ (Server.network s)) as [[[st data]|e] n]; cbn.
  - destruct (data_match Pattern.match_nonempty data) as [[id|]|e]; [done| |]; by exists n.
  - by exists n.
Qed.

Lemma server_getBuildId_undefined (s : Server.state) :
  ∃ s', Server.getBuildId s = (Ok Undefined, s').
Proof.
  unfold Server.getBuildId, Server.get. plumb.
  destruct (axios_get default_config _ (Server.network s)) as [[[st data]|e] n]; cbn;
    [|by eauto].
  destruct (data_match Pattern.match_nonempty data) as [[id|]|e]; cbn; eauto.
Qed.

(** C3, as amended: when the homepage fetch or the search for the build id
    in the page fails, [getBuildId] leaves the cached identifier and its
    fetch time as they were and does not throw (no call ever does).  The
    cached client then returns the identifier it held before ([null] when
    none was ever fetched); [getBuildId] of [server.js] has no return
    value, so there the call resolves to [undefined] while [this.buildId]
    stays in place. *)
Theorem getBuildId_failure_keeps_identifier :
  (∀ forceRefresh s,
     Spec.homepage_id Pattern.match_lazy default_config Cached.baseURL (Cached.network s) = None →
     ∃ n, Cached.getBuildId forceRefresh s
          = (Ok (Cached.buildId (Cached.this s)),
             {| Cached.this := Cached.this s; Cached.network := n |}))
  ∧ (∀ forceRefresh s, ∃ v s', Cached.getBuildId forceRefresh s = (Ok v, s'))
  ∧ (∀ s,
       Spec.homepage_id Pattern.match_nonempty default_config (Server.baseURL +:+ "/")
         (Server.network s) = None →
       ∃ n, Server.getBuildId s
            = (Ok Undefined, {| Server.this := Server.this s; Server.network := n |}))
  ∧ (∀ s, ∃ s', Server.getBuildId s = (Ok Undefined, s')).
Proof.
  split; [exact cached_getBuildId_failure|].
  split; [exact cached_getBuildId_never_throws|].
  split; [exact server_getBuildId_failure|exact server_getBuildId_undefined].
Qed.

Lemma getBuildId_failure_keeps_identifier_witness :
  Spec.homepage_id Pattern.match_lazy default_config Cached.baseURL
    (Cached.network Sample.cached_offline) = None
  ∧ (∃ n, Cached.getBuildId true Sample.cached_offline
          = (Ok (Str "abc123"),
             {| Cached.this := Cached.this Sample.cached_offline; Cached.network := n |}))
  ∧ Spec.homepage_id Pattern.match_nonempty default_config (Server.baseURL +:+ "/")
      (Server.network Sample.server_started) = None
  ∧ (∃ n, Server.getBuildId Sample.server_started
          = (Ok Undefined,
             {| Server.this := {| Server.buildId := Str "abc123" |}; Server.network := n |})).
Proof.
  assert (H1 : Spec.homepage_id Pattern.match_lazy default_config Cached.baseURL
                 (Cached.network Sample.cached_offline) = None) by (vm_compute; reflexivity).
  assert (H2 : Spec.homepage_id Pattern.match_nonempty default_config (Server.baseURL +:+ "/")
                 (Server.network Sample.server_started) = None) by (vm_compute; reflexivity).
  split; [exact H1|]. split.
  - exact (proj1 getBuildId_failure_keeps_identifier true Sample.cached_offline H1).
  - split; [exact H2|].
    exact (proj1 (proj2 (proj2 getBuildId_failure_keeps_identifier)) Sample.server_started H2).
Defined.

(** The claim as first stated does not hold in [server.js]: after a first
    call has stored the identifier [abc123], a call whose fetch fails
    resolves to [undefined], not to that identifier. *)
Lemma server_getBuildId_does_not_return_identifier :
  Server.buildId (Server.this Sample.server_started) = Str "abc123"
  ∧ Spec.homepage_id Pattern.match_nonempty default_config (Server.baseURL +:+ "/")
      (Server.network Sample.server_started) = None
  ∧ fst (Server.getBuildId Sample.server_started) = Ok Undefined
  ∧ fst (Server.getBuildId Sample.server_started)
    ≠ Ok (Server.buildId (Server.this Sample.server_started)).
Proof.
  split; [vm_compute; reflexivity|]. split; [vm_compute; reflexivity|].
  split; [vm_compute; reflexivity|]. vm_compute. discriminate.
Qed.

(** ** Retry after a stale build id *)

Lemma retry_getBuildId_runs (forceRefresh : bool) (s : Retry.state) :
  ∃ v c n, Retry.getBuildId forceRefresh s
           = (Ok v, {| Retry.this := c; Retry.network := n;
                       Retry.calls := (Retry.calls s ++ [Retry.GetBuildId forceRefresh])%list |}).
Proof.
  unfold Retry.getBuildId, Retry.called, Retry.set_this. plumb.
  destruct (negb forceRefresh && Js.truthy _ && _); cbn; [by eauto|].
  destruct (axios_get default_config _ (Retry.network s)) as [[[st data]|e] n]; cbn;
    [|by eauto].
  destruct (data_match Pattern.match_nonempty data) as [[id|]|e]; cbn; eauto.
Qed.

Lemma retry_run_calls {A} (fn : Retry.operation A) (s : Retry.state) :
  Retry.calls (snd (Retry.run fn s)) = (Retry.calls s ++ [Retry.Operation])%list.
Proof. unfold Retry.run. by destruct (fn _ _). Qed.

Lemma stale_status_spec (err : Js.error) :
  Retry.stale_status err = true
  ↔ Js.err_status err = Some 404 ∨ Js.err_status err = Some 500.
Proof.
  unfold Retry.stale_status. destruct (Js.err_status err) as [st|].
  - rewrite orb_true_iff, !Z.eqb_eq. split; intros [E|E]; (left + right); congruence.
  - split; [discriminate|]. intros [E|E]; discriminate.
Qed.

(** C1: [_withBuildIdRetry(fn)] first warms the cache ([getBuildId(false)])
    and executes [fn].  When that first execution throws with response
    status 404 or 500, the wrapper calls [getBuildId(true)] exactly once
    and then executes [fn] exactly once more, and resolves to what the
    second execution returns, or to [null] when it throws too.  When the
    first execution throws anything else (another status, or an error with
    no response) the wrapper makes no further call and resolves to [null].
    The wrapper itself never throws. *)
Theorem withBuildIdRetry_policy {A} (fn : Retry.operation A) (s : Retry.state) :
  let first := Retry.run fn (snd (Retry.getBuildId false s)) in
  let second := Retry.run fn (snd (Retry.getBuildId true (snd first))) in
  let r := Retry._withBuildIdRetry fn s in
  (∃ v, fst r = Ok v)
  ∧ (∀ v, fst first = Ok v →
       r = (Ok (Some v), snd first)
       ∧ Retry.calls (snd r)
         = (Retry.calls s ++ [Retry.GetBuildId false; Retry.Operation])%list)
  ∧ (∀ err, fst first = Throw err →
       Js.err_status err = Some 404 ∨ Js.err_status err = Some 500 →
       r = (Ok (match fst second with Ok v => Some v | Throw _ => None end), snd second)
       ∧ Retry.calls (snd r)
         = (Retry.calls s ++ [Retry.GetBuildId false; Retry.Operation;
                              Retry.GetBuildId true; Retry.Operation])%list)
  ∧ (∀ err, fst first = Throw err →
       Js.err_status err ≠ Some 404 → Js.err_status err ≠ Some 500 →
       r = (Ok None, snd first)
       ∧ Retry.calls (snd r)
         = (Retry.calls s ++ [Retry.GetBuildId false; Retry.Operation])%list).
Proof.
  cbv zeta.
  destruct (retry_getBuildId_runs false s) as (v0 & c0 & n0 & E0).
  unfold Retry._withBuildIdRetry, bind, try_catch. rewrite E0. cbn [fst snd].
  set (s1 := {| Retry.this := c0; Retry.network := n0; Retry.calls := _ |}).
  pose proof (retry_run_calls fn s1) as Hc1.
  destruct (Retry.run fn s1) as [[v|err] s2] eqn:E1; cbn [fst snd] in *.
  - split; [by eauto|]. split; [|split]; [|done|done].
    intros v' [= <-]. split; [reflexivity|]. cbn. rewrite Hc1. subst s1. cbn.
    by rewrite <- app_assoc.
  - destruct (retry_getBuildId_runs true s2) as (v2 & c2 & n2 & E2).
    destruct (Retry.stale_status err) eqn:Est.
    + rewrite E2. cbn [fst snd].
      set (s3 := {| Retry.this := c2; Retry.network := n2; Retry.calls := _ |}).
      pose proof (retry_run_calls fn s3) as Hc3.
      assert (Hcalls : Retry.calls (snd (Retry.run fn s3))
                       = (Retry.calls s ++ [Retry.GetBuildId false; Retry.Operation;
                                            Retry.GetBuildId true; Retry.Operation])%list).
      { rewrite Hc3. subst s3. cbn. rewrite Hc1. subst s1. cbn.
        by rewrite <- !app_assoc. }
      destruct (Retry.run fn s3) as [[v3|err3] s4]; cbn [fst snd] in *.
      * split; [by eauto|]. split; [done|]. split; [by intros ? [= <-] _|].
        intros err' [= <-] H404 H500. apply stale_status_spec in Est. tauto.
      * split; [by eauto|]. split; [done|]. split; [by intros ? [= <-] _|].
        intros err' [= <-] H404 H500. apply stale_status_spec in Est. tauto.
    + cbn. split; [by eauto|]. split; [done|]. split.
      * intros err' [= <-] Hst. apply stale_status_spec in Hst. congruence.
      * intros err' [= <-] _ _. split; [reflexivity|]. rewrite Hc1. subst s1. cbn.
        by rewrite <- app_assoc.
Qed.

Lemma withBuildIdRetry_policy_witness :
  let fn := Retry.fetch "/en.json" [] (Retry.items_of trending) in
  fst (Retry.run fn (snd (Retry.getBuildId false Sample.retry_stale)))
    = Throw (Js.Error (Some 404) "ERR_BAD_REQUEST" "Request failed with status code 404")
  ∧ Retry._withBuildIdRetry fn Sample.retry_stale
    = (Ok (Some [Sample.item 1 (Str "movie") "A film"]),
       snd (Retry.run fn (snd (Retry.getBuildId true
              (snd (Retry.run fn (snd (Retry.getBuildId false Sample.retry_stale))))))))
  ∧ Retry.calls (snd (Retry._withBuildIdRetry fn Sample.retry_stale))
    = [Retry.GetBuildId false; Retry.Operation; Retry.GetBuildId true; Retry.Operation]
  ∧ List.map url (sent (Retry.network (snd (Retry._withBuildIdRetry fn Sample.retry_stale))))
    = [ "https://www.cineby.app/_next/data/old/en.json";
        "https://www.cineby.app/";
        "https://www.cineby.app/_next/data/new/en.json" ]
  ∧ fst (Retry.run fn (snd (Retry.getBuildId false Sample.retry_forbidden)))
    = Throw (Js.Error (Some 403) "ERR_BAD_REQUEST" "Request failed with status code 403")
  ∧ fst (Retry._withBuildIdRetry fn Sample.retry_forbidden) = Ok None
  ∧ Retry.calls (snd (Retry._withBuildIdRetry fn Sample.retry_forbidden))
    = [Retry.GetBuildId false; Retry.Operation].
Proof.
  cbv zeta.
  set (fn := Retry.fetch "/en.json" [] (Retry.items_of trending)).
  assert (H404 : fst (Retry.run fn (snd (Retry.getBuildId false Sample.retry_stale)))
                 = Throw (Js.Error (Some 404) "ERR_BAD_REQUEST"
                            "Request failed with status code 404"))
    by (vm_compute; reflexivity).
  assert (H403 : fst (Retry.run fn (snd (Retry.getBuildId false Sample.retry_forbidden)))
                 = Throw (Js.Error (Some 403) "ERR_BAD_REQUEST"
                            "Request failed with status code 403"))
    by (vm_compute; reflexivity).
  destruct (withBuildIdRetry_policy fn Sample.retry_stale) as (_ & _ & Hstale & _).
  destruct (withBuildIdRetry_policy fn Sample.retry_forbidden) as (_ & _ & _ & Hother).
  destruct (Hstale _ H404 (or_introl eq_refl)) as [Hr Hcalls].
  destruct (Hother _ H403 ltac:(discriminate) ltac:(discriminate)) as [Hr' Hcalls'].
  split; [exact H404|]. split; [exact Hr|]. split; [exact Hcalls|].
  split; [vm_compute; reflexivity|]. split; [exact H403|].
  split; [by rewrite Hr'|exact Hcalls'].
Defined.

(** ** The request executor *)

Lemma axios_get_upstream (cfg : config) (rq : request) (n : net) :
  upstream (snd (axios_get cfg rq n)) = upstream n.
Proof.
  unfold axios_get. destruct (timed_out _ _); [done|].
  destruct (answer _); [done|]. by destruct (validateStatus _ _).
Qed.

Lemma makeRequest_run (u : string) (ps : list (string * val)) (s : Production.state) :
  let r := upstream (Production.network s) (length (sent (Production.network s)))
             (Request u ps) in
  Production.makeRequest u ps s
  = (Ok (if timed_out Production.axiosConfig r then NoData
         else match answer r with
              | Response status data => if status =? 200 then data else NoData
              | NoResponse _ => NoData
              end),
     {| Production.this := Production.this s;
        Production.network := snd (axios_get Production.axiosConfig (Request u ps)
                                     (Production.network s)) |}).
Proof.
  cbv zeta. unfold Production.makeRequest, bind, try_catch, on_net, ret, axios_get.
  cbn [get_net set_net Production.state_networked].
  destruct (timed_out _ _); [reflexivity|].
  destruct (answer _) as [code|status data]; [reflexivity|].
  cbn [validateStatus Production.axiosConfig].
  destruct (status <? 500) eqn:E500; cbn [snd].
  - by destruct (status =? 200).
  - destruct (Z.eqb_spec status 200) as [->|]; [discriminate|reflexivity].
Qed.

(** C8, as amended: [makeRequest] returns the parsed body when the answer
    arrives in time with status 200 exactly; for every other status and
    for a request with no response or a timeout it returns [null].  A
    status below 500 (so every 4xx, and the other 2xx and 3xx) does not
    make axios throw; a 5xx status does, and [makeRequest] catches it.
    [makeRequest] itself never throws. *)
Theorem makeRequest_body_or_null (u : string) (ps : list (string * val)) (s : Production.state) :
  let r := upstream (Production.network s) (length (sent (Production.network s)))
             (Request u ps) in
  (∃ d s', Production.makeRequest u ps s = (Ok d, s'))
  ∧ (∀ data, timed_out Production.axiosConfig r = false →
             answer r = Response 200 data →
             fst (Production.makeRequest u ps s) = Ok data)
  ∧ (∀ status data, answer r = Response status data → status ≠ 200 →
             fst (Production.makeRequest u ps s) = Ok NoData)
  ∧ (∀ code, answer r = NoResponse code →
             fst (Production.makeRequest u ps s) = Ok NoData)
  ∧ (timed_out Production.axiosConfig r = true →
             fst (Production.makeRequest u ps s) = Ok NoData)
  ∧ (∀ status data, timed_out Production.axiosConfig r = false →
             answer r = Response status data →
             if status <? 500
             then fst (axios_get Production.axiosConfig (Request u ps) (Production.network s))
                  = Ok (status, data)
             else ∃ e, fst (axios_get Production.axiosConfig (Request u ps)
                              (Production.network s)) = Throw e
                       ∧ Js.err_status e = Some status).
Proof.
  pose proof (makeRequest_run u ps s) as Hrun. cbv zeta in *.
  split; [rewrite Hrun; by eauto|].
  rewrite Hrun. cbn [fst]. split; [|split; [|split; [|split]]].
  - intros data -> ->. reflexivity.
  - intros status data -> Hne. destruct (timed_out _ _); [reflexivity|].
    by destruct (Z.eqb_spec status 200).
  - intros code ->. by destruct (timed_out _ _).
  - by intros ->.
  - intros status data Ht Ha. unfold axios_get. rewrite Ht, Ha.
    cbn [validateStatus Production.axiosConfig].
    destruct (status <? 500); [reflexivity|]. by eexists.
Qed.

Lemma makeRequest_body_or_null_witness :
  let u := "https://www.cineby.app/_next/data/abc123/en/tv/42.json" in
  fst (Production.makeRequest u [] (Sample.production_at (Sample.always 200 Sample.show_page)))
    = Ok Sample.show_page
  ∧ fst (Production.makeRequest u [] (Sample.production_at (Sample.always 404 Sample.show_page)))
    = Ok NoData
  ∧ fst (Production.makeRequest u [] (Sample.production_at (Sample.always 503 Sample.show_page)))
    = Ok NoData
  ∧ fst (Production.makeRequest u [] (Sample.production_at Sample.offline)) = Ok NoData
  ∧ fst (Production.makeRequest u [] (Sample.production_at Sample.stalled)) = Ok NoData.
Proof.
  cbv zeta.
  set (u := "https://www.cineby.app/_next/data/abc123/en/tv/42.json").
  split.
  { exact (proj1 (proj2 (makeRequest_body_or_null u []
             (Sample.production_at (Sample.always 200 Sample.show_page))))
             Sample.show_page eq_refl eq_refl). }
  split.
  { refine (proj1 (proj2 (proj2 (makeRequest_body_or_null u []
              (Sample.production_at (Sample.always 404 Sample.show_page)))))
              404 Sample.show_page eq_refl _). discriminate. }
  split.
  { refine (proj1 (proj2 (proj2 (makeRequest_body_or_null u []
              (Sample.production_at (Sample.always 503 Sample.show_page)))))
              503 Sample.show_page eq_refl _). discriminate. }
  split.
  { exact (proj1 (proj2 (proj2 (proj2 (makeRequest_body_or_null u []
             (Sample.production_at Sample.offline)))))
             "ECONNREFUSED" eq_refl). }
  exact (proj1 (proj2 (proj2 (proj2 (proj2 (makeRequest_body_or_null u []
           (Sample.production_at Sample.stalled)))))) eq_refl).
Defined.

(** The claim as first stated fails for a 2xx status other than 200: the
    answer 203 with a body does not throw, and [makeRequest] drops the body. *)
Lemma makeRequest_drops_body_of_203 :
  let s := Sample.production_at (Sample.always 203 Sample.show_page) in
  let u := "https://www.cineby.app/_next/data/abc123/en/tv/42.json" in
  answer (upstream (Production.network s) 0%nat (Request u [])) = Response 203 Sample.show_page
  ∧ fst (axios_get Production.axiosConfig (Request u []) (Production.network s))
    = Ok (203, Sample.show_page)
  ∧ fst (Production.makeRequest u [] s) = Ok NoData
  ∧ fst (Production.makeRequest u [] s) ≠ Ok Sample.show_page.
Proof.
  cbv zeta. split; [reflexivity|]. split; [vm_compute; reflexivity|].
  split; [vm_compute; reflexivity|]. vm_compute. discriminate.
Qed.

(** ** The type of a projected item *)

Lemma is_str_spec (v : val) (s : string) : Js.is_str v s = true ↔ v = Str s.
Proof.
  destruct v; cbn; try (split; [discriminate|congruence]).
  rewrite String.eqb_eq. split; congruence.
Qed.

Lemma movie_or_series (isMovie : bool) :
  let type := if isMovie then "movie" else "series" in
  (type = "movie" ↔ isMovie = true) ∧ (type = "series" ↔ isMovie = false).
Proof. destruct isMovie; cbn; split; split; (discriminate || reflexivity). Qed.

(** C9, as amended: the [type] of a meta that [transformToStremioMeta]
    builds is [movie] exactly when the item's [mediaType] is the string
    [movie], and [series] in every other case (a missing [mediaType], [tv],
    any other value); so it is always one of the two.  [server.js] builds a
    meta for every item.  The validated server builds one exactly for the
    items that have an id, and answers [null], which has no type, for a
    missing item and for an item without id. *)
Theorem transformToStremioMeta_type :
  (∀ item,
     let m := Server.transformToStremioMeta item in
     (meta_type m = "movie" ↔ mediaType item = Str "movie")
     ∧ (meta_type m = "series" ↔ mediaType item ≠ Str "movie")
     ∧ (meta_type m = "movie" ∨ meta_type m = "series"))
  ∧ (∀ item,
       Js.truthy (item_id item) = true →
       ∃ m, Production.transformToStremioMeta (Some item) = Some m
            ∧ (meta_type m = "movie" ↔ mediaType item = Str "movie")
            ∧ (meta_type m = "series" ↔ mediaType item ≠ Str "movie")
            ∧ (meta_type m = "movie" ∨ meta_type m = "series"))
  ∧ (∀ item,
       Js.truthy (item_id item) = false →
       Production.transformToStremioMeta (Some item) = None)
  ∧ Production.transformToStremioMeta None = None
  ∧ (∀ item m,
       Production.transformToStremioMeta item = Some m →
       ∃ i, item = Some i
            ∧ Js.truthy (item_id i) = true
            ∧ (meta_type m = "movie" ↔ mediaType i = Str "movie")
            ∧ (meta_type m = "series" ↔ mediaType i ≠ Str "movie")
            ∧ (meta_type m = "movie" ∨ meta_type m = "series")).
Proof.
  assert (Hcore : ∀ v : val,
            let type := if Js.is_str v "movie" then "movie" else "series" in
            (type = "movie" ↔ v = Str "movie")
            ∧ (type = "series" ↔ v ≠ Str "movie")
            ∧ (type = "movie" ∨ type = "series")).
  { intros v. cbv zeta. pose proof (is_str_spec v "movie") as Hs.
    destruct (Js.is_str v "movie").
    - split; [tauto|]. split; [|by left]. split; [discriminate|].
      intros Hne. exfalso. apply Hne. by apply Hs.
    - assert (v ≠ Str "movie") by (intros E; apply Hs in E; discriminate).
      split; [|split; [tauto|by right]]. split; [discriminate|done]. }
  split; [|split; [|split; [|split]]].
  - intros item. exact (Hcore (mediaType item)).
  - intros item Hid. unfold Production.transformToStremioMeta. rewrite Hid. cbn [negb].
    eexists. split; [reflexivity|]. exact (Hcore (mediaType item)).
  - intros item Hid. unfold Production.transformToStremioMeta. by rewrite Hid.
  - reflexivity.
  - intros [i|] m; [|discriminate]. unfold Production.transformToStremioMeta.
    destruct (Js.truthy (item_id i)) eqn:Hid; [|discriminate]. cbn [negb].
    intros [= <-]. exists i. split; [reflexivity|]. split; [exact Hid|].
    exact (Hcore (mediaType i)).
Qed.

Lemma transformToStremioMeta_type_witness :
  meta_type (Server.transformToStremioMeta (Sample.item 7 (Str "movie") "A film")) = "movie"
  ∧ meta_type (Server.transformToStremioMeta (Sample.item 7 (Str "tv") "A show")) = "series"
  ∧ meta_type (Server.transformToStremioMeta (Sample.item 7 Undefined "Untyped")) = "series"
  ∧ meta_type (Server.transformToStremioMeta (Sample.item 7 (Num 3) "Odd")) = "series"
  ∧ Js.truthy (item_id (Sample.item 7 (Str "movie") "A film")) = true
  ∧ (∃ m, Production.transformToStremioMeta (Some (Sample.item 7 (Str "movie") "A film"))
          = Some m
          ∧ meta_type m = "movie")
  ∧ (∃ m, Production.transformToStremioMeta (Some (Sample.item 7 Undefined "Untyped")) = Some m
          ∧ meta_type m = "series")
  ∧ Production.transformToStremioMeta (Some (Scenario.unidentified (Str "movie"))) = None.
Proof.
  destruct transformToStremioMeta_type as (Hserver & Hbuilt & Hnone & _ & _).
  split; [by apply (Hserver (Sample.item 7 (Str "movie") "A film"))|].
  split; [by apply (Hserver (Sample.item 7 (Str "tv") "A show"))|].
  split; [by apply (Hserver (Sample.item 7 Undefined "Untyped"))|].
  split; [by apply (Hserver (Sample.item 7 (Num 3) "Odd"))|].
  split; [reflexivity|].
  split; [|split].
  - destruct (Hbuilt (Sample.item 7 (Str "movie") "A film") eq_refl)
      as (m & Hm & Hmovie & _).
    exists m. split; [exact Hm|]. by apply Hmovie.
  - destruct (Hbuilt (Sample.item 7 Undefined "Untyped") eq_refl)
      as (m & Hm & _ & Hseries & _).
    exists m. split; [exact Hm|]. by apply Hseries.
  - exact (Hnone (Scenario.unidentified (Str "movie")) eq_refl).
Defined.

(** For an item without id the validated server builds no meta, so there
    is no type to speak of, although the item is a movie; [server.js]
    builds one for the same item. *)
Lemma transformToStremioMeta_gives_null_without_id :
  let item := Scenario.unidentified (Str "movie") in
  mediaType item = Str "movie"
  ∧ item_id item = Undefined
  ∧ Production.transformToStremioMeta (Some item) = None
  ∧ (¬ ∃ m, Production.transformToStremioMeta (Some item) = Some m ∧ meta_type m = "movie")
  ∧ meta_type (Server.transformToStremioMeta item) = "movie"
  ∧ meta_id (Server.transformToStremioMeta item) = "cineby:undefined".
Proof.
  cbv zeta. split; [reflexivity|]. split; [reflexivity|]. split; [reflexivity|].
  split; [|split; reflexivity].
  intros (m & Hm & _). discriminate Hm.
Qed.

(** ** The trending catalogs *)

Lemma clamp_index_range (len i : Z) : 0 ≤ len → 0 ≤ Js.clamp_index len i ≤ len.
Proof. unfold Js.clamp_index. destruct (Z.ltb_spec i 0); lia. Qed.

Lemma slice_window {A} (start : Z) (l : list A) :
  (length (Js.slice start (start + 20) l) ≤ 20)%nat.
Proof.
  unfold Js.slice. rewrite length_take.
  set (len := Z.of_nat (length l)).
  assert (Hk := clamp_index_range len start ltac:(lia)).
  assert (Hf := clamp_index_range len (start + 20) ltac:(lia)).
  assert (Js.clamp_index len (start + 20) - Js.clamp_index len start ≤ 20).
  { unfold Js.clamp_index in *.
    destruct (Z.ltb_spec start 0), (Z.ltb_spec (start + 20) 0); lia. }
  lia.
Qed.

Lemma filter_Boolean_length {A} (l : list (option A)) :
  (length (Js.filter_Boolean l) ≤ length l)%nat.
Proof. induction l as [|[x|] l IH]; cbn; lia. Qed.

Lemma server_listing_returns path ps field (s : Server.state) :
  ∃ items s', Server.listing path ps field s = (Ok items, s').
Proof.
  unfold Server.listing, Server.data_url, Server.get. plumb.
  destruct (axios_get default_config _ (Server.network s)) as [[[st data]|e] n]; cbn;
    [|by eauto].
  destruct (pageProps_of data ≫= field); eauto.
Qed.

Lemma production_getBuildId_returns (s : Production.state) :
  ∃ c n, Production.getBuildId s
         = (Ok Undefined, {| Production.this := c; Production.network := n |}).
Proof.
  unfold Production.getBuildId, Production.set_this. plumb.
  destruct (Production.cache_fresh _ _); cbn; [by eauto|].
  destruct (axios_get Production.axiosConfig _ (Production.network s))
    as [[[st data]|e] n]; cbn; [|by eauto].
  destruct (st =? 200); cbn; [|by eauto].
  destruct (data_match Pattern.match_nonempty data) as [[id|]|e]; cbn; eauto.
Qed.

Lemma production_listing_returns path ps field (s : Production.state) :
  ∃ items s', Production.listing path ps field s = (Ok items, s').
Proof.
  unfold Production.listing, bind.
  destruct (production_getBuildId_returns s) as (c & n & ->).
  unfold Production.data_url, gets. cbn.
  rewrite makeRequest_run. cbn.
  destruct (pageProps_of _ ≫= field); unfold ret; eauto.
Qed.

(** C10: a request for one of the two trending catalogs that carries no
    search term is answered with status 200 and a [metas] list of at most
    20 entries: the projection of the window [skip, skip + 20) of the
    trending items of the requested type.  ([server.js] answers so for
    every [type]; the validated server for the types [movie] and
    [series].) *)
Theorem trending_catalog_at_most_20 (rt : Runtime) (type id : string) (extra : option string) :
  id = "cineby-trending-movies" ∨ id = "cineby-trending-series" →
  (∀ s, Js.truthy (Server.parse_extra extra).1.1 = false →
     ∃ trending metas s',
       Server.getTrending s = (Ok trending, s')
       ∧ Server.catalog type id extra s = (Ok (json (Metas metas)), s')
       ∧ metas = List.map Server.transformToStremioMeta
                   (Js.slice (Server.parse_extra extra).1.2
                      ((Server.parse_extra extra).1.2 + 20)
                      (List.filter (λ item, Js.is_str (mediaType item) (mediaType_of type))
                         trending))
       ∧ (length metas ≤ 20)%nat)
  ∧ (∀ s, Production.valid_type type = true →
          Js.truthy (Production.parse_extra extra).1.1 = false →
     ∃ trending metas s',
       Production.getTrending s = (Ok trending, s')
       ∧ Production.catalog type id extra s = (Ok (json (Metas metas)), s')
       ∧ metas = Js.filter_Boolean
                   (List.map (λ item, Production.transformToStremioMeta (Some item))
                      (Js.slice (Production.parse_extra extra).1.2
                         ((Production.parse_extra extra).1.2 + 20)
                         (List.filter (λ item, Js.is_str (mediaType item) (mediaType_of type))
                            trending)))
       ∧ (length metas ≤ 20)%nat).
Proof.
  intros Hid.
  assert (Hcase : String.eqb id "cineby-trending-movies"
                  || String.eqb id "cineby-trending-series" = true).
  { destruct Hid as [-> | ->]; reflexivity. }
  split.
  - intros s Hsearch.
    destruct (server_listing_returns "/en.json" [] trending s) as (items & s' & Hrun).
    unfold Server.catalog, bind, try_catch.
    destruct (Server.parse_extra extra) as [[search_ skip] genre]. cbn [fst snd] in *.
    rewrite Hsearch, Hcase. unfold Server.getTrending. rewrite Hrun. unfold ret.
    eexists items, _, s'. split; [reflexivity|]. split; [reflexivity|].
    split; [reflexivity|]. rewrite length_map. apply slice_window.
  - intros s Hvalid Hsearch.
    destruct (production_listing_returns "/en.json" [] trending s) as (items & s' & Hrun).
    unfold Production.catalog, bind, try_catch. rewrite Hvalid. cbn [negb].
    destruct (Production.parse_extra extra) as [[search_ skip] genre]. cbn [fst snd] in *.
    rewrite Hsearch, Hcase. unfold Production.getTrending. rewrite Hrun. unfold ret.
    eexists items, _, s'. split; [reflexivity|]. split; [reflexivity|].
    split; [reflexivity|].
    etransitivity; [apply filter_Boolean_length|]. rewrite length_map. apply slice_window.
Qed.

Lemma trending_catalog_at_most_20_witness :
  let extra := Some "skip=20" in
  let s := Sample.server_at (Sample.site "abc123" (Response 200 Sample.trending_feed)) in
  let p := Sample.production_at (Sample.site "abc123" (Response 200 Sample.trending_feed)) in
  Js.truthy (Server.parse_extra (H := Sample.plain_runtime) extra).1.1 = false
  ∧ (∃ metas, fst (Server.catalog (H := Sample.plain_runtime) "movie" "cineby-trending-movies"
                     extra s) = Ok (json (Metas metas))
              ∧ (length metas ≤ 20)%nat)
  ∧ (∃ metas, fst (Production.catalog (H := Sample.plain_runtime) "movie"
                     "cineby-trending-movies" None p) = Ok (json (Metas metas))
              ∧ (length metas ≤ 20)%nat)
  ∧ length Sample.trending_films = 45%nat
  ∧ List.map meta_id
      (match content (default (json EmptyMeta)
               (match fst (Server.catalog (H := Sample.plain_runtime) "movie"
                             "cineby-trending-movies" (Some "skip=40") s) with
                | Ok r => Some r
                | Throw _ => None
                end)) with
       | Metas metas => metas
       | _ => []
       end)
    = [ "cineby:41"; "cineby:42"; "cineby:43"; "cineby:44"; "cineby:45" ].
Proof.
  cbv zeta.
  assert (Hsearch : Js.truthy (Server.parse_extra (H := Sample.plain_runtime)
                                 (Some "skip=20")).1.1 = false) by (vm_compute; reflexivity).
  split; [exact Hsearch|]. split; [|split; [|split; vm_compute; reflexivity]].
  - destruct (proj1 (trending_catalog_at_most_20 Sample.plain_runtime "movie"
                       "cineby-trending-movies" (Some "skip=20") (or_introl eq_refl))
                (Sample.server_at (Sample.site "abc123" (Response 200 Sample.trending_feed)))
                Hsearch) as (trending & metas & s' & _ & Hrun & _ & Hlen).
    exists metas. by rewrite Hrun.
  - destruct (proj2 (trending_catalog_at_most_20 Sample.plain_runtime "movie"
                       "cineby-trending-movies" None (or_introl eq_refl))
                (Sample.production_at (Sample.site "abc123" (Response 200 Sample.trending_feed)))
                eq_refl eq_refl) as (trending & metas & s' & _ & Hrun & _ & Hlen).
    exists metas. by rewrite Hrun.
Defined.

(** ** Sorting the streams by quality *)

Section SortByRank.
Context {A : Type} (rank : A → Z) (compare : A → A → Z).
Hypothesis compare_rank : ∀ a b, compare a b = rank b - rank a.

Lemma sort_insert_perm (x : A) (l : list A) : Js.sort_insert compare x l ≡ₚ x :: l.
Proof.
  induction l as [|y l IH]; [reflexivity|]. cbn.
  destruct (0 <? compare x y); [|reflexivity].
  rewrite IH. apply Permutation_swap.
Qed.

Lemma sort_perm (l : list A) : Js.sort compare l ≡ₚ l.
Proof.
  induction l as [|x l IH]; [reflexivity|]. cbn.
  rewrite sort_insert_perm. by rewrite IH.
Qed.

Lemma sort_insert_descending (x : A) (l : list A) :
  Spec.descending rank l → Spec.descending rank (Js.sort_insert compare x l).
Proof.
  induction 1 as [|y l Hl IH Hy]; cbn.
  - repeat constructor.
  - rewrite compare_rank. destruct (Z.ltb_spec 0 (rank y - rank x)).
    + constructor; [exact IH|].
      rewrite sort_insert_perm. constructor; [lia|exact Hy].
    + constructor; [by constructor|].
      constructor; [lia|]. eapply Forall_impl; [exact Hy|]. cbn. intros; lia.
Qed.

Lemma sort_descending (l : list A) : Spec.descending rank (Js.sort compare l).
Proof.
  induction l as [|x l IH]; cbn; [constructor|]. by apply sort_insert_descending.
Qed.

Lemma sort_insert_class (r : Z) (x : A) (l : list A) :
  List.filter (λ a, rank a =? r) (Js.sort_insert compare x l)
  = List.filter (λ a, rank a =? r) (x :: l).
Proof.
  induction l as [|y l IH]; [reflexivity|].
  cbn [Js.sort_insert]. rewrite compare_rank.
  destruct (Z.ltb_spec 0 (rank y - rank x)); [|reflexivity].
  cbn [List.filter] in *. rewrite IH.
  destruct (Z.eqb_spec (rank x) r), (Z.eqb_spec (rank y) r); try reflexivity. lia.
Qed.

Lemma sort_stable (r : Z) (l : list A) :
  List.filter (λ a, rank a =? r) (Js.sort compare l) = List.filter (λ a, rank a =? r) l.
Proof.
  induction l as [|x l IH]; [reflexivity|].
  cbn [Js.sort]. rewrite sort_insert_class. cbn [List.filter]. by rewrite IH.
Qed.

Lemma sort_of_descending (l : list A) : Spec.descending rank l → Js.sort compare l = l.
Proof.
  induction 1 as [|x l Hl IH Hx]; [reflexivity|].
  cbn [Js.sort]. rewrite IH. destruct l as [|y l]; [reflexivity|].
  cbn [Js.sort_insert]. rewrite compare_rank.
  apply Forall_cons in Hx as [Hxy _].
  destruct (Z.ltb_spec 0 (rank y - rank x)); [lia|reflexivity].
Qed.

Lemma sort_idempotent (l : list A) : Js.sort compare (Js.sort compare l) = Js.sort compare l.
Proof. apply sort_of_descending, sort_descending. Qed.

End SortByRank.

(** The comparator on entries whose labels it can read as numbers. *)
Lemma by_quality_ranked (a b : Stream) :
  Spec.ranked a = true → Spec.ranked b = true → by_quality a b = Spec.rank b - Spec.rank a.
Proof.
  unfold Spec.ranked, Spec.rank, by_quality.
  destruct (quality_rank (title_quality a)), (quality_rank (title_quality b)); by intros.
Qed.

(** An entry whose label is an inherited name compares as equal to
    everything. *)
Lemma by_quality_unranked (a b : Stream) :
  Spec.ranked a = false → by_quality a b = 0 ∧ by_quality b a = 0.
Proof.
  unfold Spec.ranked, by_quality.
  destruct (quality_rank (title_quality a)); [discriminate|].
  by destruct (quality_rank (title_quality b)).
Qed.

Lemma ranked_spec (s : Stream) : Spec.ranked s = true ↔ title_quality s ∉ inherited.
Proof.
  unfold Spec.ranked, quality_rank.
  destruct (qualityOrder !! title_quality s) as [rank|] eqn:Hrank.
  - split; [|done]. intros _ Hin.
    assert (Hnone : Forall (λ label, qualityOrder !! label = None) inherited)
      by (repeat constructor).
    rewrite Forall_forall in Hnone. specialize (Hnone _ Hin). congruence.
  - destruct (bool_decide_reflect (title_quality s ∈ inherited)); split; done.
Qed.

Lemma rank_spec (s : Stream) : Spec.rank s = default 0 (qualityOrder !! title_quality s).
Proof.
  unfold Spec.rank, quality_rank.
  destruct (qualityOrder !! title_quality s); [reflexivity|].
  by destruct (bool_decide _).
Qed.

Section SortAgree.
Context {A : Type} (compare compare' : A → A → Z).

Lemma sort_insert_agree (x : A) (l : list A) :
  (∀ y, y ∈ l → compare x y = compare' x y) →
  Js.sort_insert compare x l = Js.sort_insert compare' x l.
Proof.
  induction l as [|y l IH]; intros Hagree; [reflexivity|]. cbn.
  rewrite (Hagree y) by (apply elem_of_cons; by left).
  destruct (0 <? compare' x y); [|reflexivity].
  f_equal. apply IH. intros z Hz. apply Hagree. apply elem_of_cons. by right.
Qed.

Lemma sort_agree (l : list A) :
  (∀ a b, a ∈ l → b ∈ l → compare a b = compare' a b) →
  Js.sort compare l = Js.sort compare' l.
Proof.
  induction l as [|x l IH]; intros Hagree; [reflexivity|]. cbn.
  rewrite IH.
  - apply sort_insert_agree. intros y Hy.
    rewrite (sort_perm compare' l) in Hy.
    apply Hagree; apply elem_of_cons; [by left|by right].
  - intros a b Ha Hb. apply Hagree; apply elem_of_cons; by right.
Qed.

End SortAgree.

(** On entries that are all ranked the sort is the sort by rank. *)
Lemma sort_by_quality_ranked (streams : list Stream) :
  Forall (λ s, Spec.ranked s = true) streams →
  Js.sort by_quality streams = Js.sort (λ a b, Spec.rank b - Spec.rank a) streams.
Proof.
  intros Hranked. rewrite Forall_forall in Hranked.
  apply sort_agree. intros a b Ha Hb. apply by_quality_ranked; by apply Hranked.
Qed.

Lemma title_quality_auto (index : nat) (source : Source) :
  Js.truthy (quality source) = false → title_quality (stream_of index source) = "Auto".
Proof.
  intros Hq. unfold title_quality, stream_of, Js.or. cbn [stream_title]. by rewrite Hq.
Qed.

Lemma title_quality_label (index : nat) (source : Source) (label : string) :
  label ∈ ["1080p"; "720p"; "480p"; "Auto"] →
  quality source = Str label →
  title_quality (stream_of index source) = label.
Proof.
  intros Hin Hq. unfold title_quality, stream_of, Js.or. cbn [stream_title]. rewrite Hq.
  repeat (apply elem_of_cons in Hin as [-> | Hin]; [reflexivity|]).
  by apply elem_of_nil in Hin.
Qed.

(** [sources.map] over an array without [null] entries. *)
Lemma map_from_present {B} (f : nat → Source → B) (index : nat) (srcs : list Source) :
  map_from f index (Some <$> srcs) = Ok (imap (λ i, f (index + i)%nat) srcs).
Proof.
  revert index. induction srcs as [|source srcs IH]; intros index; [reflexivity|].
  cbn. rewrite IH. cbn. rewrite Nat.add_0_r. do 2 f_equal.
  apply imap_ext. intros i x _. cbn. f_equal. lia.
Qed.

Lemma map_sources_present {B} (f : nat → Source → B) (srcs : list Source) :
  map_sources f (Array (Some <$> srcs)) = Ok (imap f srcs).
Proof. unfold map_sources. by rewrite map_from_present. Qed.

(** [sources.map] throws on a [null] entry. *)
Lemma map_from_null {B} (f : nat → Source → B) (index : nat) (entries : list (option Source)) :
  None ∈ entries → ∃ error, map_from f index entries = Throw error.
Proof.
  revert index. induction entries as [|[source|] entries IH]; intros index Hin.
  - by apply elem_of_nil in Hin.
  - apply elem_of_cons in Hin as [Hin|Hin]; [discriminate|].
    destruct (IH (S index) Hin) as [error Herror]. exists error. cbn. by rewrite Herror.
  - by eexists.
Qed.

(** C5: sources labelled 720p, constructor, 1080p, in this upstream order,
    come out of the sort in the same order, which is not descending by
    rank.  Looking the label constructor up in the quality table finds the
    member every object inherits instead of no entry; it is truthy, so the
    default rank 0 is not taken, and it is not a number, so every
    comparison with this entry gives NaN, which the sort reads as equal.
    The three stream routes answer with the entries in this order. *)
Theorem stream_sort_inherited_label :
  let streams := imap stream_of Scenario.inherited_label_sources in
  let unsorted := [ "720p - Server 1"; "constructor - Server 2"; "1080p - Server 3" ] in
  List.map stream_title streams = unsorted
  ∧ List.map Spec.rank streams = [3; 0; 4]
  ∧ qualityOrder !! "constructor" = None
  ∧ quality_rank "constructor" = None
  ∧ (∀ s, by_quality (stream_of 1 (Sample.source (Str "constructor"))) s = 0
          ∧ by_quality s (stream_of 1 (Sample.source (Str "constructor"))) = 0)
  ∧ Js.sort by_quality streams = streams
  ∧ ¬ Spec.descending Spec.rank (Js.sort by_quality streams)
  ∧ fst (Server.stream "movie" "cineby:7" (Sample.server_at Scenario.inherited_label_site))
    = Ok (json (Streams streams))
  ∧ fst (Production.stream "movie" "cineby:7"
           (Sample.production_at Scenario.inherited_label_site))
    = Ok (json (Streams streams))
  ∧ fst (Retry.stream "movie" "cineby:7" (Sample.retry_at Scenario.inherited_label_site))
    = Ok (json (Streams streams)).
Proof.
  cbv zeta.
  split; [vm_compute; reflexivity|].
  split; [vm_compute; reflexivity|].
  split; [vm_compute; reflexivity|].
  split; [vm_compute; reflexivity|].
  split; [intros s; by apply by_quality_unranked|].
  assert (Hsort : Js.sort by_quality (imap stream_of Scenario.inherited_label_sources)
                  = imap stream_of Scenario.inherited_label_sources)
    by (vm_compute; reflexivity).
  split; [exact Hsort|].
  split.
  { rewrite Hsort. intros Hsorted.
    apply StronglySorted_inv in Hsorted as [_ Hhead].
    apply Forall_cons in Hhead as [_ Hhead]. apply Forall_cons in Hhead as [Hhead _].
    vm_compute in Hhead. by apply Hhead. }
  split; [vm_compute; reflexivity|]. split; vm_compute; reflexivity.
Qed.

(** ** Episode entries *)

Lemma padStart_two_digits (t : string) : Js.padStart 2 "0" t = Spec.two_digits t.
Proof.
  unfold Js.padStart, Spec.two_digits.
  destruct (String.length t) as [|[|n]] eqn:E; cbn; try reflexivity.
  by destruct t.
Qed.

Lemma two_digits_width (t : string) : (2 ≤ String.length (Spec.two_digits t))%nat.
Proof.
  unfold Spec.two_digits. destruct (String.length t) as [|[|n]] eqn:E.
  - cbn. lia.
  - change ("0" +:+ t) with (String "0" t). cbn. lia.
  - lia.
Qed.

Lemma episode_title_present (sn en name : val) :
  Spec.present sn = true → Spec.present en = true →
  episode_title sn en name
  = Ok ("S" +:+ Spec.two_digits (Js.to_string sn) +:+ "E"
            +:+ Spec.two_digits (Js.to_string en) +:+ " - " +:+ Js.to_string name).
Proof.
  intros Hs He. unfold episode_title.
  assert (Hts : ∀ v, Spec.present v = true → Js.toString v = Ok (Js.to_string v))
    by (by intros [| | | |]).
  rewrite (Hts sn Hs), (Hts en He). cbn [Js.rbind].
  by rewrite !padStart_two_digits.
Qed.

Lemma truthy_present (v : val) : Js.truthy v = true → Spec.present v = true.
Proof. by destruct v. Qed.

Lemma for_of_singletons {A B} (keep : A → bool) (entry : A → B) (body : A → result (list B))
    (l : list A) :
  (∀ x, x ∈ l → body x = Ok (if keep x then [entry x] else [])) →
  for_of body l = Ok (List.map entry (List.filter keep l)).
Proof.
  induction l as [|x l IH]; intros Hbody; [reflexivity|].
  cbn [for_of]. rewrite (Hbody x) by (apply elem_of_cons; by left).
  cbn [Js.rbind]. rewrite IH by (intros y Hy; apply Hbody; apply elem_of_cons; by right).
  cbn [Js.rbind List.filter]. by destruct (keep x).
Qed.

Lemma for_of_flat_map {A B} (f : A → list B) (body : A → result (list B)) (l : list A) :
  (∀ x, x ∈ l → body x = Ok (f x)) →
  for_of body l = Ok (flat_map f l).
Proof.
  induction l as [|x l IH]; intros Hbody; [reflexivity|].
  cbn [for_of flat_map]. rewrite (Hbody x) by (apply elem_of_cons; by left).
  cbn [Js.rbind]. rewrite IH by (intros y Hy; apply Hbody; apply elem_of_cons; by right).
  reflexivity.
Qed.

Lemma for_of_throws {A B} (body : A → result (list B)) (l : list A) :
  Exists (λ x, ∃ error, body x = Throw error) l → ∃ error, for_of body l = Throw error.
Proof.
  induction 1 as [x l [error Hx]|x l _ [error IH]]; cbn [for_of].
  - exists error. by rewrite Hx.
  - destruct (body x) as [pushed|error']; cbn [Js.rbind]; [|by eexists].
    exists error. by rewrite IH.
Qed.

Lemma forallb_Exists_false {A} (f : A → bool) (l : list A) :
  forallb f l = false → Exists (λ x, f x = false) l.
Proof.
  induction l as [|x l IH]; [discriminate|]. cbn.
  destruct (f x) eqn:Hx; [|by left]. intros Hl. right. by apply IH.
Qed.

Lemma episode_title_absent (sn en name : val) :
  Spec.present sn && Spec.present en = false →
  ∃ error, episode_title sn en name = Throw error.
Proof.
  unfold episode_title. destruct sn; cbn; try (by eexists); destruct en; cbn; try done;
    by eexists.
Qed.

(** A loop over seasons and episodes whose body lists the episodes in
    [keep]: it returns their entries when each of them has the numbers its
    title prints, and throws otherwise. *)
Section Videos.
Context (keep : Episode → bool) (entry : Season → Episode → Video)
  (video_entry : Season → Episode → result (list Video)).
Hypothesis entry_skipped : ∀ s e, keep e = false → video_entry s e = Ok [].
Hypothesis entry_listed : ∀ s e,
  keep e = true → Spec.present (season_number s) && Spec.present (episode_number e) = true →
  video_entry s e = Ok [entry s e].
Hypothesis entry_throws : ∀ s e,
  keep e = true → Spec.present (season_number s) && Spec.present (episode_number e) = false →
  ∃ error, video_entry s e = Throw error.

Let season_videos (s : Season) : result (list Video) :=
  match episodes s with
  | Some es => for_of (video_entry s) es
  | None => Ok []
  end.

Lemma videos_listed (ss : list Season) :
  Spec.printable keep ss = true →
  for_of season_videos ss = Ok (Spec.projectEpisodeVideos keep entry ss).
Proof.
  intros Hss. unfold Spec.projectEpisodeVideos. apply for_of_flat_map.
  intros s Hs. unfold Spec.printable in Hss. rewrite forallb_forall in Hss.
  apply list_elem_of_In in Hs. specialize (Hss s Hs). rewrite forallb_forall in Hss.
  unfold season_videos. destruct (episodes s) as [es|]; [|reflexivity].
  cbn [default] in *. apply for_of_singletons. intros e He.
  apply list_elem_of_In in He. specialize (Hss e He).
  destruct (keep e) eqn:Hkeep; [|by apply entry_skipped].
  by apply entry_listed.
Qed.

Lemma videos_throw (ss : list Season) :
  Spec.printable keep ss = false → ∃ error, for_of season_videos ss = Throw error.
Proof.
  intros Hss. apply for_of_throws. unfold Spec.printable in Hss.
  apply (forallb_Exists_false _ ss) in Hss. eapply List.Exists_impl; [|exact Hss].
  intros s Hs. cbv beta in Hs.
  unfold season_videos. destruct (episodes s) as [es|]; [|discriminate].
  cbn [default] in Hs. apply for_of_throws.
  apply (forallb_Exists_false _ es) in Hs. eapply List.Exists_impl; [|exact Hs].
  intros e He. cbv beta in He. apply orb_false_iff in He as [Hkeep He].
  apply negb_false_iff in Hkeep. by apply entry_throws.
Qed.

End Videos.

Lemma production_videos (id : string) (ss : list Season) :
  (Spec.printable Spec.numbered_and_named ss = true →
   for_of (Production.season_videos id) ss
   = Ok (Spec.projectEpisodeVideos Spec.numbered_and_named
           (Spec.episode_video Spec.date_if_given Spec.or_blank id) ss))
  ∧ (Spec.printable Spec.numbered_and_named ss = false →
     ∃ error, for_of (Production.season_videos id) ss = Throw error).
Proof.
  split.
  - apply (videos_listed _ _ (Production.video_entry id)).
    + intros s e Hkeep. unfold Production.video_entry.
      unfold Spec.numbered_and_named in Hkeep. by rewrite Hkeep.
    + intros s e Hkeep Hnum. unfold Production.video_entry.
      unfold Spec.numbered_and_named in Hkeep. rewrite Hkeep.
      apply andb_true_iff in Hnum as [Hs He].
      by rewrite (episode_title_present _ _ _ Hs He).
  - apply (videos_throw _ (Production.video_entry id)).
    intros s e Hkeep Hnum. unfold Production.video_entry.
    unfold Spec.numbered_and_named in Hkeep. rewrite Hkeep.
    destruct (episode_title_absent _ _ (episode_name e) Hnum) as [error ->]. by exists error.
Qed.

Lemma server_videos (id : string) (ss : list Season) :
  (Spec.printable (λ _, true) ss = true →
   for_of (Server.season_videos id) ss
   = Ok (Spec.projectEpisodeVideos (λ _, true) (Spec.episode_video DateOf (λ v, v) id) ss))
  ∧ (Spec.printable (λ _, true) ss = false →
     ∃ error, for_of (Server.season_videos id) ss = Throw error).
Proof.
  split.
  - apply (videos_listed _ _ (Server.video_entry id)).
    + discriminate.
    + intros s e _ Hnum. unfold Server.video_entry.
      apply andb_true_iff in Hnum as [Hs He].
      by rewrite (episode_title_present _ _ _ Hs He).
  - apply (videos_throw _ (Server.video_entry id)).
    intros s e _ Hnum. unfold Server.video_entry.
    destruct (episode_title_absent _ _ (episode_name e) Hnum) as [error ->]. by exists error.
Qed.

Lemma projectEpisodeVideos_elem (keep : Episode → bool) (entry : Season → Episode → Video)
    (ss : list Season) (v : Video) :
  v ∈ Spec.projectEpisodeVideos keep entry ss
  ↔ ∃ s e, s ∈ ss ∧ e ∈ default [] (episodes s) ∧ keep e = true ∧ v = entry s e.
Proof.
  unfold Spec.projectEpisodeVideos. rewrite !list_elem_of_In, in_flat_map. split.
  - intros (s & Hs & Hv). apply in_map_iff in Hv as (e & <- & He).
    apply filter_In in He as [He Hk]. exists s, e. by rewrite !list_elem_of_In.
  - intros (s & e & Hs & He & Hk & ->). exists s. rewrite <- list_elem_of_In. split; [done|].
    apply in_map_iff. exists e. split; [done|]. apply filter_In.
    by rewrite <- list_elem_of_In.
Qed.

Lemma production_meta_videos (id : string) (props : PageProps)
    (ss : list Season) (s : Production.state) :
  Js.startsWith "cineby:" id = true →
  fst (Production.getContentDetails (Js.replace "cineby:" EmptyString id) "tv" s)
    = Ok (Some props) →
  seasons props = Some ss →
  if Spec.printable Spec.numbered_and_named ss
  then ∃ m, fst (Production.meta "series" id s) = Ok (json (MetaOf m))
            ∧ videos m = Some (Spec.projectEpisodeVideos Spec.numbered_and_named
                                 (Spec.episode_video Spec.date_if_given Spec.or_blank id) ss)
  else fst (Production.meta "series" id s)
       = Ok (status_json 500 (ErrorBody "Internal server error")).
Proof.
  intros Hid Hdetails Hseasons.
  unfold Production.meta, bind, try_catch. cbn [Production.valid_type String.eqb].
  change (Production.valid_type "series") with true. cbn [negb]. rewrite Hid. cbn [negb].
  change (mediaType_of "series") with "tv".
  destruct (Production.getContentDetails _ "tv" s) as [r s'].
  cbn [fst] in Hdetails. subst r. rewrite Hseasons.
  change (String.eqb "series" "series") with true. cbv iota.
  unfold lift. destruct (production_videos id ss) as [Hlisted Hthrow].
  destruct (Spec.printable Spec.numbered_and_named ss).
  - rewrite (Hlisted eq_refl). unfold ret. cbn [fst]. eexists. split; reflexivity.
  - destruct (Hthrow eq_refl) as [error ->]. reflexivity.
Qed.

Lemma server_meta_videos (id : string) (props : PageProps)
    (ss : list Season) (s : Server.state) :
  fst (Server.getContentDetails (Js.replace "cineby:" EmptyString id) "tv" s)
    = Ok (Some props) →
  seasons props = Some ss →
  if Spec.printable (λ _, true) ss
  then ∃ m, fst (Server.meta "series" id s) = Ok (json (MetaOf m))
            ∧ videos m = Some (Spec.projectEpisodeVideos (λ _, true)
                                 (Spec.episode_video DateOf (λ v, v) id) ss)
  else fst (Server.meta "series" id s)
       = Ok (status_json 500 (ErrorBody "Failed to fetch metadata")).
Proof.
  intros Hdetails Hseasons.
  unfold Server.meta, bind, try_catch.
  change (mediaType_of "series") with "tv".
  destruct (Server.getContentDetails _ "tv" s) as [r s'].
  cbn [fst] in Hdetails. subst r. rewrite Hseasons.
  change (String.eqb "series" "series") with true. cbv iota.
  unfold lift. destruct (server_videos id ss) as [Hlisted Hthrow].
  destruct (Spec.printable (λ _, true) ss).
  - rewrite (Hlisted eq_refl). unfold ret. cbn [fst]. eexists. split; reflexivity.
  - destruct (Hthrow eq_refl) as [error ->]. reflexivity.
Qed.

Lemma printable_spec (keep : Episode → bool) (ss : list Season) :
  Spec.printable keep ss = true
  ↔ ∀ s e, s ∈ ss → e ∈ default [] (episodes s) → keep e = true →
           Spec.present (season_number s) = true ∧ Spec.present (episode_number e) = true.
Proof.
  unfold Spec.printable. rewrite forallb_forall. split.
  - intros Hss s e Hs He Hkeep. apply list_elem_of_In in Hs, He.
    specialize (Hss s Hs). rewrite forallb_forall in Hss. specialize (Hss e He).
    rewrite Hkeep in Hss. by apply andb_true_iff in Hss.
  - intros Hss s Hs. apply forallb_forall. intros e He.
    apply list_elem_of_In in Hs, He. destruct (keep e) eqn:Hkeep; [|reflexivity].
    destruct (Hss s e Hs He Hkeep) as [-> ->]. reflexivity.
Qed.




(** ** What the routes answer when the upstream lookup fails *)

Lemma lookups_fail_after (absent : payload → bool) (cfg : config) (rq : request) (n : net) :
  Spec.lookups_fail absent n → Spec.lookups_fail absent (snd (axios_get cfg rq n)).
Proof.
  unfold Spec.lookups_fail. intros Hn k rq'.
  rewrite axios_get_upstream. apply Hn.
Qed.

Lemma axios_get_failing (absent : payload → bool) (rq : request) (n : net) :
  Spec.lookups_fail absent n →
  match fst (axios_get default_config rq n) with
  | Ok (_, data) => absent data = true
  | Throw _ => True
  end.
Proof.
  intros Hn. specialize (Hn (length (sent n)) rq).
  unfold axios_get. change (timed_out default_config _) with false. cbv iota.
  destruct (answer _) as [code|status data]; [exact I|].
  cbn [Spec.fails_or] in Hn.
  destruct (validateStatus default_config status); [|exact I].
  exact Hn.
Qed.

Lemma no_listing_field (d : payload) (field : PageProps → option (list Item)) :
  Spec.no_listing d = true →
  field ∈ [trending; results; movies; shows] →
  pageProps_of d ≫= field = None.
Proof.
  unfold Spec.no_listing. intros Hd Hfield.
  destruct (pageProps_of d) as [p|]; [|reflexivity]. cbn.
  destruct (trending p) eqn:E1; [discriminate|].
  destruct (results p) eqn:E2; [discriminate|].
  destruct (movies p) eqn:E3; [discriminate|].
  destruct (shows p) eqn:E4; [discriminate|].
  repeat (apply elem_of_cons in Hfield as [-> | Hfield]; [done|]).
  by apply elem_of_nil in Hfield.
Qed.

(** *** The retrying server *)

Lemma retry_getBuildId_keeps (absent : payload → bool) (forceRefresh : bool) (s : Retry.state) :
  Spec.lookups_fail absent (Retry.network s) →
  ∃ v s', Retry.getBuildId forceRefresh s = (Ok v, s')
          ∧ Spec.lookups_fail absent (Retry.network s').
Proof.
  intros Hs.
  unfold Retry.getBuildId, Retry.called, Retry.set_this. plumb.
  destruct (negb forceRefresh && Js.truthy _ && _); cbn; [by eauto|].
  pose proof (lookups_fail_after absent default_config (GET (Retry.baseURL +:+ "/")) _ Hs)
    as Hn.
  destruct (axios_get default_config _ (Retry.network s)) as [[[st data]|e] n]; cbn in *;
    [|by eauto].
  destruct (data_match Pattern.match_nonempty data) as [[id|]|e]; cbn; eauto.
Qed.

Lemma retry_run_fetch {A} (absent : payload → bool) path ps (project : payload → A)
    (s : Retry.state) :
  Spec.lookups_fail absent (Retry.network s) →
  ∃ r s', Retry.run (Retry.fetch path ps project) s = (r, s')
          ∧ Spec.lookups_fail absent (Retry.network s')
          ∧ match r with
            | Ok v => ∃ d, absent d = true ∧ v = project d
            | Throw _ => True
            end.
Proof.
  intros Hs. unfold Retry.run, Retry.fetch.
  set (rq := Request _ ps).
  pose proof (lookups_fail_after absent default_config rq _ Hs) as Hn.
  pose proof (axios_get_failing absent rq _ Hs) as Hr.
  destruct (axios_get default_config rq (Retry.network s)) as [[[st data]|e] n]; cbn in *.
  - eexists _, _. split; [reflexivity|]. split; [exact Hn|]. by exists data.
  - eexists _, _. split; [reflexivity|]. by split.
Qed.

Lemma retry_wrapper_failing {A} (absent : payload → bool) path ps (project : payload → A)
    (s : Retry.state) :
  Spec.lookups_fail absent (Retry.network s) →
  ∃ r s', Retry._withBuildIdRetry (Retry.fetch path ps project) s = (Ok r, s')
          ∧ (r = None ∨ ∃ d, absent d = true ∧ r = Some (project d)).
Proof.
  intros Hs. unfold Retry._withBuildIdRetry, bind, try_catch.
  destruct (retry_getBuildId_keeps absent false s Hs) as (v0 & s1 & -> & Hs1).
  destruct (retry_run_fetch absent path ps project s1 Hs1) as (r1 & s2 & -> & Hs2 & Hr1).
  destruct r1 as [v1|err].
  - destruct Hr1 as (d & Hd & ->). unfold ret. eexists _, _. split; [reflexivity|].
    right. by exists d.
  - destruct (Retry.stale_status err); [|unfold ret; by eauto].
    destruct (retry_getBuildId_keeps absent true s2 Hs2) as (v2 & s3 & -> & Hs3).
    destruct (retry_run_fetch absent path ps project s3 Hs3) as (r3 & s4 & -> & Hs4 & Hr3).
    destruct r3 as [v3|err3]; unfold ret; [|by eauto].
    destruct Hr3 as (d & Hd & ->). eexists _, _. split; [reflexivity|]. right. by exists d.
Qed.

Lemma retry_listing_failing path ps (field : PageProps → option (list Item))
    (s : Retry.state) :
  field ∈ [trending; results; movies; shows] →
  Spec.lookups_fail Spec.no_listing (Retry.network s) →
  ∃ r s', Retry._withBuildIdRetry (Retry.fetch path ps (Retry.items_of field)) s = (Ok r, s')
          ∧ (r = None ∨ r = Some []).
Proof.
  intros Hfield Hs.
  destruct (retry_wrapper_failing Spec.no_listing path ps (Retry.items_of field) s Hs)
    as (r & s' & E & Hr).
  exists r, s'. split; [exact E|]. destruct Hr as [-> | (d & Hd & ->)]; [by left|right].
  unfold Retry.items_of. by rewrite (no_listing_field d field Hd Hfield).
Qed.

Lemma slice_nil {A} (from to : Z) : Js.slice from to (@nil A) = [].
Proof. unfold Js.slice. by rewrite drop_nil, take_nil. Qed.

Lemma retry_catalog_failing (rt : Runtime) (type id : string) (query : Retry.Query)
    (s : Retry.state) :
  Spec.lookups_fail Spec.no_listing (Retry.network s) →
  fst (Retry.catalog type id query s) = Ok (json (Metas [])).
Proof.
  intros Hs. unfold Retry.catalog, bind, try_catch.
  assert (Hin : ∀ f, f ∈ [trending; results; movies; shows] → True) by done.
  destruct (Js.truthy (Retry.query_val (Retry.query_search query))).
  { unfold Retry.search.
    destruct (retry_listing_failing "/en/search.json"
                [("q", Retry.query_val (Retry.query_search query));
                 ("page", Num (Retry.skip_number (Retry.query_skip query) / 20 + 1))]
                results s ltac:(set_solver) Hs) as (r & s' & -> & [-> | ->]); reflexivity. }
  destruct (String.eqb id "cineby-trending-movies" || String.eqb id "cineby-trending-series").
  { unfold Retry.getTrending.
    destruct (retry_listing_failing "/en.json" [] trending s ltac:(set_solver) Hs)
      as (r & s' & -> & [-> | ->]); [reflexivity|].
    cbn. destruct (Retry.slice_bounds _) as [from to]. cbn. by rewrite slice_nil. }
  destruct (String.eqb id "cineby-movies").
  { unfold Retry.getMovies.
    destruct (retry_listing_failing "/en/movie.json"
                (Retry.page_params (Retry.skip_number (Retry.query_skip query) / 20 + 1)
                   (Retry.query_val (Retry.query_genre query)))
                movies s ltac:(set_solver) Hs) as (r & s' & -> & [-> | ->]); reflexivity. }
  destruct (String.eqb id "cineby-series"); [|reflexivity].
  unfold Retry.getTVShows.
  destruct (retry_listing_failing "/en/tv.json"
              (Retry.page_params (Retry.skip_number (Retry.query_skip query) / 20 + 1)
                 (Retry.query_val (Retry.query_genre query)))
              shows s ltac:(set_solver) Hs) as (r & s' & -> & [-> | ->]); reflexivity.
Qed.

Lemma retry_meta_failing (type id : string) (s : Retry.state) :
  Spec.lookups_fail Spec.no_details (Retry.network s) →
  fst (Retry.meta type id s) = Ok (json EmptyMeta).
Proof.
  intros Hs. unfold Retry.meta, Retry.getContentDetails, bind, try_catch.
  destruct (retry_wrapper_failing Spec.no_details
              (if String.eqb (mediaType_of type) "movie"
               then "/en/movie/" +:+ Js.replace "cineby:" EmptyString id +:+ ".json"
               else "/en/tv/" +:+ Js.replace "cineby:" EmptyString id +:+ ".json")
              [] pageProps_of s Hs) as (r & s' & -> & [-> | (d & Hd & ->)]); [reflexivity|].
  unfold Spec.no_details in Hd. cbn. destruct (pageProps_of d); [discriminate|reflexivity].
Qed.

Lemma retry_stream_failing (type id : string) (s : Retry.state) :
  Spec.lookups_fail Spec.no_sources (Retry.network s) →
  fst (Retry.stream type id s) = Ok (json (Streams [])).
Proof.
  intros Hs. unfold Retry.stream, Retry.getStreamSources. plumb.
  set (rq := GET _).
  pose proof (axios_get_failing Spec.no_sources rq _ Hs) as Hr.
  destruct (axios_get default_config rq (Retry.network s)) as [[[st data]|e] n]; cbn in *;
    [|reflexivity].
  unfold Spec.no_sources in Hr.
  by destruct (if payload_truthy data then sources_of data else None).
Qed.

(** *** [server.js] *)

Lemma server_listing_failing path ps (field : PageProps → option (list Item))
    (s : Server.state) :
  field ∈ [trending; results; movies; shows] →
  Spec.lookups_fail Spec.no_listing (Server.network s) →
  ∃ s', Server.listing path ps field s = (Ok [], s').
Proof.
  intros Hfield Hs.
  unfold Server.listing, Server.data_url, Server.get. plumb.
  set (rq := Request _ ps).
  pose proof (axios_get_failing Spec.no_listing rq _ Hs) as Hr.
  destruct (axios_get default_config rq (Server.network s)) as [[[st data]|e] n]; cbn in *;
    [|by eauto].
  rewrite (no_listing_field data field Hr Hfield). by eauto.
Qed.

Lemma server_catalog_failing (rt : Runtime) (type id : string) (extra : option string)
    (s : Server.state) :
  id ≠ "cineby-anime" →
  Spec.lookups_fail Spec.no_listing (Server.network s) →
  fst (Server.catalog type id extra s) = Ok (json (Metas [])).
Proof.
  intros Hid Hs. unfold Server.catalog, bind, try_catch.
  destruct (Server.parse_extra extra) as [[search_ skip] genre].
  destruct (Js.truthy search_).
  { unfold Server.search.
    by destruct (server_listing_failing "/en/search.json"
                   [("q", search_); ("page", Num (skip / 20 + 1))] results s
                   ltac:(set_solver) Hs) as (s' & ->). }
  destruct (String.eqb id "cineby-trending-movies" || String.eqb id "cineby-trending-series").
  { unfold Server.getTrending.
    destruct (server_listing_failing "/en.json" [] trending s ltac:(set_solver) Hs)
      as (s' & ->).
    cbn. by rewrite slice_nil. }
  destruct (String.eqb id "cineby-movies").
  { unfold Server.getMovies.
    by destruct (server_listing_failing "/en/movie.json"
                   (Server.page_params (skip / 20 + 1) genre) movies s
                   ltac:(set_solver) Hs) as (s' & ->). }
  destruct (String.eqb id "cineby-series").
  { unfold Server.getTVShows.
    by destruct (server_listing_failing "/en/tv.json"
                   (Server.page_params (skip / 20 + 1) genre) shows s
                   ltac:(set_solver) Hs) as (s' & ->). }
  destruct (String.eqb_spec id "cineby-anime"); [done|reflexivity].
Qed.

Lemma server_meta_failing (type id : string) (s : Server.state) :
  Spec.lookups_fail Spec.no_details (Server.network s) →
  fst (Server.meta type id s) = Ok (status_json 404 (ErrorBody "Content not found")).
Proof.
  intros Hs.
  unfold Server.meta, Server.getContentDetails, Server.data_url, Server.get, bind, try_catch,
    on_net, gets, ret.
  destruct (String.eqb (mediaType_of type) "movie"); cbn.
  all: match goal with
       | |- context [axios_get default_config ?rq ?n0] =>
           pose proof (axios_get_failing Spec.no_details rq n0 Hs) as Hr;
           destruct (axios_get default_config rq n0) as [[[st data]|e] n]; cbn in *;
             [|reflexivity]
       end.
  all: unfold Spec.no_details in Hr; by destruct (pageProps_of data).
Qed.

Lemma server_stream_failing (type id : string) (s : Server.state) :
  Spec.lookups_fail Spec.no_sources (Server.network s) →
  fst (Server.stream type id s) = Ok (json (Streams [])).
Proof.
  intros Hs.
  unfold Server.stream, Server.getStreamSources, Server.get. plumb.
  set (rq := Request _ []).
  pose proof (axios_get_failing Spec.no_sources rq _ Hs) as Hr.
  destruct (axios_get default_config rq (Server.network s)) as [[[st data]|e] n]; cbn in *;
    [|reflexivity].
  unfold Spec.no_sources in Hr.
  by destruct (if payload_truthy data then sources_of data else None).
Qed.


Lemma offline_lookups_fail (absent : payload → bool) (now : Z) :
  Spec.lookups_fail absent (Sample.at_time now Sample.offline).
Proof. intros k rq. reflexivity. Qed.



(** ** More on the build id cache *)

Lemma cached_getBuildId_missed (forceRefresh : bool) (s : Cached.state) :
  forceRefresh = true
  ∨ Js.truthy (Cached.buildId (Cached.this s)) = false
  ∨ 3600000 ≤ clock (Cached.network s) - Cached.buildIdFetchedAt (Cached.this s) →
  negb forceRefresh && Js.truthy (Cached.buildId (Cached.this s))
    && (clock (Cached.network s) - Cached.buildIdFetchedAt (Cached.this s) <? 3600 * 1000)
  = false.
Proof.
  change (3600 * 1000) with 3600000. intros [-> | [-> | Hage]].
  - reflexivity.
  - by rewrite andb_false_r.
  - destruct (Z.ltb_spec (clock (Cached.network s)
                          - Cached.buildIdFetchedAt (Cached.this s)) 3600000); [lia|].
    by rewrite andb_false_r.
Qed.

Lemma cached_getBuildId_found (forceRefresh : bool) (s : Cached.state) (id : string) :
  negb forceRefresh && Js.truthy (Cached.buildId (Cached.this s))
    && (clock (Cached.network s) - Cached.buildIdFetchedAt (Cached.this s) <? 3600 * 1000)
  = false →
  Spec.homepage_id Pattern.match_lazy default_config Cached.baseURL (Cached.network s)
    = Some id →
  Cached.getBuildId forceRefresh s
  = (Ok (Str id),
     {| Cached.this := {| Cached.buildId := Str id;
                          Cached.buildIdFetchedAt := clock (Cached.network s) |};
        Cached.network := snd (axios_get default_config (GET Cached.baseURL)
                                 (Cached.network s)) |}).
Proof.
  intros Hmiss Hfound. unfold Spec.homepage_id in Hfound.
  unfold Cached.getBuildId. plumb. rewrite Hmiss.
  destruct (axios_get default_config (GET Cached.baseURL) (Cached.network s))
    as [[[st data]|e] n]; cbn in *; [|discriminate].
  destruct (data_match Pattern.match_lazy data) as [[id'|]|e]; try discriminate.
  by injection Hfound as ->.
Qed.

Lemma cached_getBuildId_hit (s : Cached.state) :
  Js.truthy (Cached.buildId (Cached.this s)) = true →
  clock (Cached.network s) - Cached.buildIdFetchedAt (Cached.this s) < 3600000 →
  Cached.getBuildId false s = (Ok (Cached.buildId (Cached.this s)), s).
Proof.
  intros Hid Hfresh. unfold Cached.getBuildId. plumb.
  rewrite Hid. cbn. change (3600 * 1000) with 3600000.
  destruct (Z.ltb_spec (clock (Cached.network s) - Cached.buildIdFetchedAt (Cached.this s))
              3600000); [reflexivity|lia].
Qed.

Lemma axios_get_clock (rq : request) (n : net) :
  clock (snd (axios_get default_config rq n))
  = clock n + elapsed (upstream n (length (sent n)) rq).
Proof.
  unfold axios_get. change (timed_out default_config _) with false. cbv iota.
  destruct (answer _); [reflexivity|]. by destruct (validateStatus _ _).
Qed.

(** X1: when a call of [getBuildId] has to fetch and the homepage shows the
    identifier [id], the call returns [id] and stores it together with the
    time read when the call started (not the time of the answer); it sends
    the one request for the homepage and changes nothing else. *)
Theorem cached_getBuildId_stores_identifier (forceRefresh : bool) (s : Cached.state)
    (id : string) :
  forceRefresh = true
  ∨ Js.truthy (Cached.buildId (Cached.this s)) = false
  ∨ 3600000 ≤ clock (Cached.network s) - Cached.buildIdFetchedAt (Cached.this s) →
  Spec.homepage_id Pattern.match_lazy default_config Cached.baseURL (Cached.network s)
    = Some id →
  let s' := snd (Cached.getBuildId forceRefresh s) in
  fst (Cached.getBuildId forceRefresh s) = Ok (Str id)
  ∧ Cached.this s' = {| Cached.buildId := Str id;
                        Cached.buildIdFetchedAt := clock (Cached.network s) |}
  ∧ sent (Cached.network s') = (sent (Cached.network s) ++ [GET Cached.baseURL])%list
  ∧ clock (Cached.network s')
    = clock (Cached.network s)
      + elapsed (upstream (Cached.network s) (length (sent (Cached.network s)))
                   (GET Cached.baseURL)).
Proof.
  intros Hmiss Hfound. cbv zeta.
  rewrite (cached_getBuildId_found forceRefresh s id (cached_getBuildId_missed _ _ Hmiss) Hfound).
  cbn [fst snd Cached.this Cached.network].
  split; [reflexivity|]. split; [reflexivity|].
  split; [apply axios_get_sent|apply axios_get_clock].
Qed.

Lemma cached_getBuildId_stores_identifier_witness :
  Js.truthy (Cached.buildId (Cached.this Sample.cached_cold)) = false
  ∧ Spec.homepage_id Pattern.match_lazy default_config Cached.baseURL
      (Cached.network Sample.cached_cold) = Some "abc123"
  ∧ fst (Cached.getBuildId false Sample.cached_cold) = Ok (Str "abc123")
  ∧ Cached.this (snd (Cached.getBuildId false Sample.cached_cold))
    = {| Cached.buildId := Str "abc123"; Cached.buildIdFetchedAt := 1000 |}
  ∧ clock (Cached.network (snd (Cached.getBuildId false Sample.cached_cold))) = 1030.
Proof.
  assert (H1 : Js.truthy (Cached.buildId (Cached.this Sample.cached_cold)) = false)
    by reflexivity.
  assert (H2 : Spec.homepage_id Pattern.match_lazy default_config Cached.baseURL
                 (Cached.network Sample.cached_cold) = Some "abc123")
    by (vm_compute; reflexivity).
  destruct (cached_getBuildId_stores_identifier false Sample.cached_cold "abc123"
              (or_intror (or_introl H1)) H2) as (Hr & Hc & _ & Hclock).
  split; [exact H1|]. split; [exact H2|]. split; [exact Hr|]. split; [exact Hc|].
  exact Hclock.
Defined.

(** X2: a call of [getBuildId] sends a request exactly when it is forced,
    when no usable identifier is cached, or when 3600000 ms or more have
    passed since the identifier was fetched (the hour itself is already
    too old); it then sends exactly one, for the homepage. *)
Theorem cached_getBuildId_request_rule (forceRefresh : bool) (s : Cached.state) :
  (forceRefresh = true
   ∨ Js.truthy (Cached.buildId (Cached.this s)) = false
   ∨ 3600000 ≤ clock (Cached.network s) - Cached.buildIdFetchedAt (Cached.this s) →
   sent (Cached.network (snd (Cached.getBuildId forceRefresh s)))
   = (sent (Cached.network s) ++ [GET Cached.baseURL])%list)
  ∧ (forceRefresh = false →
     Js.truthy (Cached.buildId (Cached.this s)) = true →
     clock (Cached.network s) - Cached.buildIdFetchedAt (Cached.this s) < 3600000 →
     sent (Cached.network (snd (Cached.getBuildId forceRefresh s)))
     = sent (Cached.network s)).
Proof.
  split.
  - intros Hmiss. apply cached_getBuildId_fetches. by apply cached_getBuildId_missed.
  - intros -> Hid Hage. by rewrite cached_getBuildId_hit.
Qed.

Lemma cached_getBuildId_request_rule_witness :
  3600000 ≤ clock (Cached.network Scenario.cached_expired)
            - Cached.buildIdFetchedAt (Cached.this Scenario.cached_expired)
  ∧ sent (Cached.network (snd (Cached.getBuildId false Scenario.cached_expired)))
    = [GET "https://www.cineby.app"]
  ∧ sent (Cached.network (snd (Cached.getBuildId false Sample.cached_warm)))
    = sent (Cached.network Sample.cached_warm).
Proof.
  assert (H1 : 3600000 ≤ clock (Cached.network Scenario.cached_expired)
                         - Cached.buildIdFetchedAt (Cached.this Scenario.cached_expired))
    by (vm_compute; discriminate).
  split; [exact H1|]. split.
  - exact (proj1 (cached_getBuildId_request_rule false Scenario.cached_expired)
             (or_intror (or_intror H1))).
  - refine (proj2 (cached_getBuildId_request_rule false Sample.cached_warm) eq_refl _ _);
      vm_compute; reflexivity.
Defined.

(** X3: a fetch that stored a non-empty identifier is followed by a cache
    hit: when the answer took less than an hour, the next
    [getBuildId(false)] returns the same identifier without a request, so
    the two calls together send one request. *)
Theorem cached_getBuildId_then_hit (forceRefresh : bool) (s : Cached.state) (id : string) :
  forceRefresh = true
  ∨ Js.truthy (Cached.buildId (Cached.this s)) = false
  ∨ 3600000 ≤ clock (Cached.network s) - Cached.buildIdFetchedAt (Cached.this s) →
  Spec.homepage_id Pattern.match_lazy default_config Cached.baseURL (Cached.network s)
    = Some id →
  id ≠ "" →
  elapsed (upstream (Cached.network s) (length (sent (Cached.network s)))
             (GET Cached.baseURL)) < 3600000 →
  let s1 := snd (Cached.getBuildId forceRefresh s) in
  Cached.getBuildId false s1 = (Ok (Str id), s1)
  ∧ sent (Cached.network (snd (Cached.getBuildId false s1)))
    = (sent (Cached.network s) ++ [GET Cached.baseURL])%list.
Proof.
  intros Hmiss Hfound Hid Hfast. cbv zeta.
  rewrite (cached_getBuildId_found forceRefresh s id (cached_getBuildId_missed _ _ Hmiss) Hfound).
  cbn [snd].
  set (s1 := {| Cached.this := _; Cached.network := _ |}).
  assert (Hhit : Cached.getBuildId false s1 = (Ok (Str id), s1)).
  { apply (cached_getBuildId_hit s1).
    - cbn. by destruct (String.eqb_spec id "").
    - subst s1. cbn [Cached.this Cached.network Cached.buildIdFetchedAt].
      rewrite axios_get_clock. lia. }
  split; [exact Hhit|]. rewrite Hhit. subst s1. cbn [snd Cached.network].
  apply axios_get_sent.
Qed.

Lemma cached_getBuildId_then_hit_witness :
  Js.truthy (Cached.buildId (Cached.this Sample.cached_cold)) = false
  ∧ Cached.getBuildId false Sample.cached_warm = (Ok (Str "abc123"), Sample.cached_warm)
  ∧ sent (Cached.network (snd (Cached.getBuildId false Sample.cached_warm)))
    = [GET "https://www.cineby.app"].
Proof.
  assert (H1 : Js.truthy (Cached.buildId (Cached.this Sample.cached_cold)) = false)
    by reflexivity.
  assert (H2 : Spec.homepage_id Pattern.match_lazy default_config Cached.baseURL
                 (Cached.network Sample.cached_cold) = Some "abc123")
    by (vm_compute; reflexivity).
  destruct (cached_getBuildId_then_hit false Sample.cached_cold "abc123"
              (or_intror (or_introl H1)) H2 ltac:(discriminate)
              ltac:(vm_compute; reflexivity)) as [Hhit Hsent].
  split; [exact H1|]. split; [exact Hhit|exact Hsent].
Defined.

(** ** The two patterns that find the build id *)

Lemma append_cons (c : ascii) (s t : string) : String c s +:+ t = String c (s +:+ t).
Proof. reflexivity. Qed.

Lemma append_nil (t : string) : "" +:+ t = t.
Proof. reflexivity. Qed.

Lemma append_assoc (s t u : string) : (s +:+ t) +:+ u = s +:+ (t +:+ u).
Proof. induction s as [|c s IH]; [reflexivity|]. rewrite !append_cons. by rewrite IH. Qed.

Lemma strip_prefix_append (p r : string) : Js.strip_prefix p (p +:+ r) = Some r.
Proof.
  induction p as [|c p IH]; [by destruct r|].
  rewrite append_cons. cbn. by rewrite Ascii.eqb_refl.
Qed.

Lemma strip_prefix_split (p s r : string) : Js.strip_prefix p s = Some r → s = p +:+ r.
Proof.
  revert s. induction p as [|a p IH]; intros s Hs.
  - destruct s; cbn in Hs; injection Hs as <-; reflexivity.
  - destruct s as [|b s]; cbn in Hs; [discriminate|].
    destruct (Ascii.eqb_spec a b) as [->|]; [|discriminate].
    rewrite append_cons. f_equal. by apply IH.
Qed.

Lemma occurs_append (c : ascii) (s t : string) :
  Text.occurs c (s +:+ t) = Text.occurs c s || Text.occurs c t.
Proof.
  induction s as [|a s IH]; [reflexivity|].
  rewrite append_cons. cbn. rewrite IH. by rewrite orb_assoc.
Qed.

Lemma run_to_quote_split (s id : string) :
  Pattern.run_to_quote s = Some id →
  Text.occurs Pattern.quote id = false
  ∧ ∃ post, s = id +:+ String Pattern.quote post.
Proof.
  revert id. induction s as [|c s IH]; intros id Hs; cbn in Hs; [discriminate|].
  destruct (Ascii.eqb_spec c Pattern.quote) as [->|Hc].
  - injection Hs as <-. split; [reflexivity|]. by exists s.
  - destruct (Pattern.run_to_quote s) as [id'|]; [|discriminate].
    injection Hs as <-. destruct (IH id' eq_refl) as [Hq [post ->]].
    split; [|by exists post].
    cbn. rewrite Hq. by destruct (Ascii.eqb_spec c Pattern.quote).
Qed.

Lemma lazy_group_split (s id : string) :
  Pattern.lazy_group s = Some id →
  Text.occurs Pattern.quote id = false
  ∧ Text.occurs "010" id = false ∧ Text.occurs "013" id = false
  ∧ ∃ post, s = id +:+ String Pattern.quote post.
Proof.
  revert id. induction s as [|c s IH]; intros id Hs; [discriminate|].
  cbn [Pattern.lazy_group] in Hs.
  destruct (Ascii.eqb_spec c Pattern.quote) as [->|Hc].
  - injection Hs as <-. repeat split. by exists s.
  - destruct (Pattern.line_terminator_ahead (String c s)) eqn:Hline; [discriminate|].
    destruct (Pattern.lazy_group s) as [id'|]; [|discriminate].
    injection Hs as <-. destruct (IH id' eq_refl) as (Hq & Hlf & Hcr & post & ->).
    assert (Hc10 : Ascii.eqb c "010" = false).
    { destruct (Ascii.eqb_spec c "010") as [->|]; [discriminate Hline|reflexivity]. }
    assert (Hc13 : Ascii.eqb c "013" = false).
    { destruct (Ascii.eqb_spec c "013") as [->|]; [discriminate Hline|reflexivity]. }
    cbn [Text.occurs]. rewrite Hq, Hlf, Hcr, Hc10, Hc13.
    destruct (Ascii.eqb_spec c Pattern.quote); [done|].
    repeat split. by exists post.
Qed.

Lemma run_to_quote_append (id post : string) :
  Text.occurs Pattern.quote id = false →
  Pattern.run_to_quote (id +:+ String Pattern.quote post) = Some id.
Proof.
  induction id as [|c id IH]; intros Hq; [reflexivity|].
  cbn in Hq. apply orb_false_elim in Hq as [Hc Hq].
  rewrite append_cons. cbn [Pattern.run_to_quote]. rewrite Hc. by rewrite (IH Hq).
Qed.

Lemma plain_cons (c : ascii) (s : string) :
  Text.plain (String c s) = true →
  Ascii.eqb c Pattern.quote = false
  ∧ Pattern.line_terminator_ahead (String c s) = false
  ∧ Text.plain s = true.
Proof.
  unfold Text.plain. cbn [Text.occurs]. rewrite !negb_orb. intros Hp.
  repeat (apply andb_prop in Hp as [Hp ?]).
  repeat match goal with
         | H : _ && _ = true |- _ => apply andb_prop in H as [? ?]
         | H : negb _ = true |- _ => apply negb_true_iff in H
         end.
  split; [done|]. split.
  - cbn. destruct (Ascii.eqb_spec c "010") as [->|]; [discriminate|].
    destruct (Ascii.eqb_spec c "013") as [->|]; [discriminate|].
    destruct (Ascii.eqb_spec c "226") as [->|]; [discriminate|].
    destruct c as [[] [] [] [] [] [] [] []]; try reflexivity; congruence.
  - repeat (apply andb_true_intro; split); by apply negb_true_iff.
Qed.

Lemma lazy_group_append (id post : string) :
  Text.plain id = true →
  Pattern.lazy_group (id +:+ String Pattern.quote post) = Some id.
Proof.
  induction id as [|c id IH]; intros Hp; [reflexivity|].
  destruct (plain_cons c id Hp) as (Hc & Hline & Hrest).
  rewrite append_cons. cbn [Pattern.lazy_group]. rewrite Hc.
  assert (Hahead : Pattern.line_terminator_ahead
                     (String c (id +:+ String Pattern.quote post)) = false).
  { revert Hline Hrest. clear. intros Hline Hrest.
    destruct id as [|d id]; [|destruct id as [|e id]].
    - cbn in *. destruct c as [[] [] [] [] [] [] [] []]; try reflexivity; discriminate.
    - destruct (plain_cons d "" Hrest) as (Hd & _ & _).
      rewrite !append_cons, append_nil.
      cbn in *. destruct c as [[] [] [] [] [] [] [] []]; try reflexivity; try discriminate.
      destruct d as [[] [] [] [] [] [] [] []]; try reflexivity; discriminate.
    - rewrite !append_cons. exact Hline. }
  rewrite Hahead. by rewrite (IH Hrest).
Qed.

Lemma strip_prefix_key_other (c : ascii) (s : string) :
  Ascii.eqb c Pattern.quote = false →
  Js.strip_prefix Pattern.buildId_key (String c s) = None.
Proof.
  intros Hc. unfold Pattern.buildId_key. cbn [Js.strip_prefix].
  rewrite Ascii.eqb_sym, Hc. reflexivity.
Qed.

Lemma search_here (group : string → option string) (s r id : string) :
  Js.strip_prefix Pattern.buildId_key s = Some r → group r = Some id →
  Pattern.search group s = Some id.
Proof. intros Hs Hg. destruct s; cbn [Pattern.search]; rewrite Hs; cbn; by rewrite Hg. Qed.

Lemma search_skips (group : string → option string) (pre rest : string) :
  Text.occurs Pattern.quote pre = false →
  Pattern.search group (pre +:+ rest) = Pattern.search group rest.
Proof.
  induction pre as [|c pre IH]; intros Hq; [reflexivity|].
  cbn in Hq. apply orb_false_elim in Hq as [Hc Hq].
  rewrite append_cons. cbn [Pattern.search].
  rewrite strip_prefix_key_other by done. cbn. by apply IH.
Qed.

Lemma search_split (group : string → option string) (s id : string) :
  Pattern.search group s = Some id →
  ∃ pre r, s = pre +:+ Pattern.buildId_key +:+ r ∧ group r = Some id.
Proof.
  induction s as [|c s IH]; cbn [Pattern.search].
  - destruct (Js.strip_prefix Pattern.buildId_key "") as [r|] eqn:Hs; [discriminate Hs|].
    discriminate.
  - destruct (Js.strip_prefix Pattern.buildId_key (String c s)) as [r|] eqn:Hs; cbn.
    + destruct (group r) as [id'|] eqn:Hg.
      * intros [= <-]. exists "", r. split; [|done].
        rewrite append_nil. by apply strip_prefix_split.
      * intros Hrest. destruct (IH Hrest) as (pre & r' & -> & Hg').
        exists (String c pre), r'. by rewrite append_cons.
    + intros Hrest. destruct (IH Hrest) as (pre & r' & -> & Hg').
      exists (String c pre), r'. by rewrite append_cons.
Qed.

Lemma nonempty_group_split (s id : string) :
  Pattern.nonempty_group s = Some id →
  id ≠ "" ∧ Text.occurs Pattern.quote id = false
  ∧ ∃ post, s = id +:+ String Pattern.quote post.
Proof.
  unfold Pattern.nonempty_group. intros Hg.
  destruct (Pattern.run_to_quote s) as [id'|] eqn:Hr; [|discriminate].
  assert (id' = id ∧ id ≠ "") as [-> Hne].
  { destruct id'; [discriminate|]. injection Hg as <-. done. }
  destruct (run_to_quote_split s id Hr) as [Hq Hpost]. done.
Qed.

Lemma match_nonempty_named (d : payload) (id : string) :
  data_match Pattern.match_nonempty d = Ok (Some id) → Kept.named (Str id) = true.
Proof.
  destruct d as [page| |]; unfold data_match; [|discriminate..].
  intros [= Hm]. apply search_split in Hm as (pre & r & _ & Hg).
  apply nonempty_group_split in Hg as [Hne _].
  cbn. by destruct (String.eqb_spec id "").
Qed.

(** X4: what the two patterns capture.  A capture of either pattern is
    text that stands in the page right after the key and right before a
    quote, and holds no quote; the pattern of [server.js] and of both files
    of the production server never captures the empty text, the lazy
    pattern of [add on.js] never runs over a line end. *)
Theorem buildId_capture_sound (page id : string) :
  (Pattern.match_nonempty page = Some id →
   id ≠ "" ∧ Text.occurs Pattern.quote id = false
   ∧ ∃ pre post, page = pre +:+ Pattern.buildId_key +:+ id +:+ String Pattern.quote post)
  ∧ (Pattern.match_lazy page = Some id →
     Text.occurs Pattern.quote id = false
     ∧ Text.occurs "010" id = false ∧ Text.occurs "013" id = false
     ∧ ∃ pre post, page = pre +:+ Pattern.buildId_key +:+ id +:+ String Pattern.quote post).
Proof.
  split; intros Hm; apply search_split in Hm as (pre & r & -> & Hg).
  - destruct (nonempty_group_split r id Hg) as (Hne & Hq & post & ->).
    repeat split; [done..|]. by exists pre, post.
  - destruct (lazy_group_split r id Hg) as (Hq & Hlf & Hcr & post & ->).
    repeat split; [done..|]. by exists pre, post.
Qed.

Lemma buildId_capture_sound_witness :
  Pattern.match_nonempty (Sample.page_with "abc123") = Some "abc123"
  ∧ "abc123" ≠ ""
  ∧ Text.occurs Pattern.quote "abc123" = false
  ∧ ∃ pre post, Sample.page_with "abc123"
                = pre +:+ Pattern.buildId_key +:+ "abc123" +:+ String Pattern.quote post.
Proof.
  assert (H : Pattern.match_nonempty (Sample.page_with "abc123") = Some "abc123")
    by (vm_compute; reflexivity).
  split; [exact H|].
  exact (proj1 (buildId_capture_sound (Sample.page_with "abc123") "abc123") H).
Defined.

(** X5: scraping finds what the page embeds.  In a page that has no quote
    before the key, an identifier of plain text between the key and the
    closing quote is what the lazy pattern captures, and, when it is not
    empty, what the other pattern captures; an empty identifier is
    captured by the lazy pattern only, the other pattern goes on searching
    from the closing quote. *)
Theorem buildId_capture_complete (pre id post : string) :
  Text.occurs Pattern.quote pre = false →
  Text.plain id = true →
  let page := pre +:+ Pattern.buildId_key +:+ id +:+ String Pattern.quote post in
  Pattern.match_lazy page = Some id
  ∧ (id ≠ "" → Pattern.match_nonempty page = Some id)
  ∧ (id = "" → Pattern.match_nonempty page
               = Pattern.match_nonempty (String Pattern.quote post)).
Proof.
  intros Hpre Hid. cbv zeta.
  assert (Hq : Text.occurs Pattern.quote id = false).
  { unfold Text.plain in Hid. repeat (apply andb_prop in Hid as [Hid _]).
    by apply negb_true_iff. }
  unfold Pattern.match_lazy, Pattern.match_nonempty.
  rewrite (search_skips Pattern.lazy_group), (search_skips Pattern.nonempty_group) by done.
  split; [|split].
  - eapply search_here; [apply strip_prefix_append|]. by apply lazy_group_append.
  - intros Hne. eapply search_here; [apply strip_prefix_append|].
    unfold Pattern.nonempty_group. rewrite run_to_quote_append by done.
    by destruct id.
  - intros ->. rewrite append_nil. reflexivity.
Qed.

Lemma buildId_capture_complete_witness :
  Text.occurs Pattern.quote "<script>{" = false
  ∧ Text.plain "7xu4PEyycasyUF-xW91f5" = true
  ∧ Pattern.match_lazy (Sample.page_with "7xu4PEyycasyUF-xW91f5")
    = Some "7xu4PEyycasyUF-xW91f5"
  ∧ Pattern.match_nonempty (Sample.page_with "7xu4PEyycasyUF-xW91f5")
    = Some "7xu4PEyycasyUF-xW91f5".
Proof.
  assert (H1 : Text.occurs Pattern.quote "<script>{" = false) by reflexivity.
  assert (H2 : Text.plain "7xu4PEyycasyUF-xW91f5" = true) by reflexivity.
  destruct (buildId_capture_complete "<script>{" "7xu4PEyycasyUF-xW91f5" "}</script>" H1 H2)
    as (Hlazy & Hne & _).
  split; [exact H1|]. split; [exact H2|]. split; [exact Hlazy|].
  apply Hne. discriminate.
Defined.

(** ** What computations keep *)

Section Keeping.
Context {S : Type} (P : S → Prop).

Lemma keeps_ret {A} (a : A) : Kept.keeps P (ret a).
Proof. by intros s Hs. Qed.

Lemma keeps_throw {A} (e : Js.error) : Kept.keeps P (@throw S A e).
Proof. by intros s Hs. Qed.

Lemma keeps_lift {A} (r : result A) : Kept.keeps P (lift r).
Proof. by intros s Hs. Qed.

Lemma keeps_gets {A} (f : S → A) : Kept.keeps P (gets f).
Proof. by intros s Hs. Qed.

Lemma keeps_bind {A B} (m : M S A) (k : A → M S B) :
  Kept.keeps P m → (∀ a, Kept.keeps P (k a)) → Kept.keeps P (bind m k).
Proof.
  intros Hm Hk s Hs. unfold bind. specialize (Hm s Hs).
  destruct (m s) as [[a|e] s']; cbn in *; [by apply Hk|done].
Qed.

Lemma keeps_try_catch {A} (body : M S A) (handler : Js.error → M S A) :
  Kept.keeps P body → (∀ e, Kept.keeps P (handler e)) → Kept.keeps P (try_catch body handler).
Proof.
  intros Hm Hk s Hs. unfold try_catch. specialize (Hm s Hs).
  destruct (body s) as [[a|e] s']; cbn in *; [done|by apply Hk].
Qed.

End Keeping.

(** ** The client of the validated server *)

Lemma production_getBuildId_keeps :
  Kept.keeps (λ s, Kept.production_client (Production.this s) = true) Production.getBuildId.
Proof.
  intros s Hs. unfold Production.getBuildId. plumb.
  destruct (Production.cache_fresh (Production.this s) (clock (Production.network s)))
    eqn:Hfresh; cbn.
  - unfold Production.cache_fresh in Hfresh. apply andb_prop in Hfresh as [Hcache _].
    unfold Kept.production_client in *. apply andb_prop in Hs as [_ Hs]. cbn.
    destruct (Production.buildIdCache (Production.this s)) as [| |b|n|b]; try discriminate.
    cbn in *. by rewrite Hcache, String.eqb_refl.
  - destruct (axios_get Production.axiosConfig _ _) as [[[st d]|e] n]; cbn; [|exact Hs].
    destruct (st =? 200); cbn; [|exact Hs].
    destruct (data_match Pattern.match_nonempty d) as [[id|]|e] eqn:Hm; cbn; try exact Hs.
    unfold Kept.production_client. cbn [Production.this Production.buildId
      Production.buildIdCache Js.is_str].
    by rewrite (match_nonempty_named d id Hm), String.eqb_refl.
Qed.

Lemma production_makeRequest_this (u : string) (ps : list (string * val)) (s : Production.state) :
  Production.this (snd (Production.makeRequest u ps s)) = Production.this s.
Proof. by rewrite makeRequest_run. Qed.

Lemma production_makeRequest_keeps (Q : Production.CinebyClient → Prop) u ps :
  Kept.keeps (λ s, Q (Production.this s)) (Production.makeRequest u ps).
Proof. intros s Hs. by rewrite production_makeRequest_this. Qed.

Lemma production_getBuildId_fresh (s : Production.state) :
  Kept.production_client (Production.this s) = true →
  Production.cache_fresh (Production.this s) (clock (Production.network s)) = true →
  Production.getBuildId s = (Ok Undefined, s).
Proof.
  intros Hs Hfresh. unfold Production.getBuildId. plumb. rewrite Hfresh. cbn.
  unfold Production.cache_fresh in Hfresh. apply andb_prop in Hfresh as [Hcache _].
  unfold Kept.production_client in Hs. apply andb_prop in Hs as [_ Hs].
  destruct s as [[b c t] n]. cbn in *.
  destruct c as [| |?|?|c]; try discriminate.
  apply is_str_spec in Hs as ->. reflexivity.
Qed.

Lemma production_on_net_keeps (Q : Production.CinebyClient → Prop) {A}
    (f : net → result A * net) :
  Kept.keeps (λ s, Q (Production.this s)) (@on_net _ Production.state_networked _ f).
Proof. intros s Hs. unfold on_net. cbn. by destruct (f (Production.network s)). Qed.

Ltac keeping_step :=
  first
    [ apply keeps_ret | apply keeps_throw | apply keeps_lift | apply keeps_gets
    | apply production_getBuildId_keeps
    | apply production_makeRequest_keeps
    | apply (production_makeRequest_keeps (λ c, Kept.production_client c = true))
    | apply production_on_net_keeps
    | apply (production_on_net_keeps (λ c, Kept.production_client c = true))
    | apply keeps_bind; [|intros ?]
    | apply keeps_try_catch; [|intros ?]
    | match goal with
      | |- Kept.keeps _ (if ?b then _ else _) => destruct b
      | |- Kept.keeps _ (match ?x with _ => _ end) => destruct x
      end ].

Ltac keeping := repeat keeping_step.

Lemma production_listing_keeps path ps field :
  Kept.keeps (λ s, Kept.production_client (Production.this s) = true)
    (Production.listing path ps field).
Proof. unfold Production.listing, Production.data_url. keeping. Qed.

Lemma production_search_keeps (rt : Runtime) query page :
  Kept.keeps (λ s, Kept.production_client (Production.this s) = true)
    (Production.search query page).
Proof. unfold Production.search. keeping; apply production_listing_keeps. Qed.

Lemma production_getContentDetails_keeps id mediaType :
  Kept.keeps (λ s, Kept.production_client (Production.this s) = true)
    (Production.getContentDetails id mediaType).
Proof. unfold Production.getContentDetails, Production.data_url. keeping. Qed.

Lemma production_catalog_keeps (rt : Runtime) type id extra :
  Kept.keeps (λ s, Kept.production_client (Production.this s) = true)
    (Production.catalog type id extra).
Proof.
  unfold Production.catalog, Production.getTrending, Production.getMovies,
    Production.getTVShows.
  keeping; first [apply production_listing_keeps | apply production_search_keeps].
Qed.

Lemma production_meta_keeps type id :
  Kept.keeps (λ s, Kept.production_client (Production.this s) = true)
    (Production.meta type id).
Proof.
  unfold Production.meta. keeping; apply production_getContentDetails_keeps.
Qed.

Lemma production_stream_keeps (Q : Production.CinebyClient → Prop) type id :
  Kept.keeps (λ s, Q (Production.this s)) (Production.stream type id).
Proof. unfold Production.stream, Production.getStreamSources. keeping. Qed.

Lemma production_getBuildId_sent (s : Production.state) :
  sent (Production.network (snd (Production.getBuildId s)))
  = (sent (Production.network s)
     ++ if Production.cache_fresh (Production.this s) (clock (Production.network s))
        then [] else [GET (Production.baseURL +:+ "/")])%list.
Proof.
  unfold Production.getBuildId. plumb.
  destruct (Production.cache_fresh _ _); cbn; [by rewrite app_nil_r|].
  pose proof (axios_get_sent Production.axiosConfig (GET (Production.baseURL +:+ "/"))
                (Production.network s)) as Hsent.
  destruct (axios_get Production.axiosConfig _ _) as [[[st d]|e] n]; cbn in *; [|done].
  destruct (st =? 200); cbn; [|done].
  by destruct (data_match Pattern.match_nonempty d) as [[id|]|e].
Qed.

Lemma production_getBuildId_stale (s : Production.state) :
  Production.cache_fresh (Production.this s) (clock (Production.network s)) = false →
  let r := upstream (Production.network s) (length (sent (Production.network s)))
             (GET (Production.baseURL +:+ "/")) in
  Production.this (snd (Production.getBuildId s))
  = if timed_out Production.axiosConfig r then Production.this s
    else match answer r with
         | Response status (Text page) =>
             if status =? 200 then
               match Pattern.match_nonempty page with
               | Some id => {| Production.buildId := Str id;
                               Production.buildIdCache := Str id;
                               Production.buildIdCacheTime := Some (clock (Production.network s)) |}
               | None => Production.this s
               end
             else Production.this s
         | _ => Production.this s
         end.
Proof.
  intros Hstale. cbv zeta. remember (timed_out Production.axiosConfig _) as t eqn:Ht.
  unfold Production.getBuildId. plumb. rewrite Hstale. cbn.
  unfold axios_get. rewrite <- Ht. clear Ht.
  destruct t; cbn; [done|].
  destruct (answer _) as [code|st d]; cbn; [done|].
  cbn [validateStatus Production.axiosConfig].
  destruct (Z.ltb_spec st 500); cbn.
  - destruct (st =? 200); cbn; [|by destruct d].
    destruct d as [page| |]; unfold data_match; cbn; [|done..].
    by destruct (Pattern.match_nonempty page).
  - destruct (Z.eqb_spec st 200); [lia|]. by destruct d.
Qed.

(** X6: the client of the validated server always has a build id it can
    put in a path.  The new client has a non-empty build id and an empty
    cache; [getBuildId] and the three routes keep the build id a non-empty
    string and the cache empty or equal to it, whatever the upstream
    answers; so every data URL names a build id. *)
Theorem production_buildId_stays_named (rt : Runtime) :
  let ok := λ s, Kept.production_client (Production.this s) = true in
  Kept.production_client Production.constructor = true
  ∧ Kept.keeps ok Production.getBuildId
  ∧ (∀ type id extra, Kept.keeps ok (Production.catalog type id extra))
  ∧ (∀ type id, Kept.keeps ok (Production.meta type id))
  ∧ (∀ type id, Kept.keeps ok (Production.stream type id))
  ∧ (∀ s path, ok s →
       ∃ b, b ≠ "" ∧ Production.data_url path s
                     = (Ok (Production.baseURL +:+ "/_next/data/" +:+ b +:+ path), s)).
Proof.
  cbv zeta. split; [reflexivity|]. split; [apply production_getBuildId_keeps|].
  split; [apply production_catalog_keeps|]. split; [apply production_meta_keeps|].
  split; [intros type id; apply (production_stream_keeps (λ c, Kept.production_client c = true))|].
  intros s path Hs. unfold Kept.production_client in Hs. apply andb_prop in Hs as [Hb _].
  unfold Production.data_url, gets.
  destruct (Production.buildId (Production.this s)) as [| |?|?|b]; try discriminate.
  exists b. split; [|reflexivity]. cbn in Hb. by destruct (String.eqb_spec b "").
Qed.

Lemma production_buildId_stays_named_witness :
  let s := Sample.production_at (Sample.site "abc123" (Response 200 Sample.trending_feed)) in
  Kept.production_client (Production.this s) = true
  ∧ Kept.production_client
      (Production.this (snd (Production.catalog (H := Sample.plain_runtime) "movie"
                               "cineby-trending-movies" None s))) = true
  ∧ Production.buildId
      (Production.this (snd (Production.catalog (H := Sample.plain_runtime) "movie"
                               "cineby-trending-movies" None s))) = Str "abc123".
Proof.
  cbv zeta.
  assert (H : Kept.production_client
                (Production.this (Sample.production_at
                   (Sample.site "abc123" (Response 200 Sample.trending_feed)))) = true)
    by reflexivity.
  split; [exact H|]. split.
  - exact (proj1 (proj2 (proj2 (production_buildId_stays_named Sample.plain_runtime)))
             "movie" "cineby-trending-movies" None _ H).
  - vm_compute. reflexivity.
Defined.

(** X7: the build id cache of the validated server.  While the cache is
    fresh (an identifier cached less than 3600000 ms ago) [getBuildId]
    sends nothing and, the cache holding the build id in use, changes
    nothing.  Otherwise it sends exactly one
    request, for the homepage; an answer 200 whose text shows an
    identifier replaces build id, cache and cache time (the time read
    before the request); any other answer leaves the client as it was. *)
Theorem production_getBuildId_cache (s : Production.state) :
  let n := Production.network s in
  let r := upstream n (length (sent n)) (GET (Production.baseURL +:+ "/")) in
  let s' := snd (Production.getBuildId s) in
  (Kept.production_client (Production.this s) = true →
   Production.cache_fresh (Production.this s) (clock n) = true →
   Production.getBuildId s = (Ok Undefined, s))
  ∧ (Production.cache_fresh (Production.this s) (clock n) = false →
     sent (Production.network s') = (sent n ++ [GET (Production.baseURL +:+ "/")])%list
     ∧ (∀ page id,
          timed_out Production.axiosConfig r = false →
          answer r = Response 200 (Text page) →
          Pattern.match_nonempty page = Some id →
          Production.this s'
          = {| Production.buildId := Str id; Production.buildIdCache := Str id;
               Production.buildIdCacheTime := Some (clock n) |})
     ∧ (∀ status data, answer r = Response status data → status ≠ 200 →
          Production.this s' = Production.this s)
     ∧ (∀ code, answer r = NoResponse code → Production.this s' = Production.this s)
     ∧ (timed_out Production.axiosConfig r = true → Production.this s' = Production.this s)).
Proof.
  cbv zeta. split; [apply production_getBuildId_fresh|].
  intros Hstale. split.
  - rewrite production_getBuildId_sent. by rewrite Hstale.
  - rewrite (production_getBuildId_stale s Hstale). repeat split.
    + intros page id -> -> Hm. cbn. by rewrite Hm.
    + intros st d -> Hst. destruct (timed_out _ _); [done|].
      destruct d; [|done..]. by destruct (Z.eqb_spec st 200).
    + intros code ->. by destruct (timed_out _ _).
    + by intros ->.
Qed.

Lemma production_getBuildId_cache_witness :
  let s := Sample.production_at (Sample.site "abc123" (Response 200 Sample.trending_feed)) in
  let s1 := snd (Production.getBuildId s) in
  Production.cache_fresh (Production.this s) (clock (Production.network s)) = false
  ∧ sent (Production.network s1) = [GET "https://www.cineby.app/"]
  ∧ Production.this s1
    = {| Production.buildId := Str "abc123"; Production.buildIdCache := Str "abc123";
         Production.buildIdCacheTime := Some 1000 |}
  ∧ Production.cache_fresh (Production.this s1) (clock (Production.network s1)) = true
  ∧ Production.getBuildId s1 = (Ok Undefined, s1).
Proof.
  cbv zeta.
  set (s := Sample.production_at (Sample.site "abc123" (Response 200 Sample.trending_feed))).
  assert (H0 : Production.cache_fresh (Production.this s) (clock (Production.network s)) = false)
    by reflexivity.
  destruct (proj2 (production_getBuildId_cache s) H0) as (Hsent & Hstore & _).
  assert (H1 : Production.cache_fresh (Production.this (snd (Production.getBuildId s)))
                 (clock (Production.network (snd (Production.getBuildId s)))) = true)
    by (vm_compute; reflexivity).
  split; [exact H0|]. split; [exact Hsent|]. split; [|split; [exact H1|]].
  - apply (Hstore (Sample.page_with "abc123") "abc123"); vm_compute; reflexivity.
  - apply (proj1 (production_getBuildId_cache (snd (Production.getBuildId s))));
      [vm_compute; reflexivity|exact H1].
Defined.

(** ** Splitting ids *)

Lemma split_plain (c : ascii) (s : string) :
  Text.occurs c s = false → Js.split c s = [s].
Proof.
  induction s as [|a s IH]; cbn; [done|].
  intros Hs. apply orb_false_elim in Hs as [-> Hs]. by rewrite (IH Hs).
Qed.

Lemma split_append (c : ascii) (a b : string) :
  Text.occurs c a = false →
  Js.split c (a +:+ String c b) = a :: Js.split c b.
Proof.
  induction a as [|x a IH]; intros Ha.
  - rewrite append_nil. cbn. by rewrite Ascii.eqb_refl.
  - cbn in Ha. apply orb_false_elim in Ha as [Hx Ha].
    rewrite append_cons. cbn [Js.split]. by rewrite Hx, (IH Ha).
Qed.

(** ** Requests the validated server answers by itself *)

Lemma valid_type_spec (type : string) :
  Production.valid_type type = true ↔ type = "movie" ∨ type = "series".
Proof.
  unfold Production.valid_type. rewrite orb_true_iff.
  split; (intros [H|H]; [left|right]); by apply String.eqb_eq.
Qed.

Lemma production_search_blank (rt : Runtime) (query : val) (page : Z) (s : Production.state) :
  Js.truthy query = false ∨ (∃ q, query = Str q ∧ Js.trim q = "") →
  Production.search query page s = (Ok [], s).
Proof.
  unfold Production.search. intros [Hq|(q & -> & Hq)].
  - by rewrite Hq.
  - destruct (Js.truthy (Str q)); [|done]. plumb. by rewrite Hq.
Qed.

(** X8: a blank search never reaches the upstream.  [search] called with
    a missing or empty query, or with a query that trims to the empty
    text, returns the empty list, sends no request and leaves the client
    as it is; the catalog route, asked for a valid type with a search text
    that is not empty but trims to the empty text, answers 200 with no
    metas and sends nothing. *)
Theorem production_blank_search_sends_nothing (rt : Runtime) (s : Production.state) :
  (∀ query page,
     Js.truthy query = false ∨ (∃ q, query = Str q ∧ Js.trim q = "") →
     Production.search query page s = (Ok [], s))
  ∧ (∀ type id extra q,
       Production.valid_type type = true →
       (Production.parse_extra extra).1.1 = Str q → q ≠ "" → Js.trim q = "" →
       Production.catalog type id extra s = (Ok (Respond 200 (Metas [])), s)).
Proof.
  split; [intros; by apply production_search_blank|].
  intros type id extra q Htype Hextra Hq Htrim.
  unfold Production.catalog. rewrite Htype.
  destruct (Production.parse_extra extra) as [[search_ skip] genre]. cbn in Hextra. subst.
  cbn [negb]. cbn [Js.truthy]. destruct (String.eqb_spec q ""); [done|]. cbn [negb].
  unfold try_catch, bind.
  rewrite production_search_blank by (right; by exists q). reflexivity.
Qed.

Lemma production_blank_search_sends_nothing_witness :
  let s := Sample.production_at Sample.offline in
  (Production.parse_extra (H := Sample.plain_runtime) (Some "search=  ")).1.1 = Str "  "
  ∧ Js.trim (Runtime := Sample.plain_runtime) "  " = ""
  ∧ Production.catalog (H := Sample.plain_runtime) "movie" "cineby-movies"
      (Some "search=  ") s
    = (Ok (Respond 200 (Metas [])), s).
Proof.
  cbv zeta.
  assert (H1 : (Production.parse_extra (H := Sample.plain_runtime) (Some "search=  ")).1.1
               = Str "  ") by reflexivity.
  assert (H2 : Js.trim (Runtime := Sample.plain_runtime) "  " = "") by reflexivity.
  split; [exact H1|]. split; [exact H2|].
  apply (proj2 (production_blank_search_sends_nothing Sample.plain_runtime
                  (Sample.production_at Sample.offline))
           "movie" "cineby-movies" (Some "search=  ") "  ");
    [reflexivity|exact H1|discriminate|exact H2].
Defined.

(** X9: malformed requests are refused before anything is fetched.  A type
    other than movie and series is answered 400 by all three routes; a
    meta id that does not start with the prefix, a stream id without a
    colon, and a series stream id without season and episode are answered
    400; in each case no request is sent and the client is untouched. *)
Theorem production_refuses_without_fetching (rt : Runtime) (type id : string)
    (s : Production.state) :
  (type ≠ "movie" → type ≠ "series" →
   (∀ extra, Production.catalog type id extra s
             = (Ok (Respond 400 (ErrorBody "Invalid type")), s))
   ∧ Production.meta type id s = (Ok (Respond 400 (ErrorBody "Invalid type")), s)
   ∧ Production.stream type id s = (Ok (Respond 400 (ErrorBody "Invalid type")), s))
  ∧ (type = "movie" ∨ type = "series" →
     (Js.startsWith "cineby:" id = false →
      Production.meta type id s = (Ok (Respond 400 (ErrorBody "Invalid ID format")), s))
     ∧ (Text.occurs ":" id = false →
        Production.stream type id s = (Ok (Respond 400 (ErrorBody "Invalid ID format")), s)))
  ∧ (∀ prefix x,
       Text.occurs ":" prefix = false → Text.occurs ":" x = false →
       Production.stream "series" (prefix +:+ String ":" x) s
       = (Ok (Respond 400 (ErrorBody "Season and episode required for series")), s)).
Proof.
  split; [|split].
  - intros Hm Hs.
    assert (Hv : Production.valid_type type = false).
    { destruct (Production.valid_type type) eqn:Hv; [|done].
      apply valid_type_spec in Hv as [?|?]; done. }
    unfold Production.catalog, Production.meta, Production.stream. rewrite Hv.
    repeat split.
  - intros Hv. apply valid_type_spec in Hv. split.
    + intros Hid. unfold Production.meta. rewrite Hv, Hid. reflexivity.
    + intros Hid. unfold Production.stream. rewrite Hv, (split_plain _ _ Hid). reflexivity.
  - intros prefix x Hp Hx. unfold Production.stream.
    rewrite (split_append _ _ _ Hp), (split_plain _ _ Hx). reflexivity.
Qed.

Lemma production_refuses_without_fetching_witness :
  let s := Sample.production_at Sample.offline in
  Production.meta "anime" "cineby:42" s = (Ok (Respond 400 (ErrorBody "Invalid type")), s)
  ∧ Production.meta "movie" "tt0111161" s
    = (Ok (Respond 400 (ErrorBody "Invalid ID format")), s)
  ∧ Production.stream "movie" "tt0111161" s
    = (Ok (Respond 400 (ErrorBody "Invalid ID format")), s)
  ∧ Production.stream "series" "cineby:42" s
    = (Ok (Respond 400 (ErrorBody "Season and episode required for series")), s).
Proof.
  cbv zeta. set (s := Sample.production_at Sample.offline).
  split; [|split; [|split]].
  - apply (proj1 (production_refuses_without_fetching Sample.plain_runtime
                    "anime" "cineby:42" s)); discriminate.
  - apply (proj1 (proj2 (production_refuses_without_fetching Sample.plain_runtime
                           "movie" "tt0111161" s))); [by left|reflexivity].
  - apply (proj1 (proj2 (production_refuses_without_fetching Sample.plain_runtime
                           "movie" "tt0111161" s))); [by left|reflexivity].
  - apply (proj2 (proj2 (production_refuses_without_fetching Sample.plain_runtime
                           "movie" "" s)) "cineby" "42"); reflexivity.
Defined.

(** X10: which catalogs the validated server has.  With no search text, a
    catalog id other than the four it knows is answered 404, and the movie
    catalog asked as series (or the series catalog asked as movie) is
    answered 200 with no metas; in each case no request is sent and the
    client is untouched. *)
Theorem production_catalog_dispatch (rt : Runtime) (type id : string) (extra : option string)
    (s : Production.state) :
  Production.valid_type type = true →
  Js.truthy (Production.parse_extra extra).1.1 = false →
  (id ∉ ["cineby-trending-movies"; "cineby-trending-series"; "cineby-movies"; "cineby-series"] →
   Production.catalog type id extra s
   = (Ok (Respond 404 (ErrorBody "Catalog not found")), s))
  ∧ (id = "cineby-movies" → type = "series" →
     Production.catalog type id extra s = (Ok (Respond 200 (Metas [])), s))
  ∧ (id = "cineby-series" → type = "movie" →
     Production.catalog type id extra s = (Ok (Respond 200 (Metas [])), s)).
Proof.
  intros Htype Hsearch. unfold Production.catalog. rewrite Htype.
  destruct (Production.parse_extra extra) as [[search_ skip] genre]. cbn in Hsearch.
  rewrite Hsearch. cbn [negb]. repeat split.
  - intros Hid.
    destruct (String.eqb_spec id "cineby-trending-movies") as [->|_];
      [destruct Hid; rewrite !elem_of_cons; auto 10|].
    destruct (String.eqb_spec id "cineby-trending-series") as [->|_];
      [destruct Hid; rewrite !elem_of_cons; auto 10|].
    destruct (String.eqb_spec id "cineby-movies") as [->|_];
      [destruct Hid; rewrite !elem_of_cons; auto 10|].
    destruct (String.eqb_spec id "cineby-series") as [->|_];
      [destruct Hid; rewrite !elem_of_cons; auto 10|].
    reflexivity.
  - by intros -> ->.
  - by intros -> ->.
Qed.

Lemma production_catalog_dispatch_witness :
  let s := Sample.production_at Sample.offline in
  Production.valid_type "movie" = true
  ∧ Production.catalog (H := Sample.plain_runtime) "movie" "cineby-anime" None s
    = (Ok (Respond 404 (ErrorBody "Catalog not found")), s)
  ∧ Production.catalog (H := Sample.plain_runtime) "movie" "cineby-series" (Some "skip=20") s
    = (Ok (Respond 200 (Metas [])), s).
Proof.
  cbv zeta. set (s := Sample.production_at Sample.offline).
  split; [reflexivity|]. split.
  - apply (proj1 (production_catalog_dispatch Sample.plain_runtime "movie" "cineby-anime"
                    None s eq_refl eq_refl)).
    intros Hin. repeat (apply elem_of_cons in Hin as [Hin|Hin]; [discriminate|]).
    by apply elem_of_nil in Hin.
  - apply (proj2 (proj2 (production_catalog_dispatch Sample.plain_runtime "movie"
                           "cineby-series" (Some "skip=20") s eq_refl eq_refl)));
      reflexivity.
Defined.
(** ** The stream routes *)

(** What a stream route answers, from the outcome of its one upstream
    request. *)
Lemma server_stream_run (type id : string) (s : Server.state) :
  let parts := Js.split ":" id in
  let endpoint := Server.stream_endpoint (Js.at_index parts 1) (mediaType_of type)
                    (Js.at_index parts 2) (Js.at_index parts 3) in
  let r := axios_get default_config (GET endpoint) (Server.network s) in
  Server.stream type id s
  = (Ok (match Kept.sources_read (Kept.body_read (fst r)) with
         | None => json (Streams [])
         | Some srcs =>
             match map_sources stream_of srcs with
             | Ok streams => json (Streams (Js.sort by_quality streams))
             | Throw _ => status_json 500 (ErrorBody "Failed to fetch streams")
             end
         end),
     {| Server.this := Server.this s; Server.network := snd r |}).
Proof.
  cbv zeta. unfold Server.stream, Server.getStreamSources, Server.get. plumb.
  change (Request ?u []) with (GET u). unfold Kept.sources_read.
  destruct (axios_get default_config _ _) as [[[st d]|e] n]; cbn; [|reflexivity].
  destruct (if payload_truthy d then sources_of d else None) as [srcs|]; [|reflexivity].
  unfold lift. by destruct (map_sources stream_of srcs).
Qed.

Lemma retry_stream_run (type id : string) (s : Retry.state) :
  let parts := Js.split ":" id in
  let endpoint := Retry.stream_endpoint (Js.at_index parts 1) (mediaType_of type)
                    (Js.at_index parts 2) (Js.at_index parts 3) in
  let r := axios_get default_config (GET endpoint) (Retry.network s) in
  Retry.stream type id s
  = (Ok (match Kept.sources_read (Kept.body_read (fst r)) with
         | None => json (Streams [])
         | Some srcs =>
             match map_sources stream_of srcs with
             | Ok streams => json (Streams (Js.sort by_quality streams))
             | Throw _ => json (Streams [])
             end
         end),
     {| Retry.this := Retry.this s; Retry.network := snd r; Retry.calls := Retry.calls s |}).
Proof.
  cbv zeta. unfold Retry.stream, Retry.getStreamSources. plumb. unfold Kept.sources_read.
  destruct (axios_get default_config _ _) as [[[st d]|e] n]; cbn; [|reflexivity].
  destruct (if payload_truthy d then sources_of d else None) as [srcs|]; [|reflexivity].
  unfold lift. by destruct (map_sources stream_of srcs).
Qed.

Lemma sort_by_quality_perm (l : list Stream) : Js.sort by_quality l ≡ₚ l.
Proof. apply sort_perm. Qed.

(** The sources of which the validated server makes streams. *)
Lemma with_url_spec (entries : list (option Source)) (source : Source) :
  source ∈ omap Production.with_url entries
  ↔ Some source ∈ entries ∧ Js.truthy (source_url source) = true.
Proof.
  rewrite list_elem_of_omap. split.
  - intros ([x|] & Hin & Hx); [|discriminate]. cbn in Hx.
    destruct (Js.truthy (source_url x)) eqn:Hurl; [|discriminate].
    injection Hx as <-. by split.
  - intros [Hin Hurl]. exists (Some source). split; [exact Hin|]. cbn. by rewrite Hurl.
Qed.

Lemma production_stream_accepted (type id : string) (s : Production.state) :
  let parts := Js.split ":" id in
  let endpoint := Production.stream_endpoint (Js.at_index parts 1) (mediaType_of type)
                    (Js.at_index parts 2) (Js.at_index parts 3) in
  let r := upstream (Production.network s) (length (sent (Production.network s)))
             (GET endpoint) in
  let body := if timed_out Production.axiosConfig r then NoData
              else match answer r with
                   | Response status data => if status =? 200 then data else NoData
                   | NoResponse _ => NoData
                   end in
  Production.valid_type type = true →
  (length parts <? 2)%nat = false →
  String.eqb type "series"
    && (negb (Js.truthy (Js.at_index parts 2)) || negb (Js.truthy (Js.at_index parts 3)))
  = false →
  Production.stream type id s
  = (Ok (json (Streams (match Kept.sources_read body with
                        | Some (Array entries) =>
                            Js.sort by_quality
                              (imap stream_of (omap Production.with_url entries))
                        | _ => []
                        end))),
     {| Production.this := Production.this s;
        Production.network := snd (axios_get Production.axiosConfig (GET endpoint)
                                     (Production.network s)) |}).
Proof.
  cbv zeta. intros Htype Hparts Hseries.
  unfold Production.stream, Production.getStreamSources.
  rewrite Htype, Hparts, Hseries. cbn [negb].
  unfold try_catch, bind. rewrite makeRequest_run. cbv zeta.
  change (Request ?u []) with (GET u). unfold Kept.sources_read.
  match goal with
  | |- context [if payload_truthy ?d then sources_of ?d else None] =>
      destruct (if payload_truthy d then sources_of d else None) as [[|entries]|]
  end; reflexivity.
Qed.

Lemma production_stream_run (type id : string) (s : Production.state) :
  let parts := Js.split ":" id in
  let endpoint := Production.stream_endpoint (Js.at_index parts 1) (mediaType_of type)
                    (Js.at_index parts 2) (Js.at_index parts 3) in
  (∃ message, Production.stream type id s = (Ok (Respond 400 (ErrorBody message)), s))
  ∨ (∃ usable,
       Forall (λ source, Js.truthy (source_url source) = true) usable
       ∧ Production.stream type id s
         = (Ok (Respond 200 (Streams (Js.sort by_quality (imap stream_of usable)))),
            {| Production.this := Production.this s;
               Production.network := snd (axios_get Production.axiosConfig (GET endpoint)
                                            (Production.network s)) |})).
Proof.
  cbv zeta.
  destruct (Production.valid_type type) eqn:Htype;
    [|left; unfold Production.stream; rewrite Htype; by eexists].
  destruct (length (Js.split ":" id) <? 2)%nat eqn:Hparts;
    [left; unfold Production.stream; rewrite Htype, Hparts; by eexists|].
  destruct (String.eqb type "series"
            && (negb (Js.truthy (Js.at_index (Js.split ":" id) 2))
                || negb (Js.truthy (Js.at_index (Js.split ":" id) 3)))) eqn:Hseries;
    [left; unfold Production.stream; rewrite Htype, Hparts, Hseries; by eexists|].
  right. rewrite (production_stream_accepted type id s Htype Hparts Hseries).
  destruct (Kept.sources_read _) as [[|entries]|].
  - exists []. by split.
  - exists (omap Production.with_url entries). split; [|reflexivity].
    apply Forall_forall. intros source Hsource. by apply with_url_spec in Hsource as [_ ?].
  - exists []. by split.
Qed.



(** X12: a stream request costs one upstream request and never touches
    the build id.  In [server.js] and in the retrying server the route
    sends exactly one request, to the stream endpoint made of the parts of
    the id, and leaves the client (and, in the retrying server, its record
    of calls) as it was; the validated server does the same unless it
    refuses the request, in which case it sends nothing. *)
Theorem stream_route_single_request (type id : string) :
  let parts := Js.split ":" id in
  (∀ s, let s' := snd (Server.stream type id s) in
        Server.this s' = Server.this s
        ∧ sent (Server.network s')
          = (sent (Server.network s)
             ++ [GET (Server.stream_endpoint (Js.at_index parts 1) (mediaType_of type)
                        (Js.at_index parts 2) (Js.at_index parts 3))])%list)
  ∧ (∀ s, let s' := snd (Retry.stream type id s) in
          Retry.this s' = Retry.this s ∧ Retry.calls s' = Retry.calls s
          ∧ sent (Retry.network s')
            = (sent (Retry.network s)
               ++ [GET (Retry.stream_endpoint (Js.at_index parts 1) (mediaType_of type)
                          (Js.at_index parts 2) (Js.at_index parts 3))])%list)
  ∧ (∀ s, let s' := snd (Production.stream type id s) in
          Production.this s' = Production.this s
          ∧ ((∃ message, fst (Production.stream type id s)
                         = Ok (Respond 400 (ErrorBody message)) ∧ s' = s)
             ∨ ((∃ streams, fst (Production.stream type id s)
                            = Ok (Respond 200 (Streams streams)))
                ∧ sent (Production.network s')
                  = (sent (Production.network s)
                     ++ [GET (Production.stream_endpoint (Js.at_index parts 1)
                                (mediaType_of type) (Js.at_index parts 2)
                                (Js.at_index parts 3))])%list))).
Proof.
  cbv zeta. split; [|split]; intros s.
  - rewrite server_stream_run. cbn. split; [reflexivity|apply axios_get_sent].
  - rewrite retry_stream_run. cbn. repeat split. apply axios_get_sent.
  - destruct (production_stream_run type id s) as [[message ->]|(usable & _ & ->)]; cbn.
    + split; [reflexivity|]. left. by exists message.
    + split; [reflexivity|]. right. split; [by eexists|apply axios_get_sent].
Qed.

(** ** From a catalog entry to its details, from an episode to its streams *)

Lemma replace_prefix (p rep x : string) : Js.replace p rep (p +:+ x) = rep +:+ x.
Proof.
  assert (Hs := strip_prefix_append p x).
  destruct (p +:+ x); cbn [Js.replace]; by rewrite Hs.
Qed.

Lemma startsWith_prefix (p x : string) : Js.startsWith p (p +:+ x) = true.
Proof. unfold Js.startsWith. by rewrite strip_prefix_append. Qed.

Lemma mediaType_of_meta_type (isMovie : bool) :
  mediaType_of (if isMovie then "movie" else "series") = if isMovie then "movie" else "tv".
Proof. by destruct isMovie. Qed.

Lemma server_getContentDetails_state (id mediaType : string) (s : Server.state) :
  snd (Server.getContentDetails id mediaType s)
  = {| Server.this := Server.this s;
       Server.network :=
         snd (axios_get default_config
                (GET (Server.baseURL +:+ "/_next/data/"
                        +:+ Js.to_string (Server.buildId (Server.this s))
                        +:+ (if String.eqb mediaType "movie" then "/en/movie/" else "/en/tv/")
                        +:+ id +:+ ".json"))
                (Server.network s)) |}.
Proof.
  unfold Server.getContentDetails, Server.get, Server.data_url.
  destruct (String.eqb mediaType "movie"); plumb; change (Request ?u []) with (GET u);
    by destruct (axios_get default_config _ _) as [[[st d]|e] n].
Qed.

Lemma server_meta_state (type id : string) (s : Server.state) :
  snd (Server.meta type id s)
  = snd (Server.getContentDetails (Js.replace "cineby:" EmptyString id) (mediaType_of type) s).
Proof.
  unfold Server.meta, try_catch, bind.
  destruct (Server.getContentDetails _ _ s) as [[[props|]|e] s']; cbn; [|done..].
  destruct (String.eqb type "series"), (seasons props) as [ss|]; cbn; try done.
  unfold lift. by destruct (for_of _ ss).
Qed.

Lemma production_meta_state (type id : string) (s : Production.state) :
  Production.valid_type type = true →
  Js.startsWith "cineby:" id = true →
  ∃ r, Production.meta type id s
       = (Ok r, snd (Production.getContentDetails (Js.replace "cineby:" EmptyString id)
                       (mediaType_of type) s))
       ∧ status r ≠ 400.
Proof.
  intros Htype Hid. unfold Production.meta. rewrite Htype, Hid. cbn [negb].
  unfold try_catch, bind.
  destruct (Production.getContentDetails _ _ s) as [[[props|]|e] s']; cbn;
    [|by eexists..].
  destruct (String.eqb type "series"), (seasons props) as [ss|]; cbn; try by eexists.
  unfold lift. destruct (for_of _ ss); by eexists.
Qed.

(** X13: the id of a catalog entry leads back to the item.  Asking
    [server.js] for the meta of an entry it listed, with the id and the
    type of that entry, sends exactly one request: for the details of the
    item's own id, under movie when the item is a movie and under tv
    otherwise, with the build id the client holds; the client is not
    changed.  The validated server accepts every id and type it listed
    (it never answers them with 400) and looks up the same item. *)
Theorem catalog_entry_leads_to_details (item : Item) :
  let isMovie := Js.is_str (mediaType item) "movie" in
  (∀ s, let m := Server.transformToStremioMeta item in
        let s' := snd (Server.meta (meta_type m) (meta_id m) s) in
        Server.this s' = Server.this s
        ∧ sent (Server.network s')
          = (sent (Server.network s)
             ++ [GET (Server.baseURL +:+ "/_next/data/"
                        +:+ Js.to_string (Server.buildId (Server.this s))
                        +:+ (if isMovie then "/en/movie/" else "/en/tv/")
                        +:+ Js.to_string (item_id item) +:+ ".json")])%list)
  ∧ (∀ s m, Production.transformToStremioMeta (Some item) = Some m →
       ∃ r, Production.meta (meta_type m) (meta_id m) s
            = (Ok r, snd (Production.getContentDetails (Js.to_string (item_id item))
                            (if isMovie then "movie" else "tv") s))
            ∧ status r ≠ 400).
Proof.
  cbv zeta. split.
  - intros s. rewrite server_meta_state, server_getContentDetails_state.
    cbn [snd Server.this Server.network Server.transformToStremioMeta meta_id meta_type].
    rewrite replace_prefix, append_nil, mediaType_of_meta_type.
    split; [reflexivity|]. rewrite axios_get_sent.
    by destruct (Js.is_str (mediaType item) "movie").
  - intros s m Hm. unfold Production.transformToStremioMeta in Hm.
    destruct (negb (Js.truthy (item_id item))); [discriminate|]. injection Hm as <-.
    cbn [meta_id meta_type].
    destruct (production_meta_state
                (if Js.is_str (mediaType item) "movie" then "movie" else "series")
                ("cineby:" +:+ Js.to_string (item_id item)) s) as (r & Hr & Hstatus).
    + by destruct (Js.is_str (mediaType item) "movie").
    + apply startsWith_prefix.
    + exists r. split; [|done]. rewrite Hr.
      by rewrite replace_prefix, append_nil, mediaType_of_meta_type.
Qed.

Lemma catalog_entry_leads_to_details_witness :
  let item := Sample.item 7 (Str "tv") "A show" in
  let s := Sample.production_at (Sample.always 200 Sample.show_page) in
  meta_id (Server.transformToStremioMeta item) = "cineby:7"
  ∧ meta_type (Server.transformToStremioMeta item) = "series"
  ∧ sent (Server.network (snd (Server.meta "series" "cineby:7" (Sample.server_at Sample.offline))))
    = [GET "https://www.cineby.app/_next/data/7xu4PEyycasyUF-xW91f5/en/tv/7.json"]
  ∧ ∃ m r, Production.transformToStremioMeta (Some item) = Some m
           ∧ meta_id m = "cineby:7"
           ∧ Production.meta (meta_type m) (meta_id m) s
             = (Ok r, snd (Production.getContentDetails "7" "tv" s))
           ∧ status r ≠ 400.
Proof.
  cbv zeta.
  destruct (catalog_entry_leads_to_details (Sample.item 7 (Str "tv") "A show"))
    as [Hserver Hproduction].
  split; [reflexivity|]. split; [reflexivity|]. split.
  - exact (proj2 (Hserver (Sample.server_at Sample.offline))).
  - destruct (Hproduction (Sample.production_at (Sample.always 200 Sample.show_page))
                _ eq_refl) as (r & Hr & Hstatus).
    eexists _, r. split; [reflexivity|]. split; [reflexivity|]. split; [exact Hr|exact Hstatus].
Defined.

Lemma split_composite (prefix x a b : string) :
  Text.occurs ":" prefix = false → Text.occurs ":" x = false →
  Text.occurs ":" a = false → Text.occurs ":" b = false →
  Js.split ":" (episode_id (prefix +:+ String ":" x) (Str a) (Str b)) = [prefix; x; a; b].
Proof.
  intros Hp Hx Ha Hb. unfold episode_id. cbn [Js.to_string].
  rewrite !append_assoc, !append_cons, !append_nil.
  by rewrite (split_append _ _ _ Hp), (split_append _ _ _ Hx), (split_append _ _ _ Ha),
    (split_plain _ _ Hb).
Qed.

Lemma episode_id_text (id : string) (sn en : val) :
  episode_id id sn en = episode_id id (Str (Js.to_string sn)) (Str (Js.to_string en)).
Proof. reflexivity. Qed.

Lemma truthy_text (t : string) : t ≠ "" → Js.truthy (Str t) = true.
Proof. intros Ht. cbn. by destruct (String.eqb_spec t ""). Qed.

(** X14: the id of an episode entry leads to the streams of that episode.
    The meta route gives an episode the id of the show followed by season
    and episode number; when none of the three parts holds a colon and the
    two numbers are written with at least one character, the stream route
    asked with that id as a series requests the episode's own endpoint:
    tv, the show's id, the season, the episode.  This holds in all three
    servers; the validated one does not refuse such an id. *)
Theorem episode_entry_leads_to_streams (prefix x : string) (sn en : val) :
  let a := Js.to_string sn in
  let b := Js.to_string en in
  let id := episode_id (prefix +:+ String ":" x) sn en in
  let endpoint := "https://www.cineby.app/api/v2/tv/" +:+ x +:+ "/" +:+ a +:+ "/" +:+ b in
  Text.occurs ":" prefix = false → Text.occurs ":" x = false →
  Text.occurs ":" a = false → Text.occurs ":" b = false →
  a ≠ "" → b ≠ "" →
  (∀ s, sent (Server.network (snd (Server.stream "series" id s)))
        = (sent (Server.network s) ++ [GET endpoint])%list)
  ∧ (∀ s, sent (Retry.network (snd (Retry.stream "series" id s)))
          = (sent (Retry.network s) ++ [GET endpoint])%list)
  ∧ (∀ s, sent (Production.network (snd (Production.stream "series" id s)))
          = (sent (Production.network s) ++ [GET endpoint])%list
          ∧ ∃ streams, fst (Production.stream "series" id s)
                       = Ok (Respond 200 (Streams streams))).
Proof.
  cbv zeta. intros Hp Hx Ha Hb Hna Hnb.
  assert (Hparts := split_composite prefix x _ _ Hp Hx Ha Hb).
  rewrite <- episode_id_text in Hparts.
  assert (Hend : ∀ endpoint,
            endpoint = (λ id mediaType season episode,
                          if String.eqb mediaType "movie"
                          then "https://www.cineby.app" +:+ "/api/v2/movie/" +:+ Js.to_string id
                          else "https://www.cineby.app" +:+ "/api/v2/tv/" +:+ Js.to_string id +:+
                               (if Js.truthy season && Js.truthy episode
                                then "/" +:+ Js.to_string season +:+ "/" +:+ Js.to_string episode
                                else EmptyString)) →
            endpoint (Js.at_index [prefix; x; Js.to_string sn; Js.to_string en] 1) "tv"
              (Js.at_index [prefix; x; Js.to_string sn; Js.to_string en] 2)
              (Js.at_index [prefix; x; Js.to_string sn; Js.to_string en] 3)
            = "https://www.cineby.app/api/v2/tv/" +:+ x +:+ "/" +:+ Js.to_string sn
                +:+ "/" +:+ Js.to_string en).
  { intros endpoint ->. cbn [Js.at_index lookup list_lookup String.eqb Ascii.eqb Bool.eqb].
    cbn [Js.to_string]. by rewrite (truthy_text _ Hna), (truthy_text _ Hnb). }
  split; [|split]; intros s.
  - rewrite (server_stream_run "series" (episode_id (prefix +:+ String ":" x) sn en) s).
    cbn [snd Server.network]. rewrite axios_get_sent, Hparts. do 3 f_equal.
    by apply Hend.
  - rewrite (retry_stream_run "series" (episode_id (prefix +:+ String ":" x) sn en) s).
    cbn [snd Retry.network]. rewrite axios_get_sent, Hparts. do 3 f_equal.
    by apply Hend.
  - rewrite (production_stream_accepted "series"
               (episode_id (prefix +:+ String ":" x) sn en) s).
    + cbn [fst snd Production.network]. rewrite axios_get_sent, Hparts.
      split; [|by eexists]. do 3 f_equal. by apply Hend.
    + reflexivity.
    + by rewrite Hparts.
    + rewrite Hparts. cbn [Js.at_index lookup list_lookup].
      by rewrite (truthy_text _ Hna), (truthy_text _ Hnb).
Qed.

Lemma episode_entry_leads_to_streams_witness :
  let id := episode_id "cineby:42" (Num 2) (Num 5) in
  id = "cineby:42:2:5"
  ∧ sent (Server.network (snd (Server.stream "series" id (Sample.server_at Sample.offline))))
    = [GET "https://www.cineby.app/api/v2/tv/42/2/5"]
  ∧ sent (Production.network
            (snd (Production.stream "series" id (Sample.production_at Sample.offline))))
    = [GET "https://www.cineby.app/api/v2/tv/42/2/5"].
Proof.
  cbv zeta. split; [reflexivity|].
  destruct (episode_entry_leads_to_streams "cineby" "42" (Num 2) (Num 5))
    as (Hserver & _ & Hproduction); try reflexivity; try discriminate.
  split; [exact (Hserver (Sample.server_at Sample.offline))|].
  exact (proj1 (Hproduction (Sample.production_at Sample.offline))).
Defined.

(** ** The retrying client *)

Lemma retry_getBuildId_hit (s : Retry.state) :
  Js.truthy (Retry.buildId (Retry.this s)) = true →
  clock (Retry.network s) - Retry.buildIdFetchedAt (Retry.this s) < 3600000 →
  Retry.getBuildId false s
  = (Ok (Retry.buildId (Retry.this s)),
     {| Retry.this := Retry.this s; Retry.network := Retry.network s;
        Retry.calls := (Retry.calls s ++ [Retry.GetBuildId false])%list |}).
Proof.
  intros Hid Hfresh. unfold Retry.getBuildId. plumb. rewrite Hid. cbn.
  change (3600 * 1000) with 3600000.
  destruct (Z.ltb_spec (clock (Retry.network s) - Retry.buildIdFetchedAt (Retry.this s))
              3600000); [reflexivity|lia].
Qed.

Lemma retry_getBuildId_miss (forceRefresh : bool) (s : Retry.state) :
  forceRefresh = true
  ∨ Js.truthy (Retry.buildId (Retry.this s)) = false
  ∨ 3600000 ≤ clock (Retry.network s) - Retry.buildIdFetchedAt (Retry.this s) →
  let homepage := GET (Retry.baseURL +:+ "/") in
  let found := Spec.homepage_id Pattern.match_nonempty default_config (Retry.baseURL +:+ "/")
                 (Retry.network s) in
  let c := match found with
           | Some id => {| Retry.buildId := Str id;
                           Retry.buildIdFetchedAt := clock (Retry.network s) |}
           | None => Retry.this s
           end in
  Retry.getBuildId forceRefresh s
  = (Ok (Retry.buildId c),
     {| Retry.this := c;
        Retry.network := snd (axios_get default_config homepage (Retry.network s));
        Retry.calls := (Retry.calls s ++ [Retry.GetBuildId forceRefresh])%list |}).
Proof.
  intros Hmiss. cbv zeta. unfold Spec.homepage_id, Retry.getBuildId. plumb.
  replace (negb forceRefresh && Js.truthy (Retry.buildId (Retry.this s))
           && (clock (Retry.network s) - Retry.buildIdFetchedAt (Retry.this s) <? 3600 * 1000))
    with false.
  2:{ change (3600 * 1000) with 3600000. destruct Hmiss as [-> | [-> | Hage]].
      - reflexivity.
      - by rewrite andb_false_r.
      - destruct (Z.ltb_spec (clock (Retry.network s)
                              - Retry.buildIdFetchedAt (Retry.this s)) 3600000); [lia|].
        by rewrite andb_false_r. }
  cbn.
  destruct (axios_get default_config (GET (Retry.baseURL +:+ "/")) (Retry.network s))
    as [[[st d]|e] n]; cbn; [|by destruct s].
  destruct (data_match Pattern.match_nonempty d) as [[id|]|e]; cbn; by destruct s.
Qed.

Lemma retry_run_fetch_state {A} path ps (project : payload → A) (s : Retry.state) :
  let rq := Request (Retry.baseURL +:+ "/_next/data/"
                       +:+ Js.to_string (Retry.buildId (Retry.this s)) +:+ path) ps in
  Retry.run (Retry.fetch path ps project) s
  = (match fst (axios_get default_config rq (Retry.network s)) with
     | Ok (_, data) => Ok (project data)
     | Throw e => Throw e
     end,
     {| Retry.this := Retry.this s;
        Retry.network := snd (axios_get default_config rq (Retry.network s));
        Retry.calls := (Retry.calls s ++ [Retry.Operation])%list |}).
Proof.
  cbv zeta. unfold Retry.run, Retry.fetch.
  by destruct (axios_get default_config _ (Retry.network s)) as [[[st d]|e] n].
Qed.

Lemma axios_get_rejected (rq : request) (n : net) (st : Z) (d : payload) :
  answer (upstream n (length (sent n)) rq) = Response st d →
  validateStatus default_config st = false →
  fst (axios_get default_config rq n)
  = Throw (Js.Error (Some st) (status_code st)
             ("Request failed with status code " +:+ Js.num_str st)).
Proof.
  intros Hanswer Hst. unfold axios_get. change (timed_out default_config _) with false.
  cbv iota. rewrite Hanswer. by rewrite Hst.
Qed.

Lemma retry_recovery_run {A} (path : string) (ps : list (string * val))
    (project : payload → A) (s : Retry.state) (st : Z) (d : payload) (fresh : string) :
  let n := Retry.network s in
  let first := Request (Retry.baseURL +:+ "/_next/data/"
                          +:+ Js.to_string (Retry.buildId (Retry.this s)) +:+ path) ps in
  let second := Request (Retry.baseURL +:+ "/_next/data/" +:+ fresh +:+ path) ps in
  let n1 := snd (axios_get default_config first n) in
  let n2 := snd (axios_get default_config (GET (Retry.baseURL +:+ "/")) n1) in
  Js.truthy (Retry.buildId (Retry.this s)) = true →
  clock n - Retry.buildIdFetchedAt (Retry.this s) < 3600000 →
  answer (upstream n (length (sent n)) first) = Response st d →
  st = 404 ∨ st = 500 →
  Spec.homepage_id Pattern.match_nonempty default_config (Retry.baseURL +:+ "/") n1
    = Some fresh →
  Retry._withBuildIdRetry (Retry.fetch path ps project) s
  = (Ok (match fst (axios_get default_config second n2) with
         | Ok (_, data) => Some (project data)
         | Throw _ => None
         end),
     {| Retry.this := {| Retry.buildId := Str fresh; Retry.buildIdFetchedAt := clock n1 |};
        Retry.network := snd (axios_get default_config second n2);
        Retry.calls := (Retry.calls s ++ [Retry.GetBuildId false; Retry.Operation;
                                          Retry.GetBuildId true; Retry.Operation])%list |}).
Proof.
  cbv beta zeta. intros Hid Hage Hanswer Hst Hfresh.
  unfold Retry._withBuildIdRetry.
  unfold bind at 1. rewrite (retry_getBuildId_hit s Hid Hage).
  unfold try_catch at 1. unfold bind at 1. rewrite retry_run_fetch_state. cbv zeta.
  cbn [Retry.this Retry.network Retry.calls fst snd].
  rewrite (axios_get_rejected _ _ st d Hanswer) by (by destruct Hst as [-> | ->]).
  replace (Retry.stale_status _) with true by (by destruct Hst as [-> | ->]).
  unfold bind at 1. rewrite retry_getBuildId_miss by (by left). cbv zeta.
  cbn [Retry.this Retry.network Retry.calls fst snd]. rewrite Hfresh.
  unfold try_catch, bind. rewrite retry_run_fetch_state. cbv zeta.
  cbn [Retry.this Retry.network Retry.calls Retry.buildId Js.to_string fst snd].
  rewrite <- !app_assoc. cbn [app].
  by destruct (fst (axios_get default_config _ _)) as [[st3 d3]|e3].
Qed.

(** X15: recovery from a stale build id.  The client holds a build id that
    is still fresh by the clock; the upstream answers the data request
    made with it by 404 or 500, and its homepage then shows the build id
    [fresh].  Then the wrapped listing sends exactly three requests: the
    data request with the old id, the homepage, and the same data request
    with the new id; the client ends with the new id, stamped with the
    time at which the refresh began; and the result is the body of the
    third answer, or null when that request fails as well. *)
Theorem retry_recovers_from_stale_buildId {A} (path : string) (ps : list (string * val))
    (project : payload → A) (s : Retry.state) (st : Z) (d : payload) (fresh : string) :
  let n := Retry.network s in
  let data_request b := Request (Retry.baseURL +:+ "/_next/data/" +:+ b +:+ path) ps in
  let first := data_request (Js.to_string (Retry.buildId (Retry.this s))) in
  let n1 := snd (axios_get default_config first n) in
  let homepage := GET (Retry.baseURL +:+ "/") in
  let n2 := snd (axios_get default_config homepage n1) in
  let r := Retry._withBuildIdRetry (Retry.fetch path ps project) s in
  Js.truthy (Retry.buildId (Retry.this s)) = true →
  clock n - Retry.buildIdFetchedAt (Retry.this s) < 3600000 →
  answer (upstream n (length (sent n)) first) = Response st d →
  st = 404 ∨ st = 500 →
  Spec.homepage_id Pattern.match_nonempty default_config (Retry.baseURL +:+ "/") n1
    = Some fresh →
  sent (Retry.network (snd r)) = (sent n ++ [first; homepage; data_request fresh])%list
  ∧ Retry.this (snd r) = {| Retry.buildId := Str fresh; Retry.buildIdFetchedAt := clock n1 |}
  ∧ fst r = Ok (match fst (axios_get default_config (data_request fresh) n2) with
                | Ok (_, data) => Some (project data)
                | Throw _ => None
                end).
Proof.
  cbv beta zeta. intros Hid Hage Hanswer Hst Hfresh.
  rewrite (retry_recovery_run path ps project s st d fresh Hid Hage Hanswer Hst Hfresh).
  cbn [fst snd Retry.this Retry.network].
  split; [|by split]. rewrite !axios_get_sent, <- !app_assoc. reflexivity.
Qed.

Lemma retry_recovers_from_stale_buildId_witness :
  let r := Retry.getTrending Sample.retry_stale in
  Js.truthy (Retry.buildId (Retry.this Sample.retry_stale)) = true
  ∧ List.map url (sent (Retry.network (snd r)))
    = [ "https://www.cineby.app/_next/data/old/en.json";
        "https://www.cineby.app/";
        "https://www.cineby.app/_next/data/new/en.json" ]
  ∧ Retry.this (snd r) = {| Retry.buildId := Str "new"; Retry.buildIdFetchedAt := 2030 |}
  ∧ fst r = Ok (Some [Sample.item 1 (Str "movie") "A film"]).
Proof.
  cbv zeta.
  assert (H1 : Js.truthy (Retry.buildId (Retry.this Sample.retry_stale)) = true)
    by reflexivity.
  destruct (retry_recovers_from_stale_buildId "/en.json" [] (Retry.items_of trending)
              Sample.retry_stale 404 NoData "new" H1)
    as (Hsent & Hthis & Hresult);
    [vm_compute; reflexivity|reflexivity|by left|vm_compute; reflexivity|].
  split; [exact H1|]. split; [|split].
  - unfold Retry.getTrending. rewrite Hsent. reflexivity.
  - exact Hthis.
  - exact Hresult.
Defined.

Lemma retry_getBuildId_sent (forceRefresh : bool) (s : Retry.state) :
  ∃ more, sent (Retry.network (snd (Retry.getBuildId forceRefresh s)))
          = (sent (Retry.network s) ++ more)%list.
Proof.
  destruct (negb forceRefresh && Js.truthy (Retry.buildId (Retry.this s))
            && (clock (Retry.network s) - Retry.buildIdFetchedAt (Retry.this s) <? 3600000))
    eqn:Hhit.
  - apply andb_prop in Hhit as [Hhit Hage]. apply andb_prop in Hhit as [Hforce Hid].
    destruct forceRefresh; [discriminate|]. apply Z.ltb_lt in Hage.
    rewrite retry_getBuildId_hit by done. exists []. cbn. by rewrite app_nil_r.
  - rewrite retry_getBuildId_miss.
    + eexists. cbn [snd Retry.network]. apply axios_get_sent.
    + destruct forceRefresh; [by left|right]. cbn in Hhit.
      destruct (Js.truthy (Retry.buildId (Retry.this s))); [right|by left].
      cbn in Hhit. by apply Z.ltb_ge in Hhit.
Qed.

Lemma retry_attempt_sent {A} path ps (project : payload → A) (handler : Js.error → M Retry.state (option A))
    (s : Retry.state) :
  (∀ e s0, ∃ more, sent (Retry.network (snd (handler e s0)))
                   = (sent (Retry.network s0) ++ more)%list) →
  ∃ more,
    sent (Retry.network
            (snd (try_catch (await v := Retry.run (Retry.fetch path ps project) in ret (Some v))
                    handler s)))
    = (sent (Retry.network s)
       ++ Request (Retry.baseURL +:+ "/_next/data/"
                     +:+ Js.to_string (Retry.buildId (Retry.this s)) +:+ path) ps
          :: more)%list.
Proof.
  intros Hhandler. unfold try_catch, bind. rewrite retry_run_fetch_state. cbv zeta.
  destruct (fst (axios_get default_config _ _)) as [[st d]|e].
  - exists []. unfold ret. cbn [snd Retry.network]. apply axios_get_sent.
  - match goal with |- context [handler e ?s0] => destruct (Hhandler e s0) as [more ->] end.
    exists more. cbn [Retry.network]. rewrite axios_get_sent, <- app_assoc. reflexivity.
Qed.

(** X16: the retrying client asks for data even when it has no build id.
    When the client holds no usable build id and the homepage does not
    yield one, the wrapped listing still sends its data request, with the
    text of the missing id in the path (null for a new client), right
    after the request for the homepage. *)
Theorem retry_requests_without_buildId {A} (path : string) (ps : list (string * val))
    (project : payload → A) (s : Retry.state) :
  Js.truthy (Retry.buildId (Retry.this s)) = false →
  Spec.homepage_id Pattern.match_nonempty default_config (Retry.baseURL +:+ "/")
    (Retry.network s) = None →
  ∃ more,
    sent (Retry.network (snd (Retry._withBuildIdRetry (Retry.fetch path ps project) s)))
    = (sent (Retry.network s)
       ++ [ GET (Retry.baseURL +:+ "/");
            Request (Retry.baseURL +:+ "/_next/data/"
                       +:+ Js.to_string (Retry.buildId (Retry.this s)) +:+ path) ps ]
       ++ more)%list.
Proof.
  intros Hid Hhome. unfold Retry._withBuildIdRetry. unfold bind at 1.
  rewrite retry_getBuildId_miss by (right; by left). cbv zeta. rewrite Hhome.
  match goal with
  | |- context [try_catch ?body ?handler ?s0] =>
      destruct (retry_attempt_sent path ps project handler s0) as [more Hmore]
  end.
  - intros e s0. destruct (Retry.stale_status e); [|exists []; cbn; by rewrite app_nil_r].
    unfold bind at 1.
    destruct (retry_getBuildId_sent true s0) as [more1 Hmore1].
    destruct (Retry.getBuildId true s0) as [[v|e1] s1]; cbn [snd] in *; [|by exists more1].
    destruct (retry_attempt_sent path ps project (λ err2, ret None) s1) as [more2 ->].
    + intros e2 s2. exists []. cbn. by rewrite app_nil_r.
    + rewrite Hmore1, <- app_assoc. by eexists.
  - exists more. rewrite Hmore. cbn [Retry.network Retry.this].
    rewrite axios_get_sent, <- app_assoc. reflexivity.
Qed.

Lemma retry_requests_without_buildId_witness :
  Js.truthy (Retry.buildId (Retry.this (Sample.retry_at Sample.offline))) = false
  ∧ ∃ more,
      List.map url
        (sent (Retry.network (snd (Retry.getTrending (Sample.retry_at Sample.offline)))))
      = ([ "https://www.cineby.app/"; "https://www.cineby.app/_next/data/null/en.json" ]
         ++ List.map url more)%list.
Proof.
  assert (H1 : Js.truthy (Retry.buildId (Retry.this (Sample.retry_at Sample.offline)))
               = false) by reflexivity.
  split; [exact H1|].
  destruct (retry_requests_without_buildId "/en.json" [] (Retry.items_of trending)
              (Sample.retry_at Sample.offline) H1) as [more Hmore]; [reflexivity|].
  exists more. unfold Retry.getTrending. rewrite Hmore. reflexivity.
Defined.

(** ** The window of the trending catalog *)

Lemma slice_first_20 {A} (l : list A) : Js.slice 0 20 l = take 20 l.
Proof.
  unfold Js.slice, Js.clamp_index.
  destruct (Z.ltb_spec 0 0); [lia|]. destruct (Z.ltb_spec 20 0); [lia|].
  replace (Z.to_nat (Z.min 0 (Z.of_nat (length l)))) with 0%nat by lia.
  rewrite drop_0.
  destruct (Z.le_gt_cases 20 (Z.of_nat (length l))).
  - f_equal. lia.
  - rewrite !take_ge by lia. reflexivity.
Qed.

Lemma slice_from {A} (a : Z) (l : list A) :
  0 ≤ a →
  Js.slice a (100 * a + 20) l = take (Z.to_nat (99 * a + 20)) (drop (Z.to_nat a) l).
Proof.
  intros Hpos. unfold Js.slice, Js.clamp_index.
  destruct (Z.ltb_spec a 0); [lia|]. destruct (Z.ltb_spec (100 * a + 20) 0); [lia|].
  destruct (Z.le_gt_cases (Z.of_nat (length l)) a) as [Hshort|Hlong].
  - rewrite !drop_ge by lia. by rewrite !take_nil.
  - replace (Z.to_nat (Z.min a (Z.of_nat (length l)))) with (Z.to_nat a) by lia.
    destruct (Z.le_gt_cases (100 * a + 20) (Z.of_nat (length l))).
    + f_equal. lia.
    + rewrite !take_ge; [done|rewrite length_drop; lia..].
Qed.

Lemma retry_trending_catalog (rt : Runtime) (type id : string) (query : Retry.Query)
    (s s' : Retry.state) (trending_items : list Item) :
  id = "cineby-trending-movies" ∨ id = "cineby-trending-series" →
  Js.truthy (Retry.query_val (Retry.query_search query)) = false →
  Retry.getTrending s = (Ok (Some trending_items), s') →
  Retry.catalog type id query s
  = (Ok (Respond 200
           (Metas (List.map Retry.transformToStremioMeta
                     (Js.slice (Retry.slice_bounds (Retry.query_skip query)).1
                        (Retry.slice_bounds (Retry.query_skip query)).2
                        (List.filter (λ item, Js.is_str (mediaType item) (mediaType_of type))
                           trending_items))))),
     s').
Proof.
  intros Hid Hsearch Htrending. unfold Retry.catalog. rewrite Hsearch.
  replace (String.eqb id "cineby-trending-movies" || String.eqb id "cineby-trending-series")
    with true by (by destruct Hid as [-> | ->]).
  unfold try_catch, bind. rewrite Htrending. cbn [Retry.array_of]. unfold ret.
  by destruct (Retry.slice_bounds (Retry.query_skip query)).
Qed.

(** X17: the window of the trending catalog of the retrying server.
    Without a skip parameter the catalog lists the first 20 matching
    items.  With one, the parameter is text, so the end of the window is
    the number read from that text followed by the digits 2 and 0.  For a
    skip that reads as [a] (at least 0), and whose text followed by 20
    reads as [100 * a + 20], the window starts at item [a] and holds up to
    [99 * a + 20] items: 20 for a skip of 0, more for any larger one. *)
Theorem retry_trending_window (rt : Runtime) (type id : string) (query : Retry.Query)
    (s s' : Retry.state) (trending_items : list Item) :
  id = "cineby-trending-movies" ∨ id = "cineby-trending-series" →
  Js.truthy (Retry.query_val (Retry.query_search query)) = false →
  Retry.getTrending s = (Ok (Some trending_items), s') →
  let matching := List.filter (λ item, Js.is_str (mediaType item) (mediaType_of type))
                    trending_items in
  (Retry.query_skip query = None →
   Retry.catalog type id query s
   = (Ok (Respond 200 (Metas (List.map Retry.transformToStremioMeta (take 20 matching)))), s'))
  ∧ (∀ skip a,
       Retry.query_skip query = Some skip →
       Js.toNumber skip = Some a → Js.toNumber (skip +:+ "20") = Some (100 * a + 20) →
       0 ≤ a →
       ∃ metas,
         Retry.catalog type id query s = (Ok (Respond 200 (Metas metas)), s')
         ∧ metas = List.map Retry.transformToStremioMeta
                     (take (Z.to_nat (99 * a + 20)) (drop (Z.to_nat a) matching))
         ∧ length metas
           = Nat.min (Z.to_nat (99 * a + 20)) (length matching - Z.to_nat a)).
Proof.
  intros Hid Hsearch Htrending. cbv zeta.
  rewrite (retry_trending_catalog rt type id query s s' trending_items Hid Hsearch Htrending).
  split.
  - intros ->. cbn [Retry.slice_bounds fst snd]. by rewrite slice_first_20.
  - intros skip a -> Ha Hb Hpos. cbn [Retry.slice_bounds]. rewrite Ha, Hb. cbn [default fst snd].
    rewrite slice_from by done. eexists. split; [reflexivity|]. split; [reflexivity|].
    rewrite length_map, length_take, length_drop. reflexivity.
Qed.

Lemma retry_trending_window_witness :
  let s := Sample.retry_at (Sample.site "abc123" (Response 200 Sample.trending_feed)) in
  let query := {| Retry.query_search := None; Retry.query_skip := Some "20";
                  Retry.query_genre := None |} in
  Js.toNumber (Runtime := Sample.plain_runtime) "20" = Some 20
  ∧ Js.toNumber (Runtime := Sample.plain_runtime) ("20" +:+ "20") = Some (100 * 20 + 20)
  ∧ ∃ metas,
      fst (Retry.catalog (H := Sample.plain_runtime) "movie" "cineby-trending-movies" query s)
      = Ok (Respond 200 (Metas metas))
      ∧ length metas = 25%nat.
Proof.
  cbv zeta.
  assert (H1 : Js.toNumber (Runtime := Sample.plain_runtime) "20" = Some 20) by reflexivity.
  assert (H2 : Js.toNumber (Runtime := Sample.plain_runtime) ("20" +:+ "20")
               = Some (100 * 20 + 20)) by reflexivity.
  split; [exact H1|]. split; [exact H2|].
  set (s := Sample.retry_at (Sample.site "abc123" (Response 200 Sample.trending_feed))).
  destruct (Retry.getTrending s) as [r s'] eqn:Hrun.
  assert (Hr : r = Ok (Some (Sample.item 100 (Str "tv") "A show" :: Sample.trending_films))).
  { change r with (fst (r, s')). rewrite <- Hrun. vm_compute. reflexivity. }
  subst r.
  destruct (proj2 (retry_trending_window Sample.plain_runtime "movie" "cineby-trending-movies"
                     {| Retry.query_search := None; Retry.query_skip := Some "20";
                        Retry.query_genre := None |}
                     s s' _ (or_introl eq_refl) eq_refl Hrun)
              "20" 20 eq_refl H1 H2 ltac:(lia)) as (metas & Hcatalog & _ & Hlength).
  exists metas. rewrite Hcatalog. split; [reflexivity|].
  rewrite Hlength. vm_compute. reflexivity.
Defined.

(** ** What the routes return *)

Section Yielding.
Context {S : Type}.

Lemma yields_ret {A} (Q : A → Prop) (a : A) : Q a → Kept.yields (S := S) Q (ret a).
Proof. intros Ha s a' [= <-]. exact Ha. Qed.

Lemma yields_throw {A} (Q : A → Prop) (e : Js.error) : Kept.yields (S := S) Q (throw e).
Proof. intros s a. discriminate. Qed.

Lemma yields_bind {A B} (R : A → Prop) (Q : B → Prop) (m : M S A) (k : A → M S B) :
  Kept.yields R m → (∀ a, R a → Kept.yields Q (k a)) → Kept.yields Q (bind m k).
Proof.
  intros Hm Hk s b. unfold bind. specialize (Hm s).
  destruct (m s) as [[a|e] s']; cbn in *; [|discriminate].
  apply Hk. by apply Hm.
Qed.

Lemma yields_any {A} (m : M S A) : Kept.yields (λ _, True) m.
Proof. by intros s a _. Qed.

Lemma yields_then {A B} (Q : B → Prop) (m : M S A) (k : A → M S B) :
  (∀ a, Kept.yields Q (k a)) → Kept.yields Q (bind m k).
Proof. intros Hk. apply (yields_bind (λ _, True)); [apply yields_any|auto]. Qed.

Lemma yields_answers {A} (Q : A → Prop) (body : M S A) (fallback : A) :
  Kept.yields Q body → Q fallback →
  ∀ s, ∃ a, fst (try_catch body (λ _, ret fallback) s) = Ok a ∧ Q a.
Proof.
  intros Hbody Hfallback s. unfold try_catch. specialize (Hbody s).
  destruct (body s) as [[a|e] s']; cbn in *; [|by exists fallback].
  exists a. split; [done|]. by apply Hbody.
Qed.

End Yielding.

Ltac yielding :=
  repeat first
    [ apply yields_throw
    | apply yields_ret
    | apply yields_then; intros ?
    | match goal with
      | |- Kept.yields _ (if ?b then _ else _) => destruct b
      | |- Kept.yields _ (match ?x with _ => _ end) => destruct x
      end ].

(** X18: the retrying server never reports a failure.  Each of its three
    routes answers with status 200 whatever the request is and whatever
    the upstream does: a failure shows only as an empty answer. *)
Theorem retry_routes_answer_200 (rt : Runtime) (type id : string) :
  (∀ query s, ∃ r, fst (Retry.catalog type id query s) = Ok r ∧ status r = 200)
  ∧ (∀ s, ∃ r, fst (Retry.meta type id s) = Ok r ∧ status r = 200)
  ∧ (∀ s, ∃ r, fst (Retry.stream type id s) = Ok r ∧ status r = 200).
Proof.
  repeat split.
  - intros query. apply yields_answers; [|reflexivity]. yielding; reflexivity.
  - apply yields_answers; [|reflexivity]. yielding; reflexivity.
  - intros s. rewrite retry_stream_run. cbv zeta.
    destruct (Kept.sources_read _) as [srcs|]; [|by eexists].
    destruct (map_sources stream_of srcs); by eexists.
Qed.

(** X19: the status codes of [server.js].  Every request is answered: a
    catalog request with 200 or 500, a meta request with 200, 404 or 500,
    a stream request with 200 or 500; no route answers 400.  A stream
    request whose upstream request fails, or is answered by a body without
    [sources], is answered 200 with no streams; one whose upstream answer
    has [sources] that is not an array, or an array with a [null] entry,
    is answered 500. *)
Theorem server_status_codes (rt : Runtime) (type id : string) :
  let parts := Js.split ":" id in
  let endpoint := Server.stream_endpoint (Js.at_index parts 1) (mediaType_of type)
                    (Js.at_index parts 2) (Js.at_index parts 3) in
  let read s := Kept.sources_read
                  (Kept.body_read
                     (fst (axios_get default_config (GET endpoint) (Server.network s)))) in
  (∀ extra s, ∃ r, fst (Server.catalog type id extra s) = Ok r
                   ∧ (status r = 200 ∨ status r = 500))
  ∧ (∀ s, ∃ r, fst (Server.meta type id s) = Ok r
               ∧ (status r = 200 ∨ status r = 404 ∨ status r = 500))
  ∧ (∀ s, ∃ r, fst (Server.stream type id s) = Ok r
               ∧ (status r = 200 ∨ status r = 500))
  ∧ (∀ s, read s = None → fst (Server.stream type id s) = Ok (json (Streams [])))
  ∧ (∀ s, read s = Some NotArray →
          fst (Server.stream type id s)
          = Ok (status_json 500 (ErrorBody "Failed to fetch streams")))
  ∧ (∀ s entries,
       read s = Some (Array entries) → None ∈ entries →
       fst (Server.stream type id s)
       = Ok (status_json 500 (ErrorBody "Failed to fetch streams"))).
Proof.
  cbv zeta. split; [|split; [|split; [|split; [|split]]]].
  - intros extra. apply yields_answers; [|by right].
    destruct (Server.parse_extra extra) as [[search_ skip] genre]. yielding; by left.
  - apply yields_answers; [|by right; right]. yielding; cbn; auto.
  - intros s. rewrite server_stream_run. cbv zeta.
    destruct (Kept.sources_read _) as [srcs|]; [|eexists; split; [reflexivity|by left]].
    destruct (map_sources stream_of srcs); eexists; (split; [reflexivity|]);
      [by left|by right].
  - intros s Hread. rewrite server_stream_run. cbv zeta. by rewrite Hread.
  - intros s Hread. rewrite server_stream_run. cbv zeta. by rewrite Hread.
  - intros s entries Hread Hnull. rewrite server_stream_run. cbv zeta. rewrite Hread.
    unfold map_sources. by destruct (map_from_null stream_of 0 entries Hnull) as [error ->].
Qed.

Lemma server_status_codes_witness :
  let page v := Json {| pageProps := None; sources := Some v |} in
  fst (Server.stream "movie" "cineby:7"
         (Sample.server_at (Sample.always 200 (page (Array [None])))))
  = Ok (status_json 500 (ErrorBody "Failed to fetch streams"))
  ∧ fst (Server.stream "movie" "cineby:7" (Sample.server_at (Sample.always 200 (page NotArray))))
    = Ok (status_json 500 (ErrorBody "Failed to fetch streams"))
  ∧ fst (Server.stream "movie" "cineby:7" (Sample.server_at Sample.offline))
    = Ok (json (Streams [])).
Proof.
  cbv zeta.
  destruct (server_status_codes Sample.plain_runtime "movie" "cineby:7")
    as (_ & _ & _ & Hnone & Hother & Hnull).
  split; [|split].
  - apply (Hnull _ [None]); [vm_compute; reflexivity|]. apply elem_of_cons. by left.
  - apply Hother. vm_compute. reflexivity.
  - apply Hnone. vm_compute. reflexivity.
Defined.

(** X20: the status codes of the route handlers of the validated server.
    A handler answers every request that reaches it: a catalog or meta
    request with 200, 400, 404 or 500, a stream request with 200, 400 or
    500.  The answer is 400 exactly when
    the route refuses the request before any lookup: a catalog request
    whose type is neither movie nor series; a meta request with such a
    type or with an id that does not start with the prefix; a stream
    request with such a type, with an id of fewer than two parts, or for a
    series without season or episode. *)
Theorem production_status_codes (rt : Runtime) (type id : string) :
  let parts := Js.split ":" id in
  let incomplete :=
    String.eqb type "series"
    && (negb (Js.truthy (Js.at_index parts 2)) || negb (Js.truthy (Js.at_index parts 3))) in
  (∀ extra s, ∃ r, fst (Production.catalog type id extra s) = Ok r
                   ∧ (status r = 200 ∨ status r = 400 ∨ status r = 404 ∨ status r = 500)
                   ∧ (status r = 400 ↔ Production.valid_type type = false))
  ∧ (∀ s, ∃ r, fst (Production.meta type id s) = Ok r
               ∧ (status r = 200 ∨ status r = 400 ∨ status r = 404 ∨ status r = 500)
               ∧ (status r = 400
                  ↔ Production.valid_type type = false ∨ Js.startsWith "cineby:" id = false))
  ∧ (∀ s, ∃ r, fst (Production.stream type id s) = Ok r
               ∧ (status r = 200 ∨ status r = 400 ∨ status r = 500)
               ∧ (status r = 400
                  ↔ Production.valid_type type = false ∨ (length parts <? 2)%nat = true
                    ∨ incomplete = true)).
Proof.
  cbv zeta. split; [|split].
  - intros extra s. unfold Production.catalog.
    destruct (Production.valid_type type) eqn:Htype; cbn [negb].
    + match goal with
      | |- ∃ r, fst (try_catch ?body _ s) = Ok r ∧ _ =>
          assert (Hbody : Kept.yields
                            (λ r, status r = 200 ∨ status r = 404 ∨ status r = 500) body)
      end.
      { destruct (Production.parse_extra extra) as [[search_ skip] genre].
        cbv beta iota zeta. yielding; cbn; auto. }
      destruct (yields_answers _ _ (status_json 500 (ErrorBody "Internal server error"))
                  Hbody (or_intror (or_intror eq_refl)) s) as (r & Hr & Hstatus).
      exists r. split; [exact Hr|]. split; [tauto|].
      split; [|discriminate]. intros H400.
      destruct Hstatus as [H|[H|H]]; rewrite H in H400; discriminate.
    + eexists. split; [reflexivity|]. cbn. split; [auto|]. by split.
  - intros s. unfold Production.meta.
    destruct (Production.valid_type type) eqn:Htype; cbn [negb];
      [|eexists; split; [reflexivity|]; cbn; split; [auto|]; split; auto].
    destruct (Js.startsWith "cineby:" id) eqn:Hid; cbn [negb];
      [|eexists; split; [reflexivity|]; cbn; split; [auto|]; split; auto].
    match goal with
    | |- ∃ r, fst (try_catch ?body _ s) = Ok r ∧ _ =>
        assert (Hbody : Kept.yields
                          (λ r, status r = 200 ∨ status r = 404 ∨ status r = 500) body)
    end.
    { cbv beta iota zeta. yielding; cbn; auto. }
    destruct (yields_answers _ _ (status_json 500 (ErrorBody "Internal server error"))
                Hbody (or_intror (or_intror eq_refl)) s) as (r & Hr & Hstatus).
    exists r. split; [exact Hr|]. split; [tauto|].
    split; [|intros [?|?]; discriminate]. intros H400.
    destruct Hstatus as [H|[H|H]]; rewrite H in H400; discriminate.
  - intros s.
    destruct (Production.valid_type type) eqn:Htype;
      [|unfold Production.stream; rewrite Htype; eexists; split; [reflexivity|]; cbn;
        split; [auto|]; split; auto].
    destruct (length (Js.split ":" id) <? 2)%nat eqn:Hparts;
      [unfold Production.stream; rewrite Htype, Hparts; eexists; split; [reflexivity|]; cbn;
       split; [auto|]; split; auto|].
    destruct (String.eqb type "series"
              && (negb (Js.truthy (Js.at_index (Js.split ":" id) 2))
                  || negb (Js.truthy (Js.at_index (Js.split ":" id) 3)))) eqn:Hseries;
      [unfold Production.stream; rewrite Htype, Hparts, Hseries; eexists;
       split; [reflexivity|]; cbn; split; [auto|]; split; auto|].
    rewrite (production_stream_accepted type id s Htype Hparts Hseries).
    eexists. split; [reflexivity|]. cbn. split; [auto|].
    split; [discriminate|]. intros [?|[?|?]]; discriminate.
Qed.

Lemma production_status_codes_witness :
  let s := Sample.production_at Sample.offline in
  (∃ r, fst (Production.stream "film" "cineby:7" s) = Ok r ∧ status r = 400)
  ∧ (∃ r, fst (Production.stream "movie" "cineby" s) = Ok r ∧ status r = 400)
  ∧ (∃ r, fst (Production.stream "series" "cineby:7:1" s) = Ok r ∧ status r = 400)
  ∧ (∃ r, fst (Production.stream "series" "cineby:7:1:2" s) = Ok r ∧ status r ≠ 400)
  ∧ (∃ r, fst (Production.meta "movie" "7" s) = Ok r ∧ status r = 400).
Proof.
  cbv zeta. split; [|split; [|split; [|split]]].
  - destruct (production_status_codes Sample.plain_runtime "film" "cineby:7") as (_ & _ & Hs).
    destruct (Hs (Sample.production_at Sample.offline)) as (r & Hr & _ & H400).
    exists r. split; [exact Hr|]. apply H400. by left.
  - destruct (production_status_codes Sample.plain_runtime "movie" "cineby") as (_ & _ & Hs).
    destruct (Hs (Sample.production_at Sample.offline)) as (r & Hr & _ & H400).
    exists r. split; [exact Hr|]. apply H400. right. by left.
  - destruct (production_status_codes Sample.plain_runtime "series" "cineby:7:1")
      as (_ & _ & Hs).
    destruct (Hs (Sample.production_at Sample.offline)) as (r & Hr & _ & H400).
    exists r. split; [exact Hr|]. apply H400. right. by right.
  - destruct (production_status_codes Sample.plain_runtime "series" "cineby:7:1:2")
      as (_ & _ & Hs).
    destruct (Hs (Sample.production_at Sample.offline)) as (r & Hr & _ & H400).
    exists r. split; [exact Hr|]. intros H. apply H400 in H as [H|[H|H]]; discriminate H.
  - destruct (production_status_codes Sample.plain_runtime "movie" "7") as (_ & Hm & _).
    destruct (Hm (Sample.production_at Sample.offline)) as (r & Hr & _ & H400).
    exists r. split; [exact Hr|]. apply H400. by right.
Defined.

Lemma for_of_Forall {A B} (P : B → Prop) (body : A → result (list B)) (l : list A)
    (out : list B) :
  (∀ x pushed, body x = Ok pushed → Forall P pushed) →
  for_of body l = Ok out → Forall P out.
Proof.
  intros Hbody. revert out. induction l as [|x l IH]; intros out; cbn.
  - intros [= <-]. constructor.
  - destruct (body x) as [pushed|e] eqn:Hx; cbn; [|discriminate].
    destruct (for_of body l) as [more|e]; cbn; [|discriminate].
    intros [= <-]. apply Forall_app. split; [by eapply Hbody|by apply IH].
Qed.

Lemma server_video_entry_episode (id : string) (s : Season) (e : Episode) pushed :
  Server.video_entry id s e = Ok pushed → Forall (Kept.episode_of id) pushed.
Proof.
  unfold Server.video_entry. destruct (episode_title _ _ _); cbn; [|discriminate].
  intros [= <-]. by repeat constructor.
Qed.

Lemma retry_video_entry_episode (id : string) (s : Season) (e : Episode) pushed :
  Retry.video_entry id s e = Ok pushed → Forall (Kept.episode_of id) pushed.
Proof.
  unfold Retry.video_entry. destruct (episode_title _ _ _); cbn; [|discriminate].
  intros [= <-]. by repeat constructor.
Qed.

Lemma production_video_entry_episode (id : string) (s : Season) (e : Episode) pushed :
  Production.video_entry id s e = Ok pushed → Forall (Kept.episode_of id) pushed.
Proof.
  unfold Production.video_entry.
  destruct (Js.truthy (episode_number e) && Js.truthy (episode_name e));
    [|intros [= <-]; constructor].
  destruct (episode_title _ _ _); cbn; [|discriminate].
  intros [= <-]. by repeat constructor.
Qed.

Lemma videos_yield {S} (type id : string) (videos_of : string → Season → result (list Video))
    (listed : option (list Season)) :
  (∀ s pushed, videos_of id s = Ok pushed → Forall (Kept.episode_of id) pushed) →
  Kept.yields (S := S)
    (λ vs, (type ≠ "series" → vs = None) ∧ Forall (Kept.episode_of id) (default [] vs))
    (match String.eqb type "series", listed with
     | true, Some ss => await l := lift (for_of (videos_of id) ss) in ret (Some l)
     | _, _ => ret None
     end).
Proof.
  intros Hvideos.
  destruct (String.eqb_spec type "series") as [->|Htype], listed as [ss|];
    try (apply yields_ret; split; [done|constructor]).
  intros s vs. unfold bind, lift, ret.
  destruct (for_of (videos_of id) ss) as [l|e] eqn:Hl; cbn; [|discriminate].
  intros [= <-]. split; [done|]. cbn. by eapply for_of_Forall.
Qed.

Lemma meta_for_other (type id : string) (code : Z) (b : body) :
  (∀ m, b ≠ MetaOf m) → Kept.meta_for type id (Respond code b).
Proof. intros Hb m Hm. cbn in Hm. by destruct (Hb m). Qed.

Lemma meta_for_answer (type id : string) (summary : Meta) (runtime : val)
    (vs : option (list Video)) :
  meta_id summary = id → meta_type summary = type →
  (type ≠ "series" → vs = None) ∧ Forall (Kept.episode_of id) (default [] vs) →
  Kept.meta_for type id
    (json (MetaOf {| summary := summary; meta_runtime := runtime; videos := vs |})).
Proof. intros Hid Htype [Hseries Hvideos] m [= <-]. by cbn. Qed.

(** X21: a meta answer belongs to its request.  In all three servers every
    answer of the meta route that carries a meta echoes the id and the
    type of the request; it lists episodes only when the type is series;
    and the id of every episode it lists is the id of the request followed
    by that entry's own season and episode, which is the form the stream
    route takes apart. *)
Theorem meta_answers_its_request (type id : string) :
  (∀ s, ∃ r, fst (Server.meta type id s) = Ok r ∧ Kept.meta_for type id r)
  ∧ (∀ s, ∃ r, fst (Production.meta type id s) = Ok r ∧ Kept.meta_for type id r)
  ∧ (∀ s, ∃ r, fst (Retry.meta type id s) = Ok r ∧ Kept.meta_for type id r).
Proof.
  split; [|split].
  - apply yields_answers; [|by apply meta_for_other].
    apply yields_then. intros [props|]; [|apply yields_ret; by apply meta_for_other].
    eapply yields_bind.
    + apply (videos_yield type id Server.season_videos).
      intros s pushed. unfold Server.season_videos. destruct (episodes s) as [es|].
      * apply for_of_Forall, server_video_entry_episode.
      * intros [= <-]. constructor.
    + intros vs Hvs. apply yields_ret. by apply meta_for_answer.
  - apply yields_answers; [|by apply meta_for_other].
    destruct (negb (Production.valid_type type));
      [apply yields_ret; by apply meta_for_other|].
    destruct (negb (Js.startsWith "cineby:" id));
      [apply yields_ret; by apply meta_for_other|].
    apply yields_then. intros [props|]; [|apply yields_ret; by apply meta_for_other].
    eapply yields_bind.
    + apply (videos_yield type id Production.season_videos).
      intros s pushed. unfold Production.season_videos. destruct (episodes s) as [es|].
      * apply for_of_Forall, production_video_entry_episode.
      * intros [= <-]. constructor.
    + intros vs Hvs. apply yields_ret. by apply meta_for_answer.
  - apply yields_answers; [|by apply meta_for_other].
    apply yields_then. intros [props|]; [|apply yields_ret; by apply meta_for_other].
    eapply yields_bind.
    + apply (videos_yield type id Retry.season_videos).
      intros s pushed. unfold Retry.season_videos. destruct (episodes s) as [es|].
      * apply for_of_Forall, retry_video_entry_episode.
      * intros [= <-]. constructor.
    + intros vs Hvs. apply yields_ret. by apply meta_for_answer.
Qed.

(** ** The requests behind a catalog *)

Lemma server_listing_state path ps field (s : Server.state) :
  snd (Server.listing path ps field s)
  = {| Server.this := Server.this s;
       Server.network :=
         snd (axios_get default_config
                (Request (Server.baseURL +:+ "/_next/data/"
                            +:+ Js.to_string (Server.buildId (Server.this s)) +:+ path) ps)
                (Server.network s)) |}.
Proof.
  unfold Server.listing, Server.get, Server.data_url. plumb.
  destruct (axios_get default_config _ _) as [[[st d]|e] n]; cbn; [|done].
  by destruct (pageProps_of d ≫= field).
Qed.

Lemma production_listing_state path ps field (s : Production.state) :
  let s1 := snd (Production.getBuildId s) in
  snd (Production.listing path ps field s)
  = {| Production.this := Production.this s1;
       Production.network :=
         snd (axios_get Production.axiosConfig
                (Request (Production.baseURL +:+ "/_next/data/"
                            +:+ Js.to_string (Production.buildId (Production.this s1))
                            +:+ path) ps)
                (Production.network s1)) |}.
Proof.
  cbv zeta. unfold Production.listing. unfold bind at 1.
  destruct (production_getBuildId_returns s) as (c & n & ->). cbn [snd].
  unfold bind at 1. unfold Production.data_url, gets. unfold bind.
  rewrite makeRequest_run. cbv zeta. cbn [Production.this Production.network].
  by destruct (pageProps_of _ ≫= field).
Qed.

Lemma production_skip_nonnegative (rt : Runtime) (extra : option string) :
  0 ≤ (Production.parse_extra extra).1.2.
Proof.
  unfold Production.parse_extra. destruct extra as [e|]; [|done].
  destruct (String.eqb e ""); [done|]. cbn. lia.
Qed.



(** ** The build id of [server.js] *)

Lemma server_getBuildId_state (s : Server.state) :
  snd (Server.getBuildId s)
  = {| Server.this :=
         match Spec.homepage_id Pattern.match_nonempty default_config (Server.baseURL +:+ "/")
                 (Server.network s) with
         | Some id => {| Server.buildId := Str id |}
         | None => Server.this s
         end;
       Server.network := snd (axios_get default_config (GET (Server.baseURL +:+ "/"))
                                (Server.network s)) |}.
Proof.
  unfold Spec.homepage_id, Server.getBuildId, Server.get. plumb.
  change (Request ?u []) with (GET u).
  destruct (axios_get default_config _ _) as [[[st d]|e] n]; cbn; [|by destruct s].
  destruct (data_match Pattern.match_nonempty d) as [[id|]|e]; cbn; by destruct s.
Qed.

Lemma data_url_not_homepage (b path : string) :
  "https://www.cineby.app" +:+ "/_next/data/" +:+ b +:+ path ≠ "https://www.cineby.app" +:+ "/".
Proof. intros H. vm_compute in H. discriminate. Qed.

Lemma stream_endpoint_not_homepage (id : val) (mediaType : string) (season episode : val) :
  Server.stream_endpoint id mediaType season episode ≠ "https://www.cineby.app" +:+ "/".
Proof.
  unfold Server.stream_endpoint. intros H.
  destruct (String.eqb mediaType "movie"); vm_compute in H; discriminate.
Qed.

Lemma server_catalog_state (rt : Runtime) (type id : string) (extra : option string)
    (s : Server.state) :
  snd (Server.catalog type id extra s) = s
  ∨ ∃ path ps field, snd (Server.catalog type id extra s) = snd (Server.listing path ps field s).
Proof.
  unfold Server.catalog. destruct (Server.parse_extra extra) as [[search_ skip] genre].
  unfold try_catch, bind, Server.search, Server.getTrending, Server.getMovies,
    Server.getTVShows.
  repeat match goal with
         | |- context [if ?b then _ else _] => destruct b
         end;
    try (by left);
    match goal with
    | |- context [Server.listing ?path ?ps ?field s] =>
        right; exists path, ps, field;
        destruct (server_listing_returns path ps field s) as (items & s' & ->)
    end;
    reflexivity.
Qed.

(** X23: [server.js] refreshes its build id only when [getBuildId] is
    called, which the routes never do.  [getBuildId] always sends one
    request for the homepage (it has no cache) and replaces the build id
    exactly when the page shows one.  A catalog, meta or stream request
    leaves the build id as it is and sends at most one request, never for
    the homepage: a build id that went stale stays in use. *)
Theorem server_buildId_is_never_refreshed (rt : Runtime) :
  let quiet (before after : Server.state) :=
    Server.this after = Server.this before
    ∧ ∃ new, sent (Server.network after) = (sent (Server.network before) ++ new)%list
             ∧ (length new ≤ 1)%nat
             ∧ Forall (λ rq, url rq ≠ Server.baseURL +:+ "/") new in
  (∀ s, let s' := snd (Server.getBuildId s) in
        sent (Server.network s')
        = (sent (Server.network s) ++ [GET (Server.baseURL +:+ "/")])%list
        ∧ Server.this s'
          = match Spec.homepage_id Pattern.match_nonempty default_config
                    (Server.baseURL +:+ "/") (Server.network s) with
            | Some id => {| Server.buildId := Str id |}
            | None => Server.this s
            end)
  ∧ (∀ type id extra s, quiet s (snd (Server.catalog type id extra s)))
  ∧ (∀ type id s, quiet s (snd (Server.meta type id s)))
  ∧ (∀ type id s, quiet s (snd (Server.stream type id s))).
Proof.
  cbv zeta. split; [|split; [|split]].
  - intros s. rewrite server_getBuildId_state. cbn [Server.this Server.network].
    split; [apply axios_get_sent|reflexivity].
  - intros type id extra s.
    destruct (server_catalog_state rt type id extra s) as [-> | (path & ps & field & ->)].
    + split; [reflexivity|]. exists []. rewrite app_nil_r. repeat split; [cbn; lia|constructor].
    + rewrite server_listing_state. cbn [Server.this Server.network].
      split; [reflexivity|]. eexists. split; [apply axios_get_sent|].
      split; [done|]. repeat constructor. apply data_url_not_homepage.
  - intros type id s. rewrite server_meta_state, server_getContentDetails_state.
    cbn [Server.this Server.network].
    split; [reflexivity|]. eexists. split; [apply axios_get_sent|].
    split; [done|]. repeat constructor. cbn [url GET].
    rewrite <- append_assoc. apply data_url_not_homepage.
  - intros type id s. rewrite server_stream_run. cbv zeta.
    cbn [snd Server.this Server.network].
    split; [reflexivity|]. eexists. split; [apply axios_get_sent|].
    split; [done|]. repeat constructor. apply stream_endpoint_not_homepage.
Qed.

(** ** The sibling of [add on.js] *)

Lemma sibling_stream_run (type id : string) (s : Cached.state) :
  let endpoint := Sibling.stream_endpoint (mediaType_of type)
                    (Js.at_index (Js.split ":" id) 1) in
  Sibling.stream type id s
  = (Ok (match fst (axios_get default_config (GET endpoint) (Cached.network s)) with
         | Ok (_, data) =>
             match map_sources Sibling.entry_of (default (Array []) (sources_of data)) with
             | Ok entries => entries
             | Throw _ => []
             end
         | Throw _ => []
         end),
     {| Cached.this := Cached.this s;
        Cached.network := snd (axios_get default_config (GET endpoint) (Cached.network s)) |}).
Proof.
  cbv zeta. unfold Sibling.stream, Sibling.getStreams, Sibling.get. plumb.
  destruct (axios_get default_config _ _) as [[[st d]|e] n]; cbn; [|reflexivity].
  unfold lift. by destruct (map_sources Sibling.entry_of _).
Qed.

Lemma realId_of_composite (prefix x rest : string) :
  Text.occurs ":" prefix = false → Text.occurs ":" x = false →
  Js.at_index (Js.split ":" (prefix +:+ String ":" x)) 1 = Str x
  ∧ Js.at_index (Js.split ":" (prefix +:+ String ":" (x +:+ String ":" rest))) 1 = Str x.
Proof.
  intros Hp Hx.
  rewrite !(split_append _ _ _ Hp), (split_append _ _ _ Hx), (split_plain _ _ Hx).
  by split.
Qed.

(** X24: the stream route of the sibling server does not tell episodes
    apart.  It reads only the second part of the id: for a show [x] it
    sends one request, for the endpoint of the show itself, whatever
    follows the show's id; so the id of any episode gets the same answer
    as the id of the show.  The route leaves the client as it is, and
    answers with no streams when the request fails. *)
Theorem sibling_stream_ignores_episode (type prefix x rest : string) (s : Cached.state) :
  Text.occurs ":" prefix = false → Text.occurs ":" x = false →
  let show := prefix +:+ String ":" x in
  let episode := prefix +:+ String ":" (x +:+ String ":" rest) in
  let endpoint := if String.eqb type "series"
                  then "https://www.cineby.app/api/v2/tv/" +:+ x
                  else "https://www.cineby.app/api/v2/movie/" +:+ x in
  Sibling.stream type episode s = Sibling.stream type show s
  ∧ Cached.this (snd (Sibling.stream type episode s)) = Cached.this s
  ∧ sent (Cached.network (snd (Sibling.stream type episode s)))
    = (sent (Cached.network s) ++ [GET endpoint])%list
  ∧ (∀ e, fst (axios_get default_config (GET endpoint) (Cached.network s)) = Throw e →
          fst (Sibling.stream type episode s) = Ok []).
Proof.
  intros Hp Hx. cbv zeta. destruct (realId_of_composite prefix x rest Hp Hx) as [Hshow Hepisode].
  rewrite !sibling_stream_run. cbv zeta. rewrite Hshow, Hepisode.
  assert (Hend : Sibling.stream_endpoint (mediaType_of type) (Str x)
                 = if String.eqb type "series"
                   then "https://www.cineby.app/api/v2/tv/" +:+ x
                   else "https://www.cineby.app/api/v2/movie/" +:+ x).
  { unfold mediaType_of. by destruct (String.eqb type "series"). }
  rewrite Hend. cbn [fst snd Cached.this Cached.network].
  split; [reflexivity|]. split; [reflexivity|]. split; [apply axios_get_sent|].
  by intros e ->.
Qed.

Lemma sibling_stream_ignores_episode_witness :
  let s := {| Cached.this := Cached.constructor;
              Cached.network := Sample.at_time 1000 Sample.offline |} in
  Sibling.stream "series" "cineby:42:2:5" s = Sibling.stream "series" "cineby:42" s
  ∧ sent (Cached.network (snd (Sibling.stream "series" "cineby:42:2:5" s)))
    = [GET "https://www.cineby.app/api/v2/tv/42"]
  ∧ fst (Sibling.stream "series" "cineby:42:2:5" s) = Ok [].
Proof.
  cbv zeta.
  destruct (sibling_stream_ignores_episode "series" "cineby" "42" "2:5"
              {| Cached.this := Cached.constructor;
                 Cached.network := Sample.at_time 1000 Sample.offline |}
              eq_refl eq_refl) as (Hsame & _ & Hsent & Hfail).
  split; [exact Hsame|]. split; [exact Hsent|].
  exact (Hfail _ eq_refl).
Defined.

Lemma sibling_listing_run (path : string) (field : PageProps → option (list Item))
    (s : Cached.state) :
  let s1 := snd (Cached.getBuildId false s) in
  let u := Cached.baseURL +:+ "/_next/data/"
             +:+ Js.to_string (Cached.buildId (Cached.this s1)) +:+ path in
  Sibling.listing path field s
  = (match fst (axios_get default_config (GET u) (Cached.network s1)) with
     | Ok (_, data) =>
         match Sibling.pageProps_read data with
         | Ok props => Ok (default [] (props ≫= field))
         | Throw e => Throw e
         end
     | Throw e => Throw e
     end,
     {| Cached.this := Cached.this s1;
        Cached.network := snd (axios_get default_config (GET u) (Cached.network s1)) |}).
Proof.
  cbv zeta. unfold Sibling.listing. unfold bind at 1.
  destruct (cached_getBuildId_never_throws false s) as (v & s1 & ->). cbn [snd].
  unfold Sibling.data_url, Sibling.get. plumb.
  destruct (axios_get default_config _ _) as [[[st d]|e] n]; cbn; [|done].
  by destruct (Sibling.pageProps_read d).
Qed.

(** X25: the listing methods of the sibling client fail loudly.
    [getMovies] and [getTVShows] first run [getBuildId], then send one
    request for the page asked, which is page 1 when no page is given,
    under the build id the client then holds; they change nothing that
    [getBuildId] has not changed.  When that request fails they throw its
    error, and when the body is null they throw as well; otherwise they
    return the list of the page, or the empty list when the page has none.
    With a build id cached less than an hour ago the data request is the
    only request. *)
Theorem sibling_listing_fails_loudly (page : val) (s : Cached.state) :
  let s1 := snd (Cached.getBuildId false s) in
  let data_url path := Cached.baseURL +:+ "/_next/data/"
                         +:+ Js.to_string (Cached.buildId (Cached.this s1)) +:+ path in
  let outcome_of path field :=
    match fst (axios_get default_config (GET (data_url path)) (Cached.network s1)) with
    | Ok (_, NoData) =>
        Throw (Js.TypeError "Cannot read properties of null (reading 'pageProps')")
    | Ok (_, data) => Ok (default [] (pageProps_of data ≫= field))
    | Throw e => Throw e
    end in
  let state_of path :=
    {| Cached.this := Cached.this s1;
       Cached.network := snd (axios_get default_config (GET (data_url path))
                                (Cached.network s1)) |} in
  let asked := match page with Undefined => Num 1 | _ => page end in
  let movies_path := "/en/movie.json?page=" +:+ Js.to_string asked in
  let shows_path := "/en/tv.json?page=" +:+ Js.to_string asked in
  Sibling.getMovies page s = (outcome_of movies_path movies, state_of movies_path)
  ∧ Sibling.getTVShows page s = (outcome_of shows_path shows, state_of shows_path)
  ∧ sent (Cached.network (snd (Sibling.getMovies page s)))
    = (sent (Cached.network s1) ++ [GET (data_url movies_path)])%list
  ∧ sent (Cached.network (snd (Sibling.getTVShows page s)))
    = (sent (Cached.network s1) ++ [GET (data_url shows_path)])%list
  ∧ (Js.truthy (Cached.buildId (Cached.this s)) = true →
     clock (Cached.network s) - Cached.buildIdFetchedAt (Cached.this s) < 3600000 →
     s1 = s).
Proof.
  cbv zeta. unfold Sibling.getMovies, Sibling.getTVShows. rewrite !sibling_listing_run.
  cbv zeta. cbn [snd Cached.network]. rewrite !axios_get_sent.
  change (Sibling.or_default page (Num 1))
    with (match page with Undefined => Num 1 | _ => page end).
  repeat split; try (f_equal;
    by destruct (fst (axios_get default_config _ _)) as [[st [page_text|j|]]|e]).
  intros Hid Hage. by rewrite cached_getBuildId_hit.
Qed.

Lemma sibling_listing_fails_loudly_witness :
  Js.truthy (Cached.buildId (Cached.this Sample.cached_warm)) = true
  ∧ fst (Sibling.getMovies (Num 2) Sample.cached_warm)
    = Throw (Js.Error None "ECONNREFUSED" "Network Error")
  ∧ List.map url (sent (Cached.network (snd (Sibling.getMovies (Num 2) Sample.cached_warm))))
    = [ "https://www.cineby.app";
        "https://www.cineby.app/_next/data/abc123/en/movie.json?page=2" ]
  ∧ List.map url (sent (Cached.network (snd (Sibling.getTVShows Undefined Sample.cached_warm))))
    = [ "https://www.cineby.app";
        "https://www.cineby.app/_next/data/abc123/en/tv.json?page=1" ].
Proof.
  assert (H1 : Js.truthy (Cached.buildId (Cached.this Sample.cached_warm)) = true)
    by reflexivity.
  destruct (sibling_listing_fails_loudly (Num 2) Sample.cached_warm)
    as (Hmovies & _ & Hsent & _ & Hwarm).
  destruct (sibling_listing_fails_loudly Undefined Sample.cached_warm)
    as (_ & _ & _ & Hdefault & _).
  split; [exact H1|]. split; [|split].
  - rewrite Hmovies. vm_compute. reflexivity.
  - rewrite Hsent, (Hwarm H1); [reflexivity|vm_compute; reflexivity].
  - rewrite Hdefault, (Hwarm H1); [reflexivity|vm_compute; reflexivity].
Defined.

(** ** What the validated catalog lists *)

Lemma or_truthy (a b : val) : Js.truthy b = true → Js.truthy (Js.or a b) = true.
Proof. intros Hb. unfold Js.or. by destruct (Js.truthy a) eqn:Ha. Qed.

(** The entries projected from items of the wanted kind, possibly after
    [adjust], which keeps the id of an item. *)
Lemma production_project_lists (type : string) (adjust : Item → Item) (items : list Item) :
  type = "movie" ∨ type = "series" →
  (∀ item, item_id (adjust item) = item_id item) →
  Forall (λ item, Js.is_str (mediaType (adjust item)) (mediaType_of type) = true) items →
  Kept.lists type items
    (Js.filter_Boolean
       (List.map (λ item, Production.transformToStremioMeta (Some item))
          (List.map adjust items))).
Proof.
  intros Htype Hid. unfold Kept.lists.
  induction 1 as [|item items Hitem _ IH]; cbn [List.map Js.filter_Boolean List.filter];
    [constructor|].
  destruct (Js.truthy (item_id item)) eqn:Hpresent.
  - assert (Hentry : ∃ m, Production.transformToStremioMeta (Some (adjust item)) = Some m
                          ∧ Kept.listed_as type item m).
    { unfold Production.transformToStremioMeta. rewrite Hid, Hpresent. cbn [negb].
      eexists. split; [reflexivity|].
      apply is_str_spec in Hitem. unfold Kept.listed_as. cbn. rewrite Hitem.
      split; [by destruct Htype as [-> | ->]|].
      split; [reflexivity|]. split; by apply or_truthy. }
    destruct Hentry as (m & -> & Hm). by constructor.
  - assert (Hnone : Production.transformToStremioMeta (Some (adjust item)) = None)
      by (unfold Production.transformToStremioMeta; by rewrite Hid, Hpresent).
    rewrite Hnone. exact IH.
Qed.

Lemma production_project_wanted (type : string) (items : list Item) :
  type = "movie" ∨ type = "series" →
  Forall (λ item, Js.is_str (mediaType item) (mediaType_of type) = true) items →
  Kept.lists type items
    (Js.filter_Boolean (List.map (λ item, Production.transformToStremioMeta (Some item)) items)).
Proof.
  intros Htype Hitems.
  pose proof (production_project_lists type (λ item, item) items Htype (λ _, eq_refl) Hitems)
    as Hlists.
  by rewrite map_id in Hlists.
Qed.

Lemma lists_entries (type : string) (items : list Item) (metas : list Meta) :
  Kept.lists type items metas →
  Forall (λ m, meta_type m = type
               ∧ Js.startsWith "cineby:" (meta_id m) = true
               ∧ Js.truthy (meta_name m) = true
               ∧ Js.truthy (language m) = true) metas.
Proof.
  unfold Kept.lists. induction 1 as [|item m kept metas (Ht & Hi & Hn & Hl) _ IH];
    constructor; [|exact IH].
  rewrite Hi. by rewrite startsWith_prefix.
Qed.

Lemma Forall_filter_wanted (kind : string) (items : list Item) :
  Forall (λ item, Js.is_str (mediaType item) kind = true)
    (List.filter (λ item, Js.is_str (mediaType item) kind) items).
Proof.
  apply Forall_forall. intros item Hitem. apply list_elem_of_In in Hitem.
  by apply filter_In in Hitem as [_ Hitem].
Qed.

Lemma Forall_slice {A} (P : A → Prop) (from to : Z) (l : list A) :
  Forall P l → Forall P (Js.slice from to l).
Proof. intros Hl. unfold Js.slice. by apply Forall_take, Forall_drop. Qed.

Lemma Forall_with_mediaType (kind : string) (items : list Item) :
  Forall (λ item, Js.is_str (mediaType item) kind = true)
    (List.map (with_mediaType (Str kind)) items).
Proof.
  apply Forall_forall. intros item Hitem. apply list_elem_of_In, in_map_iff in Hitem
    as (item0 & <- & _).
  cbn. apply String.eqb_refl.
Qed.

(** X26: what the validated catalog lists.  For a request of a valid
    type, the answer lists the items that the client returned for it
    (the search results or the trending items of the wanted kind, the
    latter cut to the window of the request; the movies, for the type
    movie; the shows, for the type series) that have an id, each under its
    own entry, in the same order, and nothing else: an item without id has
    no entry.  The entry of an item has the type that was asked for, the id
    made of the prefix and the id of the item, a name and a language.  So
    every entry of every catalog answer has the type asked, an id with the
    prefix, a name and a language. *)
Theorem production_catalog_entries (rt : Runtime) (type id : string) (extra : option string)
    (s : Production.state) :
  let search_ := (Production.parse_extra extra).1.1 in
  let skip := (Production.parse_extra extra).1.2 in
  let genre := (Production.parse_extra extra).2 in
  let page := skip / 20 + 1 in
  let wanted item := Js.is_str (mediaType item) (mediaType_of type) in
  let answers items s' :=
    ∃ metas, Production.catalog type id extra s = (Ok (json (Metas metas)), s')
             ∧ Kept.lists type items metas in
  (∀ found s',
     Production.valid_type type = true → Js.truthy search_ = true →
     Production.search search_ page s = (Ok found, s') →
     answers (List.filter wanted found) s')
  ∧ (∀ trending s',
       Production.valid_type type = true → Js.truthy search_ = false →
       id = "cineby-trending-movies" ∨ id = "cineby-trending-series" →
       Production.getTrending s = (Ok trending, s') →
       answers (Js.slice skip (skip + 20) (List.filter wanted trending)) s')
  ∧ (∀ movies s',
       type = "movie" → Js.truthy search_ = false → id = "cineby-movies" →
       Production.getMovies page genre s = (Ok movies, s') →
       answers movies s')
  ∧ (∀ shows s',
       type = "series" → Js.truthy search_ = false → id = "cineby-series" →
       Production.getTVShows page genre s = (Ok shows, s') →
       answers shows s')
  ∧ (∀ metas,
       fst (Production.catalog type id extra s) = Ok (Respond 200 (Metas metas)) →
       Forall (λ m, meta_type m = type
                    ∧ Js.startsWith "cineby:" (meta_id m) = true
                    ∧ Js.truthy (meta_name m) = true
                    ∧ Js.truthy (language m) = true) metas).
Proof.
  cbv zeta. split; [|split; [|split; [|split]]].
  - intros found s' Htype Hsearch Hrun.
    unfold Production.catalog, bind, try_catch. rewrite Htype. cbn [negb].
    destruct (Production.parse_extra extra) as [[search_ skip] genre]. cbn [fst snd] in *.
    rewrite Hsearch, Hrun. unfold ret. eexists. split; [reflexivity|].
    apply valid_type_spec in Htype.
    apply production_project_wanted; [done|apply Forall_filter_wanted].
  - intros trending s' Htype Hsearch Hid Hrun.
    assert (Hcase : String.eqb id "cineby-trending-movies"
                    || String.eqb id "cineby-trending-series" = true)
      by (by destruct Hid as [-> | ->]).
    unfold Production.catalog, bind, try_catch. rewrite Htype. cbn [negb].
    destruct (Production.parse_extra extra) as [[search_ skip] genre]. cbn [fst snd] in *.
    rewrite Hsearch, Hcase, Hrun. unfold ret. eexists. split; [reflexivity|].
    apply valid_type_spec in Htype.
    apply production_project_wanted; [done|apply Forall_slice, Forall_filter_wanted].
  - intros movies s' -> Hsearch -> Hrun.
    unfold Production.catalog, bind, try_catch.
    change (negb (Production.valid_type "movie")) with false. cbv iota.
    destruct (Production.parse_extra extra) as [[search_ skip] genre]. cbn [fst snd] in *.
    rewrite Hsearch.
    change (String.eqb "cineby-movies" "cineby-trending-movies"
            || String.eqb "cineby-movies" "cineby-trending-series") with false.
    change (String.eqb "cineby-movies" "cineby-movies") with true.
    change (String.eqb "movie" "movie") with true. cbv beta iota.
    rewrite Hrun. unfold ret. eexists. split; [reflexivity|].
    apply (production_project_lists "movie" (with_mediaType (Str "movie")));
      [by left|done|].
    apply Forall_forall. by intros item _.
  - intros shows s' -> Hsearch -> Hrun.
    unfold Production.catalog, bind, try_catch.
    change (negb (Production.valid_type "series")) with false. cbv iota.
    destruct (Production.parse_extra extra) as [[search_ skip] genre]. cbn [fst snd] in *.
    rewrite Hsearch.
    change (String.eqb "cineby-series" "cineby-trending-movies"
            || String.eqb "cineby-series" "cineby-trending-series") with false.
    change (String.eqb "cineby-series" "cineby-movies") with false.
    change (String.eqb "cineby-series" "cineby-series") with true.
    change (String.eqb "series" "series") with true. cbv beta iota.
    rewrite Hrun. unfold ret. eexists. split; [reflexivity|].
    apply (production_project_lists "series" (with_mediaType (Str "tv")));
      [by right|done|].
    apply Forall_forall. by intros item _.
  - revert s.
    assert (Hyields : ∀ s, ∃ r, fst (Production.catalog type id extra s) = Ok r
                                ∧ ∀ metas, content r = Metas metas →
                                           ∃ items, Kept.lists type items metas).
    { apply yields_answers; [|discriminate].
      destruct (Production.valid_type type) eqn:Htype; cbn [negb];
        [|apply yields_ret; discriminate].
      apply valid_type_spec in Htype.
      destruct (Production.parse_extra extra) as [[search_ skip] genre]. cbv beta iota zeta.
      destruct (Js.truthy search_).
      { apply yields_then. intros items. apply yields_ret. intros metas [= <-].
        eexists. apply production_project_wanted; [done|apply Forall_filter_wanted]. }
      destruct (String.eqb id "cineby-trending-movies"
                || String.eqb id "cineby-trending-series").
      { apply yields_then. intros items. apply yields_ret. intros metas [= <-].
        eexists. apply production_project_wanted;
          [done|apply Forall_slice, Forall_filter_wanted]. }
      destruct (String.eqb id "cineby-movies").
      { destruct (String.eqb_spec type "movie") as [->|_];
          [|apply yields_ret; intros metas [= <-]; exists []; constructor].
        apply yields_then. intros items. apply yields_ret. intros metas [= <-].
        exists items. apply (production_project_lists "movie" (with_mediaType (Str "movie")));
          [by left|done|]. apply Forall_forall. by intros item _. }
      destruct (String.eqb id "cineby-series").
      { destruct (String.eqb_spec type "series") as [->|_];
          [|apply yields_ret; intros metas [= <-]; exists []; constructor].
        apply yields_then. intros items. apply yields_ret. intros metas [= <-].
        exists items. apply (production_project_lists "series" (with_mediaType (Str "tv")));
          [by right|done|]. apply Forall_forall. by intros item _. }
      apply yields_ret. discriminate. }
    intros s metas Hanswer. destruct (Hyields s) as (r & Hr & Hlisted).
    rewrite Hr in Hanswer. injection Hanswer as ->.
    destruct (Hlisted metas eq_refl) as [items Hitems]. by eapply lists_entries.
Qed.

Lemma production_catalog_entries_witness :
  let items := [ Sample.item 7 (Str "movie") "A film";
                 Sample.item 0 (Str "movie") "No id";
                 Scenario.unidentified (Str "movie");
                 Sample.item 8 (Str "tv") "A show";
                 Sample.item 9 (Str "movie") "Another film" ] in
  let feed := Json {| pageProps :=
                        Some {| trending := Some items;
                                results := None; movies := None; shows := None;
                                detail := Sample.item 0 Undefined "Home"; seasons := None |};
                      sources := None |} in
  let s := Sample.production_at (Sample.site "abc123" (Response 200 feed)) in
  fst (Production.getTrending s) = Ok items
  ∧ ∃ metas,
      fst (Production.catalog (H := Sample.plain_runtime) "movie" "cineby-trending-movies"
             None s)
      = Ok (Respond 200 (Metas metas))
      ∧ List.map meta_id metas = [ "cineby:7"; "cineby:9" ]
      ∧ Kept.lists "movie"
          [ Sample.item 7 (Str "movie") "A film"; Sample.item 0 (Str "movie") "No id";
            Scenario.unidentified (Str "movie"); Sample.item 9 (Str "movie") "Another film" ]
          metas.
Proof.
  cbv zeta.
  match goal with
  | |- fst (Production.getTrending ?s) = Ok ?items ∧ _ =>
      assert (Hitems : fst (Production.getTrending s) = Ok items) by (vm_compute; reflexivity);
      destruct (Production.getTrending s) as [r s'] eqn:Hrun;
      destruct (production_catalog_entries Sample.plain_runtime "movie"
                  "cineby-trending-movies" None s) as (_ & Htrending & _)
  end.
  cbn [fst] in Hitems. subst r. split; [reflexivity|].
  destruct (Htrending _ s' eq_refl eq_refl (or_introl eq_refl) Hrun) as (metas & Hanswer & Hlists).
  exists metas. split; [by rewrite Hanswer|]. split; [|exact Hlists].
  assert (Hmetas : fst (Production.catalog (H := Sample.plain_runtime) "movie"
                          "cineby-trending-movies" None
                          (Sample.production_at
                             (Sample.site "abc123"
                                (Response 200
                                   (Json {| pageProps :=
                                              Some {| trending :=
                                                        Some [ Sample.item 7 (Str "movie") "A film";
                                                               Sample.item 0 (Str "movie") "No id";
                                                               Scenario.unidentified (Str "movie");
                                                               Sample.item 8 (Str "tv") "A show";
                                                               Sample.item 9 (Str "movie")
                                                                 "Another film" ];
                                                      results := None; movies := None;
                                                      shows := None;
                                                      detail := Sample.item 0 Undefined "Home";
                                                      seasons := None |};
                                            sources := None |})))))
                   = Ok (json (Metas metas)))
    by (by rewrite Hanswer).
  vm_compute in Hmetas. injection Hmetas as <-. reflexivity.
Defined.

(** ** Catalogs the servers do not have, and the types they list *)

Lemma not_in_known (id : string) (known : list string) (k : string) :
  id ∉ known → k ∈ known → String.eqb id k = false.
Proof. intros Hid Hk. destruct (String.eqb_spec id k) as [->|]; [done|reflexivity]. Qed.

(** X27: a catalog id the server does not know.  With no search text,
    [server.js] and the retrying server answer an unknown catalog id with
    200 and no metas, without sending a request; the one exception is the
    anime catalog of [server.js], whose branch calls a method the client
    does not have, so that it is always answered 500. *)
Theorem unknown_catalog_is_empty (rt : Runtime) (type id : string) :
  let known := ["cineby-trending-movies"; "cineby-trending-series"; "cineby-movies";
                "cineby-series"] in
  (∀ extra s, Js.truthy (Server.parse_extra extra).1.1 = false →
     (id ∉ known → id ≠ "cineby-anime" →
      Server.catalog type id extra s = (Ok (Respond 200 (Metas [])), s))
     ∧ (id = "cineby-anime" →
        Server.catalog type id extra s
        = (Ok (Respond 500 (ErrorBody "Failed to fetch catalog")), s)))
  ∧ (∀ query s, Js.truthy (Retry.query_val (Retry.query_search query)) = false →
       id ∉ known →
       Retry.catalog type id query s = (Ok (Respond 200 (Metas [])), s)).
Proof.
  cbv zeta. split.
  - intros extra s Hsearch. unfold Server.catalog.
    destruct (Server.parse_extra extra) as [[search_ skip] genre]. cbn in Hsearch.
    rewrite Hsearch. split.
    + intros Hid Hanime.
      rewrite !(not_in_known id _ _ Hid) by (rewrite !elem_of_cons; auto 10).
      by destruct (String.eqb_spec id "cineby-anime").
    + by intros ->.
  - intros query s Hsearch Hid. unfold Retry.catalog. rewrite Hsearch.
    rewrite !(not_in_known id _ _ Hid) by (rewrite !elem_of_cons; auto 10).
    by destruct s.
Qed.

Lemma unknown_catalog_is_empty_witness :
  let s := Sample.server_at Sample.offline in
  Server.catalog (H := Sample.plain_runtime) "movie" "cineby-kids" None s
  = (Ok (Respond 200 (Metas [])), s)
  ∧ Server.catalog (H := Sample.plain_runtime) "series" "cineby-anime" (Some "skip=20") s
    = (Ok (Respond 500 (ErrorBody "Failed to fetch catalog")), s)
  ∧ Retry.catalog (H := Sample.plain_runtime) "series" "cineby-anime" Sample.no_query
      (Sample.retry_at Sample.offline)
    = (Ok (Respond 200 (Metas [])), Sample.retry_at Sample.offline).
Proof.
  cbv zeta.
  assert (Hkids : ∀ known : list string,
            known = ["cineby-trending-movies"; "cineby-trending-series"; "cineby-movies";
                     "cineby-series"] →
            ("cineby-kids" ∉ known) ∧ ("cineby-anime" ∉ known)).
  { intros known ->. split; intros Hin;
      repeat (apply elem_of_cons in Hin as [Hin|Hin]; [discriminate|]);
      by apply elem_of_nil in Hin. }
  destruct (Hkids _ eq_refl) as [Hk Ha].
  split; [|split].
  - apply (proj1 (proj1 (unknown_catalog_is_empty Sample.plain_runtime "movie" "cineby-kids")
                    None (Sample.server_at Sample.offline) eq_refl));
      [exact Hk|discriminate].
  - apply (proj2 (proj1 (unknown_catalog_is_empty Sample.plain_runtime "series" "cineby-anime")
                    (Some "skip=20") (Sample.server_at Sample.offline) eq_refl)).
    reflexivity.
  - apply (proj2 (unknown_catalog_is_empty Sample.plain_runtime "series" "cineby-anime")
             Sample.no_query (Sample.retry_at Sample.offline) eq_refl).
    exact Ha.
Defined.

Lemma map_with_mediaType_type (kind : string) (items : list Item) :
  Forall (λ m, meta_type m = if String.eqb kind "movie" then "movie" else "series")
    (List.map (λ item, Server.transformToStremioMeta (with_mediaType (Str kind) item)) items).
Proof.
  apply Forall_forall. intros m Hm. apply list_elem_of_In, in_map_iff in Hm as (item & <- & _).
  reflexivity.
Qed.

(** X28: the movie and series catalogs of [server.js] and of the retrying
    server do not look at the type of the request.  Every entry of the
    movie catalog is typed movie and every entry of the series catalog is
    typed series, also when the other type was asked for. *)
Theorem listing_catalog_ignores_type (rt : Runtime) (type id : string) (metas : list Meta) :
  id = "cineby-movies" ∨ id = "cineby-series" →
  let kind := if String.eqb id "cineby-movies" then "movie" else "series" in
  (∀ extra s, Js.truthy (Server.parse_extra extra).1.1 = false →
     fst (Server.catalog type id extra s) = Ok (Respond 200 (Metas metas)) →
     Forall (λ m, meta_type m = kind) metas)
  ∧ (∀ query s, Js.truthy (Retry.query_val (Retry.query_search query)) = false →
       fst (Retry.catalog type id query s) = Ok (Respond 200 (Metas metas)) →
       Forall (λ m, meta_type m = kind) metas).
Proof.
  intros Hid. cbv zeta. split.
  - intros extra s Hsearch.
    assert (Hyields : ∃ r, fst (Server.catalog type id extra s) = Ok r
                           ∧ ∀ l, content r = Metas l →
                                  Forall (λ m, meta_type m
                                               = if String.eqb id "cineby-movies"
                                                 then "movie" else "series") l).
    { apply yields_answers; [|discriminate].
      destruct (Server.parse_extra extra) as [[search_ skip] genre]. cbn in Hsearch.
      rewrite Hsearch.
      destruct Hid as [-> | ->]; cbn [String.eqb Ascii.eqb Bool.eqb orb];
        (eapply yields_bind;
         [apply yields_then; intros items; apply yields_ret;
          first [apply (map_with_mediaType_type "movie")
                |apply (map_with_mediaType_type "tv")]
         |intros results Hresults; apply yields_ret; by intros l [= <-]]). }
    destruct Hyields as (r & Hr & Hlisted). rewrite Hr. intros [= ->]. by apply Hlisted.
  - intros query s Hsearch.
    assert (Hyields : ∃ r, fst (Retry.catalog type id query s) = Ok r
                           ∧ ∀ l, content r = Metas l →
                                  Forall (λ m, meta_type m
                                               = if String.eqb id "cineby-movies"
                                                 then "movie" else "series") l).
    { unfold Retry.catalog. cbv zeta. rewrite Hsearch.
      apply yields_answers; [|intros l [= <-]; constructor].
      destruct Hid as [-> | ->]; cbn [String.eqb Ascii.eqb Bool.eqb orb];
        (eapply yields_bind;
         [apply yields_then; intros resolved; apply yields_then; intros items;
          apply yields_ret;
          first [apply (map_with_mediaType_type "movie")
                |apply (map_with_mediaType_type "tv")]
         |intros results Hresults; apply yields_ret; by intros l [= <-]]). }
    destruct Hyields as (r & Hr & Hlisted). rewrite Hr. intros [= ->]. by apply Hlisted.
Qed.

Lemma listing_catalog_ignores_type_witness :
  let page := Json {| pageProps :=
                        Some {| trending := None; results := None;
                                movies := Some [ Sample.item 1 Undefined "A film" ];
                                shows := None;
                                detail := Sample.item 0 Undefined "Films"; seasons := None |};
                      sources := None |} in
  let s := Sample.server_at (Sample.always 200 page) in
  ∃ metas,
    fst (Server.catalog (H := Sample.plain_runtime) "series" "cineby-movies" None s)
    = Ok (Respond 200 (Metas metas))
    ∧ List.map meta_type metas = [ "movie" ]
    ∧ Forall (λ m, meta_type m = "movie") metas.
Proof.
  cbv zeta. eexists.
  match goal with |- ?A ∧ _ => assert (H : A) by (vm_compute; reflexivity) end.
  split; [exact H|]. split; [reflexivity|].
  exact (proj1 (listing_catalog_ignores_type Sample.plain_runtime "series" "cineby-movies" _
                  (or_introl eq_refl)) None _ eq_refl H).
Defined.

(** ** The order of the streams *)

Lemma present_entries (entries : list (option Source)) :
  None ∉ entries → ∃ srcs, entries = Some <$> srcs.
Proof.
  induction entries as [|[source|] entries IH]; intros Hnull.
  - by exists [].
  - destruct IH as [srcs ->].
    + intros Hin. apply Hnull. apply elem_of_cons. by right.
    + by exists (source :: srcs).
  - exfalso. apply Hnull. apply elem_of_cons. by left.
Qed.

Lemma with_url_present (srcs : list Source) :
  omap Production.with_url (Some <$> srcs)
  = List.filter (λ source, Js.truthy (source_url source)) srcs.
Proof.
  induction srcs as [|source srcs IH]; [reflexivity|]. cbn.
  rewrite IH. by destruct (Js.truthy (source_url source)).
Qed.


